(** * MazeRunner GUI (a3.py): a shallow embedding and its properties

    The development follows the classes of [a3.py]: the Python string
    primitives the save file code relies on, the Tk timer of
    [ControlsFrame], the save file reader and writer [MazeRunnerFile], the
    view classes and the controller [GraphicalMazeRunner].

    Python objects that are mutated in place are modelled by explicit state
    passing; a statement that can raise returns an [outcome] together with
    the state reached when the exception left it. *)

From Stdlib Require Import ZArith Ascii String List Lia Bool.
From stdpp Require Import base option list gmap strings.

Local Open Scope Z_scope.

(* ================================================================== *)
(** * Exceptions and the state monad *)
(* ================================================================== *)

(** The exception classes that the modelled code can raise. *)
Inductive exn : Type :=
  | AttributeError
  | IndexError
  | KeyError
  | ValueError
  | TypeError
  | SyntaxError
  | FileNotFoundError
  | RuntimeError.

(** A Python call either returns a value or raises. *)
Inductive outcome (A : Type) : Type :=
  | Returned (a : A)
  | Raised (e : exn).
Arguments Returned {A} a.
Arguments Raised {A} e.

Definition is_raised {A} (o : outcome A) : bool :=
  match o with Returned _ => false | Raised _ => true end.

(** A method acting on a state [S]: the state is returned in both cases,
    since an exception does not undo the assignments made before it. *)
Definition M (S A : Type) : Type := S -> outcome A * S.

Definition ret {S A} (a : A) : M S A := fun s => (Returned a, s).

Definition raise {S A} (e : exn) : M S A := fun s => (Raised e, s).

Definition bind {S A B} (m : M S A) (k : A -> M S B) : M S B :=
  fun s =>
    match m s with
    | (Returned a, s') => k a s'
    | (Raised e, s') => (Raised e, s')
    end.

Definition get {S} : M S S := fun s => (Returned s, s).

Definition put {S} (s : S) : M S unit := fun _ => (Returned tt, s).

Definition modify {S} (f : S -> S) : M S unit := fun s => (Returned tt, f s).

(** Run a method of a component [T] stored inside the state [S]. *)
Definition zoom {S T A} (proj : S -> T) (upd : T -> S -> S) (m : M T A) : M S A :=
  fun s => let '(r, t') := m (proj s) in (r, upd t' s).

(** [try: body except: handler] with a bare [except]. *)
Definition try_except {S A} (body : M S A) (handler : M S A) : M S A :=
  fun s =>
    match body s with
    | (Returned a, s') => (Returned a, s')
    | (Raised _, s') => handler s'
    end.

(** Reading an attribute that may not have been assigned yet. *)
Definition attr {S A} (o : option A) : M S A :=
  match o with
  | Some a => ret a
  | None => raise AttributeError
  end.

Declare Scope py_scope.
Delimit Scope py_scope with py.
Notation "x <- m ;; k" := (bind m (fun x => k))
  (at level 100, m at next level, right associativity) : py_scope.
Notation "m ;;; k" := (bind m (fun _ => k))
  (at level 100, right associativity) : py_scope.

(** [for x in l: body x] *)
Fixpoint for_each {S A} (l : list A) (body : A -> M S unit) : M S unit :=
  match l with
  | [] => ret tt
  | x :: l' => (body x ;;; for_each l' body)%py
  end.

(* ================================================================== *)
(** * Python built-ins used by the module *)
(* ================================================================== *)

(** Strings are sequences of code points below 256. *)
Module Py.

Definition LF : ascii := "010"%char.
Definition CR : ascii := "013"%char.
Definition SPACE : ascii := " "%char.

(** [str.isspace] on one character. *)
Definition isspace (c : ascii) : bool :=
  let n := N_of_ascii c in
  (((9 <=? n) && (n <=? 13)) || ((28 <=? n) && (n <=? 32))
   || (n =? 133) || (n =? 160))%N.

(** [s.lstrip()] *)
Fixpoint lstrip (s : string) : string :=
  match s with
  | EmptyString => EmptyString
  | String c s' => if isspace c then lstrip s' else s
  end.

(** [s.rstrip()] *)
Fixpoint rstrip (s : string) : string :=
  match s with
  | EmptyString => EmptyString
  | String c s' =>
      match rstrip s' with
      | EmptyString => if isspace c then EmptyString else String c EmptyString
      | r => String c r
      end
  end.

(** [s.strip()] *)
Definition strip (s : string) : string := rstrip (lstrip s).

(** [s.startswith(p)] *)
Fixpoint startswith (s p : string) {struct p} : bool :=
  match p with
  | EmptyString => true
  | String a p' =>
      match s with
      | EmptyString => false
      | String b s' => Ascii.eqb b a && startswith s' p'
      end
  end.

(** [s[n:]] for a non-negative constant [n]. *)
Fixpoint slice_from (n : nat) (s : string) : string :=
  match n, s with
  | O, _ => s
  | S n', String _ s' => slice_from n' s'
  | S _, EmptyString => EmptyString
  end.

(** [s.split(sep)[0]] for a one-character separator. *)
Fixpoint split_head (sep : ascii) (s : string) : string :=
  match s with
  | EmptyString => EmptyString
  | String c s' =>
      if Ascii.eqb c sep then EmptyString else String c (split_head sep s')
  end.

(** [s.replace(c, "")] for a one-character [c]. *)
Fixpoint remove_char (c : ascii) (s : string) : string :=
  match s with
  | EmptyString => EmptyString
  | String d s' =>
      if Ascii.eqb d c then remove_char c s' else String d (remove_char c s')
  end.

(** [c in s] for a character [c]. *)
Fixpoint contains (c : ascii) (s : string) : bool :=
  match s with
  | EmptyString => false
  | String d s' => Ascii.eqb d c || contains c s'
  end.

(** ** Integers: [str(n)] and [int(s)] *)

Definition digit_char (d : Z) : ascii := ascii_of_N (Z.to_N (48 + d)).

Definition digit_val (c : ascii) : option Z :=
  let n := Z.of_N (N_of_ascii c) in
  if (48 <=? n) && (n <=? 57) then Some (n - 48) else None.

Fixpoint digits_fuel (fuel : nat) (n : Z) (acc : string) : string :=
  match fuel with
  | O => acc
  | S f =>
      let acc' := String (digit_char (n mod 10)) acc in
      if n <? 10 then acc' else digits_fuel f (n / 10) acc'
  end.

(** Decimal digits of a non-negative integer. *)
Definition str_nonneg (n : Z) : string :=
  digits_fuel (S (Z.to_nat (Z.log2 n))) n EmptyString.

(** [str(n)], which is also what [f"{n}"] inserts. *)
Definition str_int (n : Z) : string :=
  if n <? 0 then String "-"%char (str_nonneg (- n)) else str_nonneg n.

(** The digits of an integer literal given to [int]: decimal digits, with
    single underscores allowed between two digits. [prev] tells whether
    the previous character was a digit. *)
Fixpoint parse_digits (s : string) (acc : Z) (prev : bool) : option Z :=
  match s with
  | EmptyString => if prev then Some acc else None
  | String c s' =>
      match digit_val c with
      | Some d => parse_digits s' (acc * 10 + d) true
      | None =>
          if Ascii.eqb c "_"%char && prev then parse_digits s' acc false
          else None
      end
  end.

(** [int(s)]: [None] stands for [ValueError]. *)
Definition int_of_str (s : string) : option Z :=
  match strip s with
  | EmptyString => None
  | String c r =>
      if Ascii.eqb c "-"%char then Z.opp <$> parse_digits r 0 false
      else if Ascii.eqb c "+"%char then parse_digits r 0 false
      else parse_digits (String c r) 0 false
  end.

Definition int {S} (s : string) : M S Z :=
  match int_of_str s with
  | Some z => ret z
  | None => raise ValueError
  end.

(** ** Text files *)

(** Reading in text mode turns both carriage return, line feed pairs and
    lone carriage returns into a line feed. *)
Fixpoint universal_newlines (s : string) : string :=
  match s with
  | EmptyString => EmptyString
  | String c s' =>
      if Ascii.eqb c CR then
        match s' with
        | String c' _ =>
            if Ascii.eqb c' LF then universal_newlines s'
            else String LF (universal_newlines s')
        | EmptyString => String LF EmptyString
        end
      else String c (universal_newlines s')
  end.

(** The lines produced by iterating over a text: each keeps its line feed;
    the last one may lack it. *)
Fixpoint lines (s : string) : list string :=
  match s with
  | EmptyString => []
  | String c s' =>
      if Ascii.eqb c LF then String c EmptyString :: lines s'
      else match lines s' with
           | [] => [String c EmptyString]
           | l :: ls => String c l :: ls
           end
  end.

(** [for line in file] on a file opened with mode ["r"]. *)
Definition file_lines (content : string) : list string :=
  lines (universal_newlines content).

(** [file.writelines(l)] *)
Definition writelines (l : list string) : string :=
  fold_right String.append EmptyString l.

(** ** Sequences *)

(** [l[i]] with Python's negative indices. *)
Definition index {A} (l : list A) (i : Z) : option A :=
  let n := Z.of_nat (length l) in
  if (0 <=? i) && (i <? n) then l !! Z.to_nat i
  else if (i <? 0) && (- n <=? i) then l !! Z.to_nat (n + i)
  else None.

(** [l[i] = x], where [update] describes the assignment on the element. *)
Definition index_update {A} (l : list A) (i : Z) (update : A -> A) : option (list A) :=
  let n := Z.of_nat (length l) in
  if (0 <=? i) && (i <? n) then Some (alter update (Z.to_nat i) l)
  else if (i <? 0) && (- n <=? i) then Some (alter update (Z.to_nat (n + i)) l)
  else None.

Definition getitem {S A} (l : list A) (i : Z) : M S A :=
  match index l i with
  | Some a => ret a
  | None => raise IndexError
  end.

(** ** Texts, to state properties with *)

(** Whether every character of [s] satisfies [p]. *)
Fixpoint all_chars (p : ascii -> bool) (s : string) : bool :=
  match s with
  | EmptyString => true
  | String c s' => p c && all_chars p s'
  end.

(** The characters that end a line of a file read in text mode. *)
Definition is_break (c : ascii) : bool := Ascii.eqb c LF || Ascii.eqb c CR.

Definition is_digit (c : ascii) : bool :=
  match digit_val c with
  | Some _ => true
  | None => false
  end.

Definition no_space (s : string) : Prop :=
  all_chars (fun c => negb (isspace c)) s = true.

Definition no_break (s : string) : Prop :=
  all_chars (fun c => negb (is_break c)) s = true.

(** A text that fits on one line and that [strip] would not shorten at
    its end. *)
Definition plain (s : string) : Prop :=
  no_break s /\ rstrip s = s /\ s <> "".

(** The characters of [s] that satisfy [p], in their order. *)
Fixpoint keep (p : ascii -> bool) (s : string) : string :=
  match s with
  | EmptyString => EmptyString
  | String c s' => if p c then String c (keep p s') else keep p s'
  end.

(** Lines that each end in a line feed. *)
Definition terminated (bodies : list string) : list string :=
  map (fun b => b +:+ String LF "") bodies.

End Py.

(* ================================================================== *)
(** * The Tk interpreter: scheduled callbacks and message boxes *)
(* ================================================================== *)

Module Tk.

(** The only callback that [a3.py] hands to [after] is the bound method
    [ControlsFrame._handle_timer]. *)
Inductive callback : Type := HandleTimer.

Record after_event : Type := {
  ev_id : nat;          (* the handle that [after] returned *)
  ev_ms : Z;            (* the delay asked for *)
  ev_callback : callback
}.

Record interp : Type := {
  pending : list after_event;  (* callbacks scheduled and not yet run *)
  next_id : nat;               (* the next handle that [after] returns *)
  dialogs : list string        (* messages shown by [messagebox.showinfo] *)
}.

Definition fresh : interp := {| pending := []; next_id := 0%nat; dialogs := [] |}.

(** [widget.after(ms, func)] *)
Definition after (ms : Z) (cb : callback) : M interp nat :=
  fun i =>
    (Returned (next_id i),
     {| pending := pending i ++ [{| ev_id := next_id i; ev_ms := ms; ev_callback := cb |}];
        next_id := S (next_id i);
        dialogs := dialogs i |}).

(** [widget.after_cancel(id)]: the callback with this handle is taken off
    the queue; a handle that has already run is ignored. *)
Definition after_cancel (id : nat) : M interp unit :=
  modify (fun i =>
    {| pending := filter (fun e => ev_id e <> id) (pending i);
       next_id := next_id i;
       dialogs := dialogs i |}).

(** [messagebox.showinfo("", message)] *)
Definition showinfo (message : string) : M interp unit :=
  modify (fun i =>
    {| pending := pending i; next_id := next_id i;
       dialogs := dialogs i ++ [message] |}).

End Tk.

(* ================================================================== *)
(** * ControlsFrame: the timer *)
(* ================================================================== *)

Module ControlsFrame.

(** The attributes of a [ControlsFrame] that the timer uses. An attribute
    that has not been assigned yet is [None]: reading it raises
    [AttributeError]. The two buttons take no part in the timer and are
    left out. *)
Record t : Type := {
  _timer_running : bool;
  _time : Z;
  _timer_value : option string;   (* the label, by the text it shows *)
  _timer_update : option nat      (* the handle of the scheduled callback *)
}.

(** Methods run on the frame together with the interpreter it lives in. *)
Definition st : Type := (t * Tk.interp)%type.

Definition on_frame {A} (m : M t A) : M st A :=
  zoom fst (fun f s => (f, snd s)) m.
Definition on_tk {A} (m : M Tk.interp A) : M st A :=
  zoom snd (fun i s => (fst s, i)) m.

Definition set_time_attr (z : Z) : M t unit :=
  modify (fun f => {| _timer_running := _timer_running f; _time := z;
                      _timer_value := _timer_value f;
                      _timer_update := _timer_update f |}).
Definition set_timer_value (text : string) : M t unit :=
  modify (fun f => {| _timer_running := _timer_running f; _time := _time f;
                      _timer_value := Some text;
                      _timer_update := _timer_update f |}).
Definition set_timer_update (h : nat) : M t unit :=
  modify (fun f => {| _timer_running := _timer_running f; _time := _time f;
                      _timer_value := _timer_value f;
                      _timer_update := Some h |}).

(** [ControlsFrame.__init__] *)
Definition __init__ : t :=
  {| _timer_running := true; _time := 0;
     _timer_value := None; _timer_update := None |}.

(** [_handle_timer_format]: [divmod(time, 60)] and [f"{minutes}m {seconds}s"] *)
Definition _handle_timer_format (time : Z) : string :=
  Py.str_int (time / 60) +:+ "m " +:+ Py.str_int (time mod 60) +:+ "s".

(** [_create_timer]: builds the label that shows the time. *)
Definition _create_timer : M st unit :=
  on_frame (f <- get ;; set_timer_value (_handle_timer_format (_time f)))%py.

(** [draw], as far as the timer goes. *)
Definition draw : M st unit := _create_timer.

(** [get_time] *)
Definition get_time : M st Z :=
  on_frame (f <- get ;; ret (_time f))%py.

(** [self._timer_value.config(text=self._handle_timer_format(self._time))] *)
Definition config_timer_value : M st unit :=
  on_frame (f <- get ;;
            _ <- attr (_timer_value f) ;;
            set_timer_value (_handle_timer_format (_time f)))%py.

(** [self._timer_value.after_cancel(self._timer_update)] *)
Definition cancel_timer_update : M st unit :=
  (f <- on_frame get ;;
   _ <- attr (_timer_value f) ;;
   h <- attr (_timer_update f) ;;
   on_tk (Tk.after_cancel h))%py.

(** [_handle_timer] *)
Definition _handle_timer : M st unit :=
  (config_timer_value ;;;
   f <- on_frame get ;;
   _ <- attr (_timer_value f) ;;
   h <- on_tk (Tk.after 1000 Tk.HandleTimer) ;;
   on_frame (set_timer_update h) ;;;
   f <- on_frame get ;;
   on_frame (set_time_attr (_time f + 1)))%py.

(** [start_timer] *)
Definition start_timer : M st unit := _handle_timer.

(** [stop_timer] *)
Definition stop_timer : M st unit := cancel_timer_update.

(** [set_time] *)
Definition set_time (time : Z) : M st unit :=
  (on_frame (set_time_attr time) ;;;
   cancel_timer_update ;;;
   config_timer_value ;;;
   start_timer)%py.

(** [reset_timer] *)
Definition reset_timer : M st unit :=
  (on_frame (set_time_attr 0) ;;;
   config_timer_value ;;;
   cancel_timer_update ;;;
   start_timer)%py.

(** One turn of [mainloop] in which a scheduled callback is due: the
    oldest one leaves the queue and runs. *)
Definition mainloop_step : M st unit :=
  (i <- on_tk get ;;
   match Tk.pending i with
   | [] => ret tt
   | e :: rest =>
       on_tk (put {| Tk.pending := rest; Tk.next_id := Tk.next_id i;
                     Tk.dialogs := Tk.dialogs i |}) ;;;
       match Tk.ev_callback e with
       | Tk.HandleTimer => _handle_timer
       end
   end)%py.

(** [n] invocations of [_handle_timer]: the first by [start_timer], the
    others by the main loop. *)
Fixpoint ticks (n : nat) : M st unit :=
  match n with
  | O => ret tt
  | S O => start_timer
  | S n' => (ticks n' ;;; mainloop_step)%py
  end.

(** The frame as [GraphicalInterface._create_controls_frame] leaves it:
    constructed, then drawn. *)
Definition created (i : Tk.interp) : st := snd (draw (__init__, i)).

(** What a user of the frame can do with the timer. *)
Inductive op : Type :=
  | OpStart
  | OpStop
  | OpSetTime (time : Z)
  | OpReset
  | OpGetTime
  | OpMainloopStep.

Definition run_op (o : op) : M st unit :=
  match o with
  | OpStart => start_timer
  | OpStop => stop_timer
  | OpSetTime time => set_time time
  | OpReset => reset_timer
  | OpGetTime => (_ <- get_time ;; ret tt)%py
  | OpMainloopStep => mainloop_step
  end.

(** ** States of the frame and of the queue, to state properties with *)

(** The frame once its label exists. *)
Definition drawn (time : Z) (text : string) (h : option nat) : t :=
  {| _timer_running := true; _time := time;
     _timer_value := Some text; _timer_update := h |}.

Definition schedule (i : Tk.interp) : Tk.interp :=
  {| Tk.pending := Tk.pending i ++
       [{| Tk.ev_id := Tk.next_id i; Tk.ev_ms := 1000;
           Tk.ev_callback := Tk.HandleTimer |}];
     Tk.next_id := S (Tk.next_id i);
     Tk.dialogs := Tk.dialogs i |}.

Definition unschedule (h : nat) (i : Tk.interp) : Tk.interp :=
  {| Tk.pending := filter (fun e => Tk.ev_id e <> h) (Tk.pending i);
     Tk.next_id := Tk.next_id i;
     Tk.dialogs := Tk.dialogs i |}.

Definition idle (k : nat) (d : list string) : Tk.interp :=
  {| Tk.pending := []; Tk.next_id := k; Tk.dialogs := d |}.

Definition one_pending (h : nat) (d : list string) : Tk.interp :=
  {| Tk.pending := [{| Tk.ev_id := h; Tk.ev_ms := 1000;
                       Tk.ev_callback := Tk.HandleTimer |}];
     Tk.next_id := S h; Tk.dialogs := d |}.

(** The callback that [_handle_timer] schedules, under its handle. *)
Definition timer_event (h : nat) : Tk.after_event :=
  {| Tk.ev_id := h; Tk.ev_ms := 1000; Tk.ev_callback := Tk.HandleTimer |}.

(** The timer at rest or running at its pace: the label exists, a handle
    has been stored, and the queue is empty or holds the one callback
    that the handle names. *)
Definition settled (s : st) : Prop :=
  exists time text h,
    fst s = drawn time text (Some h)
    /\ (Tk.pending (snd s) = [] \/ Tk.pending (snd s) = [timer_event h]).

Definition is_start (o : op) : bool :=
  match o with
  | OpStart => true
  | _ => false
  end.

(** [n] turns of the main loop. *)
Definition steps (n : nat) : list op := replicate n OpMainloopStep.

End ControlsFrame.
(* ================================================================== *)
(** * The game model that a3.py is built on *)
(* ================================================================== *)

(** [a3.py] imports the game model from [a2_solution] and the constants
    from [constants]; neither module is part of the sources. What [a3.py]
    reads and writes of a model object is modelled by records; what it only
    calls is a member of a class, to be provided by an instance. *)

(** Positions and player stats are tuples of integers. They are lists here,
    so that the empty tuple [()] with which [MazeRunnerFile.load] starts is
    a value too. *)
Definition position : Type := list Z.
Definition stats : Type := list Z.

Class Entities : Type := {
  Item : Type;
  Tile : Type;
  Maze : Type;
  (** the attributes of a [Model] that [a3.py] never touches *)
  ModelState : Type;
  (** [str(item)] *)
  Item_str : Item -> string;
  (** [item.get_id()] *)
  Item_get_id : Item -> string;
  (** [item.get_position()] *)
  Item_get_position : Item -> position;
  (** [tile.get_id()] *)
  Tile_get_id : Tile -> string;
  (** [maze.get_tiles()] *)
  Maze_get_tiles : Maze -> list (list Tile);
  (** [maze.get_dimensions()] *)
  Maze_get_dimensions : Maze -> Z * Z
}.

(** A dictionary keeps its keys in insertion order. *)
Module Dict.
Section defs.
Context {K V : Type} `{EqDecision K}.

Definition t : Type := list (K * V).

(** [k in d] *)
Definition contains (k : K) (d : t) : bool :=
  existsb (fun kv => bool_decide (fst kv = k)) d.

(** [d[k]] *)
Fixpoint lookup (k : K) (d : t) : option V :=
  match d with
  | [] => None
  | (k', v) :: d' => if decide (k' = k) then Some v else lookup k d'
  end.

Definition getitem {S} (k : K) (d : t) : M S V :=
  match lookup k d with
  | Some v => ret v
  | None => raise KeyError
  end.

(** [d.values()] *)
Definition values (d : t) : list V := map snd d.

(** [d.items()] *)
Definition items (d : t) : list (K * V) := d.
End defs.
Arguments t : clear implicits.
End Dict.

Module Inventory.
Section defs.
Context `{Entities}.
Record t : Type := { _items : Dict.t string (list Item) }.
(** [inventory.get_items()] *)
Definition get_items (inv : t) : Dict.t string (list Item) := _items inv.
End defs.
End Inventory.

Module Level.
Section defs.
Context `{Entities}.
Record t : Type := {
  _maze : Maze;
  _items : Dict.t position Item
}.
Definition set_items (d : Dict.t position Item) (l : t) : t :=
  {| _maze := _maze l; _items := d |}.
End defs.
End Level.

Module Player.
Section defs.
Context `{Entities}.
Record t : Type := {
  _position : position;
  _inventory : Inventory.t;
  _health : Z;
  _hunger : Z;
  _thirst : Z
}.
(** [player.get_position()] *)
Definition get_position (p : t) : position := _position p.
(** [player.get_inventory()] *)
Definition get_inventory (p : t) : Inventory.t := _inventory p.
End defs.
End Player.

Module Model.
Section defs.
Context `{Entities}.
Record t : Type := {
  _game_file : string;
  _levels : list Level.t;
  _level_num : Z;
  _player : Player.t;
  _state : ModelState
}.

(** [model.get_player()] *)
Definition get_player (m : t) : Player.t := _player m.

(** [model.get_player_inventory()] *)
Definition get_player_inventory (m : t) : Inventory.t :=
  Player._inventory (_player m).

(** [model.get_player_stats()]: the tuple (health, hunger, thirst). *)
Definition get_player_stats (m : t) : stats :=
  [Player._health (_player m); Player._hunger (_player m);
   Player._thirst (_player m)].

(** [model.get_level()]: the entry of [_levels] at [_level_num]. *)
Definition get_level {S} (m : t) : M S Level.t :=
  Py.getitem (_levels m) (_level_num m).

(** [model.get_current_items()] *)
Definition get_current_items {S} (m : t) : M S (Dict.t position Item) :=
  (l <- get_level m ;; ret (Level._items l))%py.

(** [model.get_current_maze()] *)
Definition get_current_maze {S} (m : t) : M S Maze :=
  (l <- get_level m ;; ret (Level._maze l))%py.
End defs.
End Model.

(** The file system: the text stored under each path. *)
Abbreviation files := (gmap string string).

(** What [a3.py] calls in [a2_solution]. *)
Class A2 `{Entities} : Type := {
  (** [Model(game_file)], which reads the game file *)
  Model_init : files -> string -> outcome Model.t;
  (** [Player(position)] *)
  Player_init : position -> Player.t;
  (** [Inventory(items)] *)
  Inventory_init : list Item -> Inventory.t;
  (** [level.attempt_unlock_door()] *)
  attempt_unlock_door : Level.t -> Level.t;
  (** [model.move_player(delta)] *)
  move_player : Z * Z -> Model.t -> Model.t;
  (** [model.has_won()] *)
  has_won : Model.t -> bool;
  (** [model.has_lost()] *)
  has_lost : Model.t -> bool;
  (** [model.did_level_up()] *)
  did_level_up : Model.t -> bool
}.

(** The constants of [constants.py] that the modelled code reads. *)
Class Constants : Type := {
  TASK : Z;
  COIN : string;
  PLAYER : string;
  MOVE_DELTAS : gmap string (Z * Z);
  TILE_COLOURS : gmap string string;
  ENTITY_COLOURS : gmap string string;
  TILE_IMAGES : gmap string string;
  ENTITY_IMAGES : gmap string string;
  WIN_MESSAGE : string;
  LOSS_MESSAGE : string
}.

(** How Python writes and evaluates the dictionaries and tuples of a save
    file. [f"{d}"] on a dictionary depends on the [__repr__] of the items,
    and [eval] runs any expression: both are taken as given. *)
Class PyText `{Entities} : Type := {
  (** [f"{d}"] for the items of a level *)
  str_entities : Dict.t position Item -> string;
  (** [f"{d}"] for the items of an inventory *)
  str_items : Dict.t string (list Item) -> string;
  (** [eval(s)] where the items of a level are expected *)
  eval_entities : string -> outcome (Dict.t position Item);
  (** [eval(s)] where the items of an inventory are expected *)
  eval_items : string -> outcome (Dict.t string (list Item));
  (** [eval(s)] where a tuple of integers is expected *)
  eval_tuple : string -> outcome (list Z)
}.

(** [f"{t}"] for a tuple of integers. *)
Fixpoint str_tuple_items (l : list Z) : string :=
  match l with
  | [] => ""
  | [x] => Py.str_int x
  | x :: l' => Py.str_int x +:+ ", " +:+ str_tuple_items l'
  end.

Definition str_tuple (l : list Z) : string :=
  match l with
  | [] => "()"
  | [x] => "(" +:+ Py.str_int x +:+ ",)"
  | _ => "(" +:+ str_tuple_items l +:+ ")"
  end.
(* ================================================================== *)
(** * MazeRunnerFile: the save file *)
(* ================================================================== *)

Module MazeRunnerFile.
Section defs.
Context `{A2} `{!PyText}.

(** The keyword arguments given to the constructor become attributes;
    one that was not given is never assigned. *)
Record t : Type := {
  _file_path : option string;
  _model : option Model.t;
  _time : option Z
}.

(** [_save_formatting] *)
Definition _save_formatting (save_value : string) (remove_chars : string) : string :=
  let save_value :=
    fold_left (fun v character => Py.remove_char character v)
              (list_ascii_of_string remove_chars) save_value in
  save_value +:+ String Py.LF "".

(** [open(path, "w")] followed by [file.writelines(l)] *)
Definition open_write (path : string) (l : list string) : M files unit :=
  if decide (path = "") then raise FileNotFoundError
  else modify (fun fs => <[path := Py.writelines l]> fs).

(** [open(path, "r")] *)
Definition open_read (path : string) : M files string :=
  (fs <- get ;;
   match fs !! path with
   | Some content => ret content
   | None => raise FileNotFoundError
   end)%py.

(** [save] *)
Definition save (self : t) : M files unit :=
  (model <- attr (_model self) ;;
   let file_write := [] in
   let level_number := "Level " +:+ Py.str_int (Model._level_num model) in
   let file_write := file_write ++ [_save_formatting level_number ""] in
   let game_file := "File " +:+ Model._game_file model in
   let file_write := file_write ++ [_save_formatting game_file ""] in
   items <- Model.get_current_items model ;;
   let level_entities := "Entities " +:+ str_entities items in
   let file_write := file_write ++ [_save_formatting level_entities ""] in
   let inventory_items :=
     "Inventory " +:+
     str_items (Inventory.get_items (Model.get_player_inventory model)) in
   let file_write := file_write ++ [_save_formatting inventory_items ""] in
   let player_stats := "Stats " +:+ str_tuple (Model.get_player_stats model) in
   let file_write := file_write ++ [_save_formatting player_stats ""] in
   let player_position :=
     "Position " +:+
     str_tuple (Player.get_position (Model.get_player model)) in
   let file_write := file_write ++ [_save_formatting player_position ""] in
   time <- attr (_time self) ;;
   let game_time := "Time " +:+ Py.str_int time in
   let file_write := file_write ++ [_save_formatting game_time ""] in
   path <- attr (_file_path self) ;;
   open_write path file_write)%py.

(** The local variables of [load] that the lines of the file assign. *)
Record locals : Type := {
  level_number : Z;
  game_file : string;
  level_entities : Dict.t position Item;
  inventory_items : Dict.t string (list Item);
  player_stats : list Z;
  player_position : list Z;
  game_time : Z
}.

(** Their values before the file is read. *)
Definition initial : locals :=
  {| level_number := 0; game_file := ""; level_entities := [];
     inventory_items := []; player_stats := []; player_position := [];
     game_time := 0 |}.

Definition of_outcome {S A} (o : outcome A) : M S A := fun s => (o, s).

Definition set_level_number (z : Z) (v : locals) : locals :=
  {| level_number := z; game_file := game_file v;
     level_entities := level_entities v;
     inventory_items := inventory_items v;
     player_stats := player_stats v;
     player_position := player_position v;
     game_time := game_time v |}.
Definition set_game_file (s : string) (v : locals) : locals :=
  {| level_number := level_number v; game_file := s;
     level_entities := level_entities v;
     inventory_items := inventory_items v;
     player_stats := player_stats v;
     player_position := player_position v;
     game_time := game_time v |}.
Definition set_level_entities (d : Dict.t position Item) (v : locals) : locals :=
  {| level_number := level_number v; game_file := game_file v;
     level_entities := d;
     inventory_items := inventory_items v;
     player_stats := player_stats v;
     player_position := player_position v;
     game_time := game_time v |}.
Definition set_inventory_items (d : Dict.t string (list Item)) (v : locals) : locals :=
  {| level_number := level_number v; game_file := game_file v;
     level_entities := level_entities v;
     inventory_items := d;
     player_stats := player_stats v;
     player_position := player_position v;
     game_time := game_time v |}.
Definition set_player_stats (t : list Z) (v : locals) : locals :=
  {| level_number := level_number v; game_file := game_file v;
     level_entities := level_entities v;
     inventory_items := inventory_items v;
     player_stats := t;
     player_position := player_position v;
     game_time := game_time v |}.
Definition set_player_position (t : list Z) (v : locals) : locals :=
  {| level_number := level_number v; game_file := game_file v;
     level_entities := level_entities v;
     inventory_items := inventory_items v;
     player_stats := player_stats v;
     player_position := t;
     game_time := game_time v |}.
Definition set_game_time (z : Z) (v : locals) : locals :=
  {| level_number := level_number v; game_file := game_file v;
     level_entities := level_entities v;
     inventory_items := inventory_items v;
     player_stats := player_stats v;
     player_position := player_position v;
     game_time := z |}.

(** The body of the loop over the lines of the file. *)
Definition load_line (line : string) : M locals unit :=
  let line := Py.strip line in
  if Py.startswith line "Level" then
    (z <- Py.int (Py.split_head Py.SPACE (Py.slice_from 6 line)) ;;
     modify (set_level_number z))%py
  else if Py.startswith line "File" then
    modify (set_game_file (Py.split_head Py.SPACE (Py.slice_from 5 line)))
  else if Py.startswith line "Entities" then
    (d <- of_outcome (eval_entities (Py.slice_from 9 line)) ;;
     modify (set_level_entities d))%py
  else if Py.startswith line "Inventory" then
    (d <- of_outcome (eval_items (Py.slice_from 10 line)) ;;
     modify (set_inventory_items d))%py
  else if Py.startswith line "Stats" then
    (t <- of_outcome (eval_tuple (Py.slice_from 6 line)) ;;
     modify (set_player_stats t))%py
  else if Py.startswith line "Position" then
    (t <- of_outcome (eval_tuple (Py.slice_from 9 line)) ;;
     modify (set_player_position t))%py
  else if Py.startswith line "Time " then
    (z <- Py.int (Py.slice_from 5 line) ;;
     modify (set_game_time z))%py
  else ret tt.

(** The loop of [load] over the text of the file. *)
Definition read_lines (content : string) : outcome unit * locals :=
  for_each (Py.file_lines content) load_line initial.

(** The second half of [load]: a new model for the game file, with the
    values read from the save file written over its attributes. *)
Definition rebuild (fs : files) (v : locals) : outcome (Model.t * Z) :=
  match Model_init fs (game_file v) with
  | Raised e => Raised e
  | Returned model =>
      let player := Player_init (player_position v) in
      let player :=
        {| Player._position := Player._position player;
           Player._inventory := {| Inventory._items := inventory_items v |};
           Player._health := Player._health player;
           Player._hunger := Player._hunger player;
           Player._thirst := Player._thirst player |} in
      match Py.index (player_stats v) 0, Py.index (player_stats v) 1,
            Py.index (player_stats v) 2 with
      | Some health, Some hunger, Some thirst =>
          let player :=
            {| Player._position := Player._position player;
               Player._inventory := Player._inventory player;
               Player._health := health;
               Player._hunger := hunger;
               Player._thirst := thirst |} in
          match Py.index_update (Model._levels model) (level_number v)
                  (fun l => attempt_unlock_door
                              (Level.set_items (level_entities v) l)) with
          | Some levels =>
              Returned
                ({| Model._game_file := Model._game_file model;
                    Model._levels := levels;
                    Model._level_num := level_number v;
                    Model._player := player;
                    Model._state := Model._state model |},
                 game_time v)
          | None => Raised IndexError
          end
      | _, _, _ => Raised IndexError
      end
  end.

(** [load] *)
Definition load (self : t) : M files (Model.t * Z) :=
  (path <- attr (_file_path self) ;;
   content <- open_read path ;;
   match read_lines content with
   | (Raised e, _) => raise e
   | (Returned _, v) => fs <- get ;; of_outcome (rebuild fs v)
   end)%py.

(** ** The format of a save file, to state properties with *)

(** One record: a prefix, a blank, the payload and a line feed. *)
Definition record (prefix payload : string) : string :=
  prefix +:+ " " +:+ payload +:+ String Py.LF "".

(** The seven records made of the values of a model and a time. *)
Definition records (level_num : Z) (game_file : string)
    (items : Dict.t position Item) (inventory : Dict.t string (list Item))
    (player_stats : stats) (player_position : position) (time : Z) : list string :=
  [ record "Level" (Py.str_int level_num);
    record "File" game_file;
    record "Entities" (str_entities items);
    record "Inventory" (str_items inventory);
    record "Stats" (str_tuple player_stats);
    record "Position" (str_tuple player_position);
    record "Time" (Py.str_int time) ].

(** Whether some line of the text, stripped, starts with the prefix. *)
Definition present (prefix content : string) : bool :=
  existsb (fun line => Py.startswith (Py.strip line) prefix)
          (Py.file_lines content).

End defs.
End MazeRunnerFile.
(* ================================================================== *)
(** * The view: LevelView, StatsView, InventoryView, GraphicalInterface *)
(* ================================================================== *)

(** [range(n)] *)
Definition py_range (n : Z) : list Z := map Z.of_nat (seq 0 (Z.to_nat n)).

(** The objects that the view is handed by reference. The view could
    change them in place, so they live in a heap and the view's methods
    run on a state that holds this heap. *)
Inductive pyobj `{Entities} : Type :=
  | ObjMaze (maze : Maze)
  | ObjItems (d : Dict.t position Item)
  | ObjInventory (inv : Inventory.t)
  | ObjList (l : list Item).

(** What a canvas shows. Grid cells stand for the pixel boxes that
    [AbstractGrid.get_bbox] and [get_midpoint] compute from them. *)
Inductive shape : Type :=
  | Rectangle (cell : Z * Z) (fill : string)
  | Oval (cell : Z * Z) (fill : string)
  | Text (cell : Z * Z) (text : string)
  | Image (cell : Z * Z) (tile_id : string).

(** A label of the inventory view: its text, its background and the item
    name that a click on it passes to the item callback. *)
Record label : Type := {
  label_text : string;
  label_bg : option string;
  label_click : option string
}.

Module GUI.
Section defs.
Context `{Entities}.

(** A level view: [images] tells an [ImageLevelView] from a plain
    [LevelView]. *)
Record level_view : Type := {
  images : bool;
  _dimensions : Z * Z;
  level_canvas : list shape;
  _images_raw : list string     (* the tile ids whose image is loaded *)
}.

(** The state on which the methods of the view run. *)
Record world : Type := {
  heap : gmap nat pyobj;
  _level_view : level_view;
  _stats_view : list shape;
  _inventory_view : list label;
  _controls_frame : option ControlsFrame.t;
  tk : Tk.interp
}.

Definition set_heap (h : gmap nat pyobj) (w : world) : world :=
  {| heap := h; _level_view := _level_view w; _stats_view := _stats_view w;
     _inventory_view := _inventory_view w;
     _controls_frame := _controls_frame w; tk := tk w |}.
Definition set_level_view (v : level_view) (w : world) : world :=
  {| heap := heap w; _level_view := v; _stats_view := _stats_view w;
     _inventory_view := _inventory_view w;
     _controls_frame := _controls_frame w; tk := tk w |}.
Definition set_stats_view (c : list shape) (w : world) : world :=
  {| heap := heap w; _level_view := _level_view w; _stats_view := c;
     _inventory_view := _inventory_view w;
     _controls_frame := _controls_frame w; tk := tk w |}.
Definition set_inventory_view (c : list label) (w : world) : world :=
  {| heap := heap w; _level_view := _level_view w;
     _stats_view := _stats_view w; _inventory_view := c;
     _controls_frame := _controls_frame w; tk := tk w |}.
Definition set_controls (cf : ControlsFrame.t) (i : Tk.interp) (w : world) : world :=
  {| heap := heap w; _level_view := _level_view w;
     _stats_view := _stats_view w;
     _inventory_view := _inventory_view w;
     _controls_frame := Some cf; tk := i |}.
Definition set_tk (i : Tk.interp) (w : world) : world :=
  {| heap := heap w; _level_view := _level_view w;
     _stats_view := _stats_view w;
     _inventory_view := _inventory_view w;
     _controls_frame := _controls_frame w; tk := i |}.

(** ** The heap *)

Definition deref (r : nat) : M world pyobj :=
  (w <- get ;;
   match heap w !! r with
   | Some o => ret o
   | None => raise RuntimeError
   end)%py.

(** A new object gets a location that is not in use. *)
Definition alloc (o : pyobj) : M world nat :=
  (w <- get ;;
   let r := fresh (dom (heap w)) in
   modify (set_heap (<[r := o]> (heap w))) ;;;
   ret r)%py.

(** [maze.get_tiles()] *)
Definition get_tiles (maze : nat) : M world (list (list Tile)) :=
  (o <- deref maze ;;
   match o with
   | ObjMaze m => ret (Maze_get_tiles m)
   | _ => raise AttributeError
   end)%py.

(** The dictionary behind [items]. *)
Definition the_items (items : nat) : M world (Dict.t position Item) :=
  (o <- deref items ;;
   match o with
   | ObjItems d => ret d
   | _ => raise TypeError
   end)%py.

(** [inventory.get_items()] *)
Definition get_items (inventory : nat) : M world (Dict.t string (list Item)) :=
  (o <- deref inventory ;;
   match o with
   | ObjInventory inv => ret (Inventory.get_items inv)
   | _ => raise AttributeError
   end)%py.

(** [l.append(item)] *)
Definition append (l : nat) (item : Item) : M world unit :=
  (o <- deref l ;;
   match o with
   | ObjList xs =>
       w <- get ;; modify (set_heap (<[l := ObjList (xs ++ [item])]> (heap w)))
   | _ => raise AttributeError
   end)%py.

(** The items of a list object. *)
Definition the_list (l : nat) : M world (list Item) :=
  (o <- deref l ;;
   match o with
   | ObjList xs => ret xs
   | _ => raise TypeError
   end)%py.

(** [row, col = position], as [AbstractGrid.get_bbox] and
    [get_midpoint] start. *)
Definition cell {S} (p : position) : M S (Z * Z) :=
  match p with
  | [row; col] => ret (row, col)
  | _ => raise ValueError
  end.

(** [d[k]] on one of the constant tables. *)
Definition table {S} (d : gmap string string) (k : string) : M S string :=
  match d !! k with
  | Some v => ret v
  | None => raise KeyError
  end.

(** A method that leaves every object of the heap as it is, whether it
    returns or raises. *)
Definition keeps_heap {A} (m : M world A) : Prop :=
  forall w, heap (snd (m w)) = heap w.

(** A method that leaves every object that is in the heap as it is,
    whether it returns or raises; it may add new objects. *)
Definition extends_heap {A} (m : M world A) : Prop :=
  forall w l o, heap w !! l = Some o -> heap (snd (m w)) !! l = Some o.

(** How the view may differ after a drawing method from what it was
    before: the kind and the dimensions of the level view, the controls
    frame and the interpreter are the same; every image in the cache is
    still there, and no image has been opened twice if none had. *)
Definition evolves (w w' : world) : Prop :=
  images (_level_view w') = images (_level_view w)
  /\ _dimensions (_level_view w') = _dimensions (_level_view w)
  /\ _controls_frame w' = _controls_frame w
  /\ tk w' = tk w
  /\ (forall tile_id, tile_id ∈ _images_raw (_level_view w) ->
                      tile_id ∈ _images_raw (_level_view w'))
  /\ (NoDup (_images_raw (_level_view w)) -> NoDup (_images_raw (_level_view w'))).

Definition evolving {A} (m : M world A) : Prop :=
  forall w, evolves w (snd (m w)).

(** Two states of the view with the same objects and the same drawing,
    in level views of the same kind and dimensions. The caches of images
    may differ. *)
Definition alike (w w' : world) : Prop :=
  heap w = heap w'
  /\ images (_level_view w) = images (_level_view w')
  /\ _dimensions (_level_view w) = _dimensions (_level_view w')
  /\ level_canvas (_level_view w) = level_canvas (_level_view w')
  /\ _stats_view w = _stats_view w'
  /\ _inventory_view w = _inventory_view w'.

(** Two runs that end the same way, in states that are alike. *)
Definition alike_at {A} (w w' : world) (m m' : M world A) : Prop :=
  fst (m w) = fst (m' w') /\ alike (snd (m w)) (snd (m' w')).

(** A method that does not look at the cache of images, but to fill it. *)
Definition uniform {A} (m : M world A) : Prop :=
  forall w w', alike w w' -> alike_at w w' m m.

(** All the items of an inventory, group after group. *)
Definition all_items (d : Dict.t string (list Item)) : list Item :=
  concat (Dict.values d).
End defs.
End GUI.

Module LevelView.
Section defs.
Context `{Entities} `{!Constants}.
Import GUI.

Definition on_view {A} (m : M level_view A) : M world A :=
  zoom _level_view set_level_view m.

Definition create (c : shape) : M world unit :=
  on_view (modify (fun v =>
    {| images := images v; _dimensions := _dimensions v;
       level_canvas := level_canvas v ++ [c];
       _images_raw := _images_raw v |})).

(** [clear] *)
Definition clear : M world unit :=
  on_view (modify (fun v =>
    {| images := images v; _dimensions := _dimensions v;
       level_canvas := []; _images_raw := _images_raw v |})).

(** [set_dimensions] *)
Definition set_dimensions (dimensions : Z * Z) : M world unit :=
  on_view (modify (fun v =>
    {| images := images v; _dimensions := dimensions;
       level_canvas := level_canvas v; _images_raw := _images_raw v |})).

(** [annotate_position] *)
Definition annotate_position (p : position) (text : string) : M world unit :=
  (c <- cell p ;; create (Text c text))%py.

(** [ImageLevelView._store_image]: an image is opened the first time
    its tile id is drawn. Pixel sizes are not modelled. *)
Definition _store_image (tile_id : string) : M world unit :=
  on_view (modify (fun v =>
    if bool_decide (tile_id ∈ _images_raw v) then v
    else {| images := images v; _dimensions := _dimensions v;
            level_canvas := level_canvas v;
            _images_raw := _images_raw v ++ [tile_id] |})).

(** [ImageLevelView._create_image] *)
Definition _create_image (filename : string) (tile_pos : position)
    (tile_id : string) : M world unit :=
  (cell_mid <- cell tile_pos ;;
   _store_image tile_id ;;;
   create (Image cell_mid tile_id))%py.

(** [_draw_tiles], of [LevelView] and of [ImageLevelView] *)
Definition _draw_tiles (tile : Tile) (pos : position) : M world unit :=
  (w <- get ;;
   if images (_level_view w) then
     filename <- table TILE_IMAGES (Tile_get_id tile) ;;
     _create_image filename pos (Tile_get_id tile)
   else
     cell_bbox <- cell pos ;;
     fill <- table TILE_COLOURS (Tile_get_id tile) ;;
     create (Rectangle cell_bbox fill))%py.

(** [_draw_items], of [LevelView] and of [ImageLevelView] *)
Definition _draw_items (item : Item) : M world unit :=
  (w <- get ;;
   if images (_level_view w) then
     filename <- table ENTITY_IMAGES (Item_get_id item) ;;
     _create_image filename (Item_get_position item) (Item_get_id item)
   else
     cell_bbox <- cell (Item_get_position item) ;;
     fill <- table ENTITY_COLOURS (Item_get_id item) ;;
     create (Oval cell_bbox fill) ;;;
     annotate_position (Item_get_position item) (Item_get_id item))%py.

(** [_draw_player], of [LevelView] and of [ImageLevelView] *)
Definition _draw_player (player_pos : position) : M world unit :=
  (w <- get ;;
   if images (_level_view w) then
     filename <- table ENTITY_IMAGES PLAYER ;;
     _create_image filename player_pos PLAYER
   else
     cell_bbox <- cell player_pos ;;
     fill <- table ENTITY_COLOURS PLAYER ;;
     create (Oval cell_bbox fill) ;;;
     annotate_position player_pos PLAYER)%py.

(** The body of the loops of [draw], for the cell of a row and a column. *)
Definition draw_cell (tiles : list (list Tile)) (items : nat)
    (row col : Z) : M world unit :=
  (let pos := [row; col] in
   tile_row <- Py.getitem tiles row ;;
   tile <- Py.getitem tile_row col ;;
   _draw_tiles tile pos ;;;
   d <- the_items items ;;
   if Dict.contains pos d then
     d <- the_items items ;;
     item <- Dict.getitem pos d ;;
     _draw_items item
   else ret tt)%py.

(** [draw] *)
Definition draw (tiles : list (list Tile)) (items : nat)
    (player_pos : position) : M world unit :=
  (clear ;;;
   w <- get ;;
   let '(num_rows, num_cols) := _dimensions (_level_view w) in
   for_each (py_range num_rows) (fun row =>
     for_each (py_range num_cols) (fun col =>
       let pos := [row; col] in
       tile_row <- Py.getitem tiles row ;;
       tile <- Py.getitem tile_row col ;;
       _draw_tiles tile pos ;;;
       d <- the_items items ;;
       if Dict.contains pos d then
         d <- the_items items ;;
         item <- Dict.getitem pos d ;;
         _draw_items item
       else ret tt)) ;;;
   _draw_player player_pos)%py.

(** The table in which a level view looks up a tile: file names for a
    view of images, colours otherwise. *)
Definition tile_table (w : world) : gmap string string :=
  if images (_level_view w) then TILE_IMAGES else TILE_COLOURS.

Definition entity_table (w : world) : gmap string string :=
  if images (_level_view w) then ENTITY_IMAGES else ENTITY_COLOURS.

(** What [LevelView.draw] needs to go through: a known tile at every cell
    of the grid, known items with a position of two coordinates in the
    cells that hold one, and a known player at such a position. *)
Definition drawable (w : world) (tiles : list (list Tile)) (items : nat)
    (player_pos : position) : Prop :=
  (forall row col,
      0 <= row < fst (_dimensions (_level_view w)) ->
      0 <= col < snd (_dimensions (_level_view w)) ->
      exists tile_row tile,
        Py.index tiles row = Some tile_row
        /\ Py.index tile_row col = Some tile
        /\ is_Some (tile_table w !! Tile_get_id tile))
  /\ (exists d,
        heap w !! items = Some (ObjItems d)
        /\ forall row col item,
             0 <= row < fst (_dimensions (_level_view w)) ->
             0 <= col < snd (_dimensions (_level_view w)) ->
             Dict.lookup [row; col] d = Some item ->
             (exists r c, Item_get_position item = [r; c])
             /\ is_Some (entity_table w !! Item_get_id item))
  /\ (exists r c, player_pos = [r; c])
  /\ is_Some (entity_table w !! PLAYER).

(** What the turns of the loops of [draw] rely on: the objects and the
    kind of the level view. *)
Definition same_level (w w' : world) : Prop :=
  heap w' = heap w /\ images (_level_view w') = images (_level_view w).
End defs.
End LevelView.

Module StatsView.
Section defs.
Context `{Entities}.
Import GUI.

(** The table [STATS_TEXT] of [a3.py]. *)
Definition STATS_TEXT : gmap Z string :=
  {[ 0 := "HP"; 1 := "Hunger"; 2 := "Thirst" ]}.

Definition annotate_position (c : Z * Z) (text : string) : M world unit :=
  (w <- get ;; modify (set_stats_view (_stats_view w ++ [Text c text])))%py.

(** [clear] *)
Definition clear : M world unit := modify (set_stats_view []).

(** [_draw_stat_label] *)
Definition _draw_stat_label (stat_index : Z) (stat_text : string)
    (stat_value : Z) : M world unit :=
  (let stat_header_pos := (0, stat_index) in
   annotate_position stat_header_pos stat_text ;;;
   let stat_value_pos := (1, stat_index) in
   annotate_position stat_value_pos (Py.str_int stat_value))%py.

(** [draw_stats] *)
Definition draw_stats (player_stats : stats) : M world unit :=
  for_each (py_range (Z.of_nat (length player_stats))) (fun stat_index =>
    (stat_text <- match STATS_TEXT !! stat_index with
                  | Some s => ret s
                  | None => raise KeyError
                  end ;;
     stat_value <- Py.getitem player_stats stat_index ;;
     _draw_stat_label stat_index stat_text stat_value)%py).

(** The two texts of a stat: its header in row 0 and its value in row 1. *)
Definition stat_texts (stat_index : Z) (stat_text : string)
    (stat_value : Z) : list shape :=
  [Text (0, stat_index) stat_text; Text (1, stat_index) (Py.str_int stat_value)].

(** The body of the loop of [draw_stats]. *)
Definition draw_stat (player_stats : stats) (stat_index : Z) : M world unit :=
  (stat_text <- match STATS_TEXT !! stat_index with
                | Some s => ret s
                | None => raise KeyError
                end ;;
   stat_value <- Py.getitem player_stats stat_index ;;
   _draw_stat_label stat_index stat_text stat_value)%py.

(** [draw_coins] *)
Definition draw_coins (num_coins : Z) : M world unit :=
  _draw_stat_label 3 "Coins" num_coins.
End defs.
End StatsView.

Module InventoryView.
Section defs.
Context `{Entities} `{!Constants}.
Import GUI.

Definition pack (l : label) : M world unit :=
  (w <- get ;; modify (set_inventory_view (_inventory_view w ++ [l])))%py.

(** [clear] *)
Definition clear : M world unit := modify (set_inventory_view []).

(** [_draw_inventory_header] *)
Definition _draw_inventory_header : M world unit :=
  pack {| label_text := "Inventory"; label_bg := None; label_click := None |}.

(** [_draw_item] *)
Definition _draw_item (name : string) (num : Z) (colour : string) : M world unit :=
  pack {| label_text := name +:+ ": " +:+ Py.str_int num;
          label_bg := Some colour; label_click := Some name |}.

(** [draw_inventory] *)
Definition draw_inventory (inventory : nat) : M world unit :=
  (_draw_inventory_header ;;;
   d <- get_items inventory ;;
   for_each (Dict.items d) (fun '(item, value) =>
     let item_name := item in
     let item_count := Z.of_nat (length value) in
     first <- Py.getitem value 0 ;;
     item_colour <- table ENTITY_COLOURS (Item_get_id first) ;;
     _draw_item item_name item_count item_colour))%py.
(** The label that [draw_inventory] makes for the items of one name:
    there is none when the group is empty or when the identifier of its
    first item has no colour. *)
Definition item_label (entry : string * list Item) : option label :=
  match snd entry with
  | [] => None
  | first :: _ =>
      match ENTITY_COLOURS !! Item_get_id first with
      | Some colour =>
          Some {| label_text := fst entry +:+ ": "
                                +:+ Py.str_int (Z.of_nat (length (snd entry)));
                  label_bg := Some colour; label_click := Some (fst entry) |}
      | None => None
      end
  end.

Definition header : label :=
  {| label_text := "Inventory"; label_bg := None; label_click := None |}.

(** The body of the loop of [draw_inventory]. *)
Definition draw_group (entry : string * list Item) : M world unit :=
  (let '(item, value) := entry in
   let item_name := item in
   let item_count := Z.of_nat (length value) in
   first <- Py.getitem value 0 ;;
   item_colour <- table ENTITY_COLOURS (Item_get_id first) ;;
   _draw_item item_name item_count item_colour)%py.
End defs.
End InventoryView.

Module GraphicalInterface.
Section defs.
Context `{A2} `{!Constants}.
Import GUI.

(** Run a method of the controls frame, an attribute that exists only
    when [create_interface] ran with [TASK == 2]. *)
Definition on_controls {A} (m : M ControlsFrame.st A) : M world A :=
  fun w =>
    match _controls_frame w with
    | None => (Raised AttributeError, w)
    | Some cf =>
        let '(r, (cf', i')) := m (cf, tk w) in (r, set_controls cf' i' w)
    end.

(** [_create_level_view]: an [ImageLevelView] in task 2, a [LevelView]
    otherwise, with nothing drawn and no image loaded. *)
Definition _create_level_view (dimensions : Z * Z) : M world unit :=
  modify (set_level_view {| images := TASK =? 2; _dimensions := dimensions;
                            level_canvas := []; _images_raw := [] |}).

(** [_create_stats_view] and [_create_inventory_view] *)
Definition _create_stats_view : M world unit := modify (set_stats_view []).
Definition _create_inventory_view : M world unit :=
  modify (set_inventory_view []).

(** [_create_controls_frame]: the frame is constructed, then drawn. *)
Definition _create_controls_frame : M world unit :=
  modify (fun w =>
    let '(cf, i) := ControlsFrame.created (tk w) in set_controls cf i w).

(** [create_interface]. The menu, the packing of the views and the
    minimal size of the window hold nothing that the game reads, and
    are left out. *)
Definition create_interface (dimensions : Z * Z) : M world unit :=
  (_create_level_view dimensions ;;;
   _create_stats_view ;;;
   _create_inventory_view ;;;
   if TASK =? 2 then _create_controls_frame else ret tt)%py.

(** [clear_all] *)
Definition clear_all : M world unit :=
  (LevelView.clear ;;; InventoryView.clear ;;; StatsView.clear)%py.

(** [set_maze_dimensions] *)
Definition set_maze_dimensions (dimensions : Z * Z) : M world unit :=
  LevelView.set_dimensions dimensions.

(** [start_timer], [stop_timer], [reset_time], [get_time] and [set_time] *)
Definition start_timer : M world unit := on_controls ControlsFrame.start_timer.
Definition stop_timer : M world unit := on_controls ControlsFrame.stop_timer.
Definition reset_time : M world unit := on_controls ControlsFrame.reset_timer.
Definition get_time : M world Z := on_controls ControlsFrame.get_time.
Definition set_time (time : Z) : M world unit :=
  on_controls (ControlsFrame.set_time time).

(** [_draw_level] *)
Definition _draw_level (maze items : nat) (player_position : position) : M world unit :=
  (tiles <- get_tiles maze ;;
   LevelView.draw tiles items player_position)%py.

(** [_draw_player_stats] *)
Definition _draw_player_stats (player_stats : stats) : M world unit :=
  StatsView.draw_stats player_stats.

(** The first part of [_draw_inventory]: the inventory and the number
    of coins that the two views are then given. *)
Definition separate_coins (inventory : nat) : M world (nat * Z) :=
  (let coins := 0 in
   let modified_inventory := inventory in
   d <- get_items inventory ;;
   if Dict.contains "Coin" d then
     modified_items <- alloc (ObjList []) ;;
     d <- get_items inventory ;;
     group <- Dict.getitem "Coin" d ;;
     let coins := Z.of_nat (length group) in
     d <- get_items inventory ;;
     for_each (Dict.values d) (fun item_group =>
       for_each item_group (fun item =>
         if bool_decide (Item_str item <> COIN)
         then append modified_items item
         else ret tt)) ;;;
     l <- the_list modified_items ;;
     modified_inventory <- alloc (ObjInventory (Inventory_init l)) ;;
     ret (modified_inventory, coins)
   else ret (modified_inventory, coins))%py.

(** [_draw_inventory] *)
Definition _draw_inventory (inventory : nat) : M world unit :=
  (arguments <- separate_coins inventory ;;
   let '(modified_inventory, coins) := arguments in
   InventoryView.draw_inventory modified_inventory ;;;
   StatsView.draw_coins coins)%py.

(** [draw] *)
Definition draw (maze items : nat) (player_position : position)
    (inventory : nat) (player_stats : stats) : M world unit :=
  (_draw_level maze items player_position ;;;
   _draw_player_stats player_stats ;;;
   _draw_inventory inventory)%py.

(** [draw_inventory] *)
Definition draw_inventory (inventory : nat) : M world unit :=
  _draw_inventory inventory.
End defs.
End GraphicalInterface.
(* ================================================================== *)
(** * GraphicalMazeRunner: the controller *)
(* ================================================================== *)

Module GraphicalMazeRunner.
Section defs.
Context `{A2} `{!Constants} `{!PyText}.

(** The controller with the view it owns and the file system it reads
    and writes. The root window is the interpreter inside the view. *)
Record t : Type := {
  _model : Model.t;
  _game_file : string;
  _view : GUI.world;
  disk : files
}.

Definition set_model (m : Model.t) (c : t) : t :=
  {| _model := m; _game_file := _game_file c; _view := _view c;
     disk := disk c |}.
Definition set_game_file (g : string) (c : t) : t :=
  {| _model := _model c; _game_file := g; _view := _view c;
     disk := disk c |}.
Definition set_view (w : GUI.world) (c : t) : t :=
  {| _model := _model c; _game_file := _game_file c; _view := w;
     disk := disk c |}.
Definition set_disk (fs : files) (c : t) : t :=
  {| _model := _model c; _game_file := _game_file c; _view := _view c;
     disk := fs |}.

Definition on_view {A} (m : M GUI.world A) : M t A := zoom _view set_view m.
Definition on_disk {A} (m : M files A) : M t A := zoom disk set_disk m.
Definition on_root {A} (m : M Tk.interp A) : M t A :=
  on_view (zoom GUI.tk GUI.set_tk m).

(** The locations of the objects that the controller hands to the
    view: the maze and the items of the current level, and the
    inventory of the player. *)
Definition MAZE : nat := 0.
Definition ITEMS : nat := 1.
Definition INVENTORY : nat := 2.

Definition objects (maze : Maze) (items : Dict.t position Item)
    (inv : Inventory.t) : gmap nat pyobj :=
  {[ MAZE := ObjMaze maze; ITEMS := ObjItems items;
     INVENTORY := ObjInventory inv ]}.

(** The model with the objects read back from the heap. *)
Definition read_back (h : gmap nat pyobj) (m : Model.t) : Model.t :=
  let update (l : Level.t) : Level.t :=
    {| Level._maze := match h !! MAZE with
                      | Some (ObjMaze maze) => maze
                      | _ => Level._maze l
                      end;
       Level._items := match h !! ITEMS with
                       | Some (ObjItems d) => d
                       | _ => Level._items l
                       end |} in
  let player := Model._player m in
  {| Model._game_file := Model._game_file m;
     Model._levels :=
       match Py.index_update (Model._levels m) (Model._level_num m) update with
       | Some levels => levels
       | None => Model._levels m
       end;
     Model._level_num := Model._level_num m;
     Model._player :=
       {| Player._position := Player._position player;
          Player._inventory := match h !! INVENTORY with
                               | Some (ObjInventory inv) => inv
                               | _ => Player._inventory player
                               end;
          Player._health := Player._health player;
          Player._hunger := Player._hunger player;
          Player._thirst := Player._thirst player |};
     Model._state := Model._state m |}.

(** Modelled from the spec: [MazeRunner._redraw] of the absent
    [a2_solution], the callback that triggers a full redraw: it hands
    the current maze, the current items, the position of the player,
    the inventory and the stats of the player to the [draw] of the
    view. The view works on the very objects of the model. *)
Definition MazeRunner_redraw : M t unit :=
  (c <- get ;;
   let m := _model c in
   maze <- Model.get_current_maze m ;;
   items <- Model.get_current_items m ;;
   let position := Player.get_position (Model.get_player m) in
   let inventory := Model.get_player_inventory m in
   let player_stats := Model.get_player_stats m in
   on_view (modify (GUI.set_heap (objects maze items inventory))) ;;;
   fun c =>
     let '(r, w) := GraphicalInterface.draw MAZE ITEMS position INVENTORY
                      player_stats (_view c) in
     (r, set_model (read_back (GUI.heap w) (_model c)) (set_view w c)))%py.

(** [_get_finished_state] *)
Definition _get_finished_state (c : t) : bool :=
  has_won (_model c) || has_lost (_model c).

(** [_create_message_box] *)
Definition _create_message_box (message : string) : M t unit :=
  on_root (Tk.showinfo message).

(** [_redraw] *)
Definition _redraw : M t unit :=
  (on_view GraphicalInterface.clear_all ;;; MazeRunner_redraw)%py.

(** [_handle_level_update] *)
Definition _handle_level_update : M t unit :=
  (c <- get ;;
   (if did_level_up (_model c) then
      maze <- Model.get_current_maze (_model c) ;;
      on_view (GraphicalInterface.set_maze_dimensions
                 (Maze_get_dimensions maze))
    else ret tt) ;;;
   (if _get_finished_state c && (TASK =? 2) then
      on_view GraphicalInterface.stop_timer
    else ret tt) ;;;
   if has_won (_model c) then _create_message_box WIN_MESSAGE
   else if has_lost (_model c) then _create_message_box LOSS_MESSAGE
   else _redraw)%py.

(** [_handle_move]. [MOVE_DELTAS.get(move)] is [None] for a key that
    is not in the table, on which [move_player] cannot compute. *)
Definition _handle_move (move : string) : M t unit :=
  (match MOVE_DELTAS !! move with
   | Some delta => modify (fun c => set_model (move_player delta (_model c)) c)
   | None => raise TypeError
   end ;;;
   _handle_level_update)%py.

(** [_handle_keypress], on the character [e.char] of the event. *)
Definition _handle_keypress (char : string) : M t unit :=
  (c <- get ;;
   if bool_decide (is_Some (MOVE_DELTAS !! char))
      && negb (_get_finished_state c)
   then _handle_move char
   else ret tt)%py.

(** [_create_new_game_model] *)
Definition _create_new_game_model (model : Model.t) : M t unit :=
  (modify (set_model model) ;;;
   c <- get ;;
   maze <- Model.get_current_maze (_model c) ;;
   on_view (GraphicalInterface.set_maze_dimensions
              (Maze_get_dimensions maze)) ;;;
   on_view GraphicalInterface.reset_time ;;;
   _redraw)%py.

(** [_handle_save_game], for the path that the save dialog returned. *)
Definition _handle_save_game (file_path : string) : M t unit :=
  (c <- get ;;
   let model := _model c in
   time <- on_view GraphicalInterface.get_time ;;
   on_disk (MazeRunnerFile.save
              {| MazeRunnerFile._file_path := Some file_path;
                 MazeRunnerFile._model := Some model;
                 MazeRunnerFile._time := Some time |}))%py.

(** [MazeRunnerFile(file_path)], as [_handle_load_game] builds it. *)
Definition reader (path : string) : MazeRunnerFile.t :=
  {| MazeRunnerFile._file_path := Some path;
     MazeRunnerFile._model := None;
     MazeRunnerFile._time := None |}.

(** The body of the [try] statement of [_handle_load_game]. *)
Definition load_game_body (file_path : string) : M t unit :=
  (model_state <- on_disk (MazeRunnerFile.load
                   {| MazeRunnerFile._file_path := Some file_path;
                      MazeRunnerFile._model := None;
                      MazeRunnerFile._time := None |}) ;;
   _create_new_game_model (fst model_state) ;;;
   on_view (GraphicalInterface.set_time (snd model_state)))%py.

(** [_handle_load_game], for the path that the open dialog returned. *)
Definition _handle_load_game (file_path : string) : M t unit :=
  try_except (load_game_body file_path)
             (_create_message_box "Select Valid File Type!").

(** [_try_open_file] *)
Definition _try_open_file (game_file : string) : M t bool :=
  (c <- get ;;
   match disk c !! game_file with
   | Some _ => ret true
   | None => _create_message_box "Path Not Found!" ;;; ret false
   end)%py.

(** [_create_new_game_file] *)
Definition _create_new_game_file (game_file : string) : M t unit :=
  (ok <- _try_open_file game_file ;;
   if ok then
     c <- get ;;
     model <- MazeRunnerFile.of_outcome (Model_init (disk c) game_file) ;;
     _create_new_game_model model ;;;
     modify (set_game_file game_file)
   else ret tt)%py.

(** [_handle_restart_game] *)
Definition _handle_restart_game : M t unit :=
  (c <- get ;; _create_new_game_file (_game_file c))%py.

(** The controller after a run of key events. Each event runs the
    callback on the state that the one before left, whether that one
    returned or raised. *)
Definition after_keypresses (chars : list string) (c : t) : t :=
  fold_left (fun c char => snd (_handle_keypress char c)) chars c.

(** What the three views show. *)
Definition drawing (c : t) : list shape * list shape * list label :=
  (GUI.level_canvas (GUI._level_view (_view c)),
   GUI._stats_view (_view c),
   GUI._inventory_view (_view c)).

(** The messages that the message boxes have shown so far. *)
Definition shown (c : t) : list string := Tk.dialogs (GUI.tk (_view c)).

(** The time of the timer, when there is one. *)
Definition time_of (c : t) : option Z :=
  ControlsFrame._time <$> GUI._controls_frame (_view c).

(** The first step of [_handle_level_update]: the view takes the
    dimensions of the maze when the level has changed. *)
Definition update_dimensions : M t unit :=
  (c <- get ;;
   if did_level_up (_model c) then
     maze <- Model.get_current_maze (_model c) ;;
     on_view (GraphicalInterface.set_maze_dimensions
                (Maze_get_dimensions maze))
   else ret tt)%py.

(** Its second step when the game is finished. *)
Definition stop_timer_in_task_2 : M t unit :=
  if TASK =? 2 then on_view GraphicalInterface.stop_timer else ret tt.

(** [play]. The callbacks that it registers are the handlers of this
    class: an event is modelled as a call of its handler. *)
Definition play : M t unit :=
  (c <- get ;;
   maze <- Model.get_current_maze (_model c) ;;
   on_view (GraphicalInterface.create_interface (Maze_get_dimensions maze)) ;;;
   (if TASK =? 2 then on_view GraphicalInterface.start_timer else ret tt) ;;;
   _redraw)%py.

(** A turn of the main loop in which a callback of the timer may be
    due. Without a controls frame nothing is ever scheduled. *)
Definition mainloop_turn : M t unit :=
  on_view (fun w =>
    match GUI._controls_frame w with
    | None => (Returned tt, w)
    | Some _ => GraphicalInterface.on_controls ControlsFrame.mainloop_step w
    end).

(** What happens to the controller once [play] has run: a key, the
    restart button, a path entered in the prompt of a new game, a path
    chosen in the save or in the open dialog, and the turns of the
    main loop. *)
Inductive event : Type :=
  | KeyPress (char : string)
  | Restart
  | NewGame (game_file : string)
  | SaveGame (file_path : string)
  | LoadGame (file_path : string)
  | MainloopTurn.

Definition handle (e : event) : M t unit :=
  match e with
  | KeyPress char => _handle_keypress char
  | Restart => _handle_restart_game
  | NewGame game_file => _create_new_game_file game_file
  | SaveGame file_path => _handle_save_game file_path
  | LoadGame file_path => _handle_load_game file_path
  | MainloopTurn => mainloop_turn
  end.

(** The controller after a run of events. As Tk does, each callback
    runs on the state that the one before left, whether that one
    returned or raised. *)
Definition after_events (events : list event) (c : t) : t :=
  fold_left (fun c e => snd (handle e c)) events c.

(** The timer of the view is settled. *)
Definition timer_settled (c : t) : Prop :=
  exists cf, GUI._controls_frame (_view c) = Some cf
             /\ ControlsFrame.settled (cf, GUI.tk (_view c)).

(** The controls frame and the queue of callbacks are in [c'] as they
    are in [c]. *)
Definition same_timer (c c' : t) : Prop :=
  GUI._controls_frame (_view c') = GUI._controls_frame (_view c)
  /\ Tk.pending (GUI.tk (_view c')) = Tk.pending (GUI.tk (_view c)).

(** A method that leaves the timer alone, one that leaves it settled
    and one that shows no message box, whether they return or raise. *)
Definition keeps_timer {A} (m : M t A) : Prop :=
  forall c, same_timer c (snd (m c)).

Definition keeps_settled {A} (m : M t A) : Prop :=
  forall c, timer_settled c -> timer_settled (snd (m c)).

Definition keeps_shown {A} (m : M t A) : Prop :=
  forall c, shown (snd (m c)) = shown c.

(** The events that are left to a finished game: keys and turns of
    the main loop. *)
Definition key_or_turn (e : event) : bool :=
  match e with
  | KeyPress _ | MainloopTurn => true
  | _ => false
  end.

(** A method that leaves the game file of the controller and the
    disk as they are, whether it returns or raises. *)
Definition keeps_file_and_disk (m : M t unit) : Prop :=
  forall c, _game_file (snd (m c)) = _game_file c
            /\ disk (snd (m c)) = disk c.

End defs.
End GraphicalMazeRunner.
(* ================================================================== *)
(** * A small game to run the code on *)
(* ================================================================== *)

(** An instance of the classes above: a corridor of three cells with a
    coin in the middle and the exit at the right end. It provides the
    concrete inputs at which the statements below are evaluated. *)
Module Demo.

Record item : Type := { name : string; id : string; at_cell : position }.

#[global] Instance item_eq_dec : EqDecision item.
Proof. solve_decision. Defined.

Definition coin (p : position) : item :=
  {| name := "Coin"; id := "C"; at_cell := p |}.
Definition potion (p : position) : item :=
  {| name := "Potion"; id := "M"; at_cell := p |}.

#[global] Instance entities : Entities := {|
  Item := item;
  Tile := string;
  Maze := list (list string);
  ModelState := position;           (* the cell of the exit *)
  Item_str := id;
  Item_get_id := id;
  Item_get_position := at_cell;
  Tile_get_id := fun tile => tile;
  Maze_get_tiles := fun maze => maze;
  Maze_get_dimensions := fun maze =>
    (Z.of_nat (length maze), Z.of_nat (length (hd [] maze)))
|}.

Definition corridor : Level.t :=
  {| Level._maze := [[" "; " "; "D"]];
     Level._items := [([0; 1], coin [0; 1])] |}.

Definition new_player (p : position) : Player.t :=
  {| Player._position := p;
     Player._inventory := {| Inventory._items := [] |};
     Player._health := 100; Player._hunger := 0; Player._thirst := 0 |}.

(** [Inventory.add_item]: the item joins the group of its name. *)
Fixpoint add_item (it : item) (d : Dict.t string (list item)) : Dict.t string (list item) :=
  match d with
  | [] => [(name it, [it])]
  | (k, group) :: d' =>
      if decide (k = name it) then (k, group ++ [it]) :: d'
      else (k, group) :: add_item it d'
  end.

Definition new_model (game_file : string) : Model.t :=
  {| Model._game_file := game_file;
     Model._levels := [corridor];
     Model._level_num := 0;
     Model._player := new_player [0; 0];
     Model._state := [0; 2] |}.

Definition step (delta : Z * Z) (p : position) : position :=
  match p with
  | [row; col] => [row + fst delta; col + snd delta]
  | _ => p
  end.

#[global] Instance a2 : A2 := {|
  Model_init := fun fs game_file =>
    match fs !! game_file with
    | Some _ => Returned (new_model game_file)
    | None => Raised FileNotFoundError
    end;
  Player_init := new_player;
  Inventory_init := fun l =>
    {| Inventory._items := fold_left (fun d it => add_item it d) l [] |};
  attempt_unlock_door := fun l => l;
  move_player := fun delta m =>
    let p := Model._player m in
    {| Model._game_file := Model._game_file m;
       Model._levels := Model._levels m;
       Model._level_num := Model._level_num m;
       Model._player :=
         {| Player._position := step delta (Player._position p);
            Player._inventory := Player._inventory p;
            Player._health := Player._health p;
            Player._hunger := Player._hunger p;
            Player._thirst := Player._thirst p |};
       Model._state := Model._state m |};
  has_won := fun m =>
    bool_decide (Player._position (Model._player m) = Model._state m);
  has_lost := fun m => Player._health (Model._player m) <=? 0;
  did_level_up := fun _ => false
|}.

#[global] Instance constants : Constants := {|
  TASK := 2;
  COIN := "C";
  PLAYER := "P";
  MOVE_DELTAS := {[ "w" := (-1, 0); "a" := (0, -1); "s" := (1, 0); "d" := (0, 1) ]};
  TILE_COLOURS := {[ " " := "grey"; "D" := "red" ]};
  ENTITY_COLOURS := {[ "C" := "yellow"; "M" := "green"; "P" := "blue" ]};
  TILE_IMAGES := {[ " " := "grass.png"; "D" := "door.png" ]};
  ENTITY_IMAGES := {[ "C" := "coin.png"; "M" := "potion.png"; "P" := "player.png" ]};
  WIN_MESSAGE := "You won!";
  LOSS_MESSAGE := "You lost!"
|}.

(** The text of an item as its [__repr__] gives it, and of the two
    dictionaries. *)
Definition repr_item (it : item) : string :=
  name it +:+ "(" +:+ str_tuple (at_cell it) +:+ ")".

Fixpoint join (sep : string) (l : list string) : string :=
  match l with
  | [] => ""
  | [s] => s
  | s :: l' => s +:+ sep +:+ join sep l'
  end.

Definition repr_entities (d : Dict.t position item) : string :=
  "{" +:+ join ", " (map (fun kv => str_tuple (fst kv) +:+ ": " +:+ repr_item (snd kv)) d)
      +:+ "}".

Definition repr_items (d : Dict.t string (list item)) : string :=
  "{" +:+ join ", " (map (fun kv => "'" +:+ fst kv +:+ "': [" +:+
                                    join ", " (map repr_item (snd kv)) +:+ "]") d)
      +:+ "}".

(** [eval] on the texts that the examples use; any other text counts
    as a syntax error here. *)
Definition eval_in {A} (repr : A -> string) (known : list A) (s : string) : outcome A :=
  match List.find (fun v => bool_decide (repr v = s)) known with
  | Some v => Returned v
  | None => Raised SyntaxError
  end.

#[global] Instance py_text : PyText := {|
  str_entities := repr_entities;
  str_items := repr_items;
  eval_entities := eval_in repr_entities [ []; [([0; 1], coin [0; 1])] ];
  eval_items := eval_in repr_items
    [ []; [("Potion", [])]; [("Coin", [coin [0; 1]])];
      [("Coin", [coin [0; 1]]); ("Potion", [potion [0; 0]])] ];
  eval_tuple := eval_in str_tuple
    [ []; [0; 0]; [0; 1]; [0; 2]; [100; 0; 0]; [90; 3; 4] ]
|}.

(** The window of a game that has been running for 42 seconds, before
    a drawing: the views created for the corridor, the timer ticking. *)
Definition window : GUI.world :=
  {| GUI.heap := ∅;
     GUI._level_view :=
       {| GUI.images := true; GUI._dimensions := (1, 3);
          GUI.level_canvas := []; GUI._images_raw := [] |};
     GUI._stats_view := [];
     GUI._inventory_view := [];
     GUI._controls_frame :=
       Some (fst (snd (ControlsFrame.ticks 42 (ControlsFrame.created Tk.fresh))));
     GUI.tk := snd (snd (ControlsFrame.ticks 42 (ControlsFrame.created Tk.fresh))) |}.

(** A running game: the files on disk, the model of the game file and
    the window after its first drawing. *)
Definition game_disk : files := {[ "demo.txt" := "   D" ]}.

Definition started : GraphicalMazeRunner.t :=
  snd (GraphicalMazeRunner._redraw
         {| GraphicalMazeRunner._model := new_model "demo.txt";
            GraphicalMazeRunner._game_file := "demo.txt";
            GraphicalMazeRunner._view := window;
            GraphicalMazeRunner.disk := game_disk |}).

(** The controller as [GraphicalMazeRunner("demo.txt", root)] makes it,
    before [play]: no view has been created yet. *)
Definition constructed : GraphicalMazeRunner.t :=
  {| GraphicalMazeRunner._model := new_model "demo.txt";
     GraphicalMazeRunner._game_file := "demo.txt";
     GraphicalMazeRunner._view :=
       {| GUI.heap := ∅;
          GUI._level_view :=
            {| GUI.images := false; GUI._dimensions := (0, 0);
               GUI.level_canvas := []; GUI._images_raw := [] |};
          GUI._stats_view := [];
          GUI._inventory_view := [];
          GUI._controls_frame := None;
          GUI.tk := Tk.fresh |};
     GraphicalMazeRunner.disk := game_disk |}.

(** The text of a file, by its lines. *)
Definition text (lines : list string) : string :=
  Py.writelines (map (fun l => l +:+ String Py.LF "") lines).

(** The game after a step to the right: the player stands next to the
    exit. *)
Definition near_exit : GraphicalMazeRunner.t :=
  snd (GraphicalMazeRunner._handle_keypress "d" started).

(** The same game with two more files on the disk: a save file whose
    inventory has a name without items, and one with two records. *)
Definition with_saves : GraphicalMazeRunner.t :=
  GraphicalMazeRunner.set_disk
    (<["partial.txt" := text ["File demo.txt"; "Stats (100, 0, 0)"]]>
       (<["group.txt" := text ["File demo.txt"; "Inventory {'Potion': []}";
                               "Stats (100, 0, 0)"; "Position (0, 0)"]]>
          game_disk))
    near_exit.

(** ** Inventories *)

(** Two coins and a potion, each under the name of its class. *)
Definition purse : Inventory.t :=
  {| Inventory._items :=
       [("Coin", [coin [0; 1]; coin [0; 2]]); ("Potion", [potion [0; 0]])] |}.

(** A coin under another key, as [eval] makes it of the text
    [{'Gold': [Coin((0, 1))]}]. *)
Definition gold : Inventory.t :=
  {| Inventory._items := [("Gold", [coin [0; 1]])] |}.

(** The window with the objects of a game in its heap. *)
Definition window_with (inv : Inventory.t) : GUI.world :=
  GUI.set_heap
    (GraphicalMazeRunner.objects (Level._maze corridor) (Level._items corridor) inv)
    window.

(** ** Save files *)

(** A save file with a File and a Stats record only. *)
Definition two_records : string :=
  text ["File demo.txt"; "Stats (100, 0, 0)"].

(** What [load] makes of it. *)
Definition two_records_loaded : Model.t :=
  {| Model._game_file := "demo.txt";
     Model._levels := [ {| Level._maze := [[" "; " "; "D"]]; Level._items := [] |} ];
     Model._level_num := 0;
     Model._player :=
       {| Player._position := [];
          Player._inventory := {| Inventory._items := [] |};
          Player._health := 100; Player._hunger := 0; Player._thirst := 0 |};
     Model._state := [0; 2] |}.

(** A save file as [save] writes it. *)
Definition seven_records : string :=
  text ["Level 0"; "File demo.txt"; "Entities {(0, 1): Coin((0, 1))}";
        "Inventory {}"; "Stats (90, 3, 4)"; "Position (0, 1)"; "Time 75"].

Definition seven_records_loaded : Model.t :=
  {| Model._game_file := "demo.txt";
     Model._levels := [corridor];
     Model._level_num := 0;
     Model._player :=
       {| Player._position := [0; 1];
          Player._inventory := {| Inventory._items := [] |};
          Player._health := 90; Player._hunger := 3; Player._thirst := 4 |};
     Model._state := [0; 2] |}.

(** A save file whose records are all accepted, with an inventory that
    holds a name without items. *)
Definition empty_group : string :=
  text ["File demo.txt"; "Inventory {'Potion': []}"; "Stats (100, 0, 0)";
        "Position (0, 0)"].

Definition reader (path : string) : MazeRunnerFile.t :=
  {| MazeRunnerFile._file_path := Some path;
     MazeRunnerFile._model := None;
     MazeRunnerFile._time := None |}.

Definition writer (path : string) (m : Model.t) (time : Z) : MazeRunnerFile.t :=
  {| MazeRunnerFile._file_path := Some path;
     MazeRunnerFile._model := Some m;
     MazeRunnerFile._time := Some time |}.

End Demo.
(* ================================================================== *)
(** * Properties of the Python built-ins *)
(* ================================================================== *)

Example str_int_ex : Py.str_int 1203 = "1203" /\ Py.str_int (-7) = "-7" /\ Py.str_int 0 = "0".
Proof. repeat split; reflexivity. Qed.
Example int_ex : Py.int_of_str " 1_000 " = Some 1000 /\ Py.int_of_str "-07" = Some (-7)
  /\ Py.int_of_str "" = None /\ Py.int_of_str "1__0" = None /\ Py.int_of_str "12a" = None.
Proof. repeat split; reflexivity. Qed.
Example lines_ex : Py.file_lines ("a" +:+ String Py.CR (String Py.LF "b")) = [String "a" (String Py.LF ""); "b"].
Proof. reflexivity. Qed.
Example strip_ex : Py.strip "  ab c  " = "ab c" /\ Py.split_head " " "ab c" = "ab" /\ Py.slice_from 3 "ab" = "".
Proof. repeat split; reflexivity. Qed.

Module PyFacts.
Import Py.

(** ** Concatenation *)

Lemma append_nil_l (t : string) : "" +:+ t = t.
Proof. reflexivity. Qed.

Lemma append_cons (c : ascii) (s t : string) :
  String c s +:+ t = String c (s +:+ t).
Proof. reflexivity. Qed.

Lemma append_assoc (a b c : string) : (a +:+ b) +:+ c = a +:+ (b +:+ c).
Proof.
  induction a as [|x a IH]; [done|].
  rewrite !append_cons. by f_equal.
Qed.

Lemma append_nil_r (a : string) : a +:+ "" = a.
Proof.
  induction a as [|x a IH]; [done|]. rewrite append_cons. by f_equal.
Qed.

(** ** Characters *)

Lemma all_chars_app p a b :
  all_chars p (a +:+ b) = all_chars p a && all_chars p b.
Proof.
  induction a as [|c a IH]; [done|].
  rewrite append_cons. cbn [all_chars]. by rewrite IH, andb_assoc.
Qed.

Lemma all_chars_impl (p q : ascii -> bool) s :
  (forall c, p c = true -> q c = true) ->
  all_chars p s = true -> all_chars q s = true.
Proof.
  intros Hpq. induction s as [|c s IH]; [done|]. cbn [all_chars].
  intros [Hc Hs]%andb_true_iff. by rewrite (Hpq c Hc), IH.
Qed.

Lemma break_space c : negb (isspace c) = true -> negb (is_break c) = true.
Proof.
  intros Hc. apply negb_true_iff. apply negb_true_iff in Hc.
  unfold is_break.
  destruct (Ascii.eqb_spec c LF) as [->|_]; [done|].
  destruct (Ascii.eqb_spec c CR) as [->|_]; done.
Qed.

Lemma no_space_no_break s : no_space s -> no_break s.
Proof. apply all_chars_impl, break_space. Qed.

Lemma no_break_app a b : no_break a -> no_break b -> no_break (a +:+ b).
Proof. unfold no_break. intros Ha Hb. by rewrite all_chars_app, Ha, Hb. Qed.

Lemma no_space_app a b : no_space a -> no_space b -> no_space (a +:+ b).
Proof. unfold no_space. intros Ha Hb. by rewrite all_chars_app, Ha, Hb. Qed.

(** ** Lines *)

Lemma universal_newlines_id s :
  all_chars (fun c => negb (Ascii.eqb c CR)) s = true -> universal_newlines s = s.
Proof.
  induction s as [|c s IH]; [done|]. cbn [all_chars universal_newlines].
  intros [Hc Hs]%andb_true_iff. apply negb_true_iff in Hc. rewrite Hc.
  by rewrite IH.
Qed.

Lemma lines_line a rest :
  all_chars (fun c => negb (Ascii.eqb c LF)) a = true ->
  lines (a +:+ String LF rest) = (a +:+ String LF "") :: lines rest.
Proof.
  induction a as [|c a IH]; [done|]. cbn [all_chars].
  intros [Hc Ha]%andb_true_iff. apply negb_true_iff in Hc.
  rewrite !append_cons. cbn [lines]. by rewrite Hc, (IH Ha).
Qed.

Lemma no_break_lf a :
  no_break a -> all_chars (fun c => negb (Ascii.eqb c LF)) a = true.
Proof.
  apply all_chars_impl. intros c Hc. unfold is_break in Hc.
  by destruct (Ascii.eqb c LF).
Qed.

Lemma no_break_cr a :
  no_break a -> all_chars (fun c => negb (Ascii.eqb c CR)) a = true.
Proof.
  apply all_chars_impl. intros c Hc. unfold is_break in Hc.
  destruct (Ascii.eqb c CR); [|done]. by rewrite orb_true_r in Hc.
Qed.

Lemma writelines_cons b bodies :
  writelines (terminated (b :: bodies))
  = b +:+ String LF (writelines (terminated bodies)).
Proof.
  unfold terminated, writelines. cbn [map fold_right].
  by rewrite append_assoc.
Qed.

Lemma writelines_no_cr bodies :
  Forall no_break bodies ->
  all_chars (fun c => negb (Ascii.eqb c CR)) (writelines (terminated bodies)) = true.
Proof.
  induction 1 as [|b bodies Hb _ IH]; [done|].
  rewrite writelines_cons, all_chars_app, (no_break_cr b Hb).
  cbn [all_chars andb]. by rewrite IH.
Qed.

Lemma lines_writelines bodies :
  Forall no_break bodies ->
  lines (writelines (terminated bodies)) = terminated bodies.
Proof.
  induction 1 as [|b bodies Hb _ IH]; [done|].
  rewrite writelines_cons, (lines_line b _ (no_break_lf b Hb)), IH. done.
Qed.

(** Reading back what [writelines] wrote gives the lines written. *)
Lemma file_lines_writelines bodies :
  Forall no_break bodies ->
  file_lines (writelines (terminated bodies)) = terminated bodies.
Proof.
  intros Hb. unfold file_lines.
  rewrite universal_newlines_id by by apply writelines_no_cr.
  by apply lines_writelines.
Qed.

(** ** [strip] and [split] *)

Lemma rstrip_line a : rstrip (a +:+ String LF "") = rstrip a.
Proof.
  induction a as [|c a IH]; [done|].
  rewrite append_cons. cbn [rstrip]. by rewrite IH.
Qed.

Lemma rstrip_app a b : rstrip b <> "" -> rstrip (a +:+ b) = a +:+ rstrip b.
Proof.
  intros Hb. induction a as [|c a IH]; [done|].
  rewrite !append_cons. cbn [rstrip]. rewrite IH.
  destruct (a +:+ rstrip b) eqn:Hab; [|done].
  destruct a; [|done]. by destruct Hb.
Qed.

Lemma rstrip_no_space s : no_space s -> rstrip s = s.
Proof.
  unfold no_space. induction s as [|c s IH]; [done|]. cbn [all_chars rstrip].
  intros [Hc Hs]%andb_true_iff. apply negb_true_iff in Hc.
  rewrite (IH Hs). destruct s; [by rewrite Hc|done].
Qed.

Lemma strip_no_space s : no_space s -> strip s = s.
Proof.
  intros Hs. unfold strip.
  replace (lstrip s) with s; [by apply rstrip_no_space|].
  destruct s as [|c s]; [done|]. unfold no_space in Hs. cbn [all_chars] in Hs.
  apply andb_true_iff in Hs as [Hc _]. apply negb_true_iff in Hc.
  cbn [lstrip]. by rewrite Hc.
Qed.

Lemma split_head_no_space s : no_space s -> split_head SPACE s = s.
Proof.
  unfold no_space. induction s as [|c s IH]; [done|].
  cbn [all_chars split_head].
  intros [Hc Hs]%andb_true_iff. apply negb_true_iff in Hc.
  rewrite (IH Hs).
  destruct (Ascii.eqb_spec c SPACE) as [->|_]; [done|done].
Qed.

(** A line made of a text that starts with a character that is not
    white space, a payload and a line feed. *)
Lemma strip_line (c : ascii) (p payload : string) :
  isspace c = false -> rstrip payload = payload -> payload <> "" ->
  strip (String c p +:+ payload +:+ String LF "")
  = String c p +:+ payload.
Proof.
  intros Hc Hr Hne. unfold strip. rewrite append_cons. cbn [lstrip].
  rewrite Hc, <- append_cons, <- append_assoc, rstrip_line.
  rewrite rstrip_app by by rewrite Hr. by rewrite Hr.
Qed.

(** ** [str] and [int] *)

Lemma digit_cases (d : Z) :
  0 <= d < 10 ->
  d = 0 \/ d = 1 \/ d = 2 \/ d = 3 \/ d = 4 \/ d = 5 \/ d = 6 \/ d = 7
  \/ d = 8 \/ d = 9.
Proof. lia. Qed.

Lemma digit_val_char (d : Z) : 0 <= d < 10 -> digit_val (digit_char d) = Some d.
Proof.
  intros Hd.
  destruct (digit_cases d Hd) as [->|[->|[->|[->|[->|[->|[->|[->|[->| ->]]]]]]]]];
    reflexivity.
Qed.

Lemma digit_char_no_space (d : Z) :
  0 <= d < 10 -> negb (isspace (digit_char d)) = true.
Proof.
  intros Hd.
  destruct (digit_cases d Hd) as [->|[->|[->|[->|[->|[->|[->|[->|[->| ->]]]]]]]]];
    reflexivity.
Qed.

(** Reading the digits that [digits_fuel] wrote, most significant
    first, gives the number back. *)
Lemma parse_digits_fuel (f : nat) : forall n acc,
  0 <= n < 10 ^ Z.of_nat (S f) ->
  parse_digits (digits_fuel (S f) n acc) 0 false = parse_digits acc n true.
Proof.
  induction f as [|f IH]; intros n acc Hn.
  - cbn [digits_fuel]. change (10 ^ Z.of_nat 1) with 10 in Hn.
    destruct (n <? 10) eqn:Hlt; [|apply Z.ltb_ge in Hlt; lia].
    cbn [parse_digits]. rewrite Z.mod_small by lia.
    by rewrite digit_val_char.
  - remember (S f) as k. cbn [digits_fuel].
    destruct (n <? 10) eqn:Hlt.
    + apply Z.ltb_lt in Hlt. cbn [parse_digits]. rewrite Z.mod_small by lia.
      by rewrite digit_val_char by lia.
    + apply Z.ltb_ge in Hlt. subst k. rewrite IH.
      * cbn [parse_digits].
        rewrite digit_val_char by (apply Z.mod_pos_bound; lia).
        f_equal. pose proof (Z.div_mod n 10). lia.
      * split; [apply Z.div_pos; lia|].
        apply Z.div_lt_upper_bound; [lia|].
        rewrite (Nat2Z.inj_succ (S f)), Z.pow_succ_r in Hn by lia. lia.
Qed.

(** The fuel of [str_nonneg] is enough. *)
Lemma str_nonneg_bound (n : Z) :
  0 <= n -> n < 10 ^ Z.of_nat (S (Z.to_nat (Z.log2 n))).
Proof.
  intros Hn. rewrite Nat2Z.inj_succ, Z2Nat.id by apply Z.log2_nonneg.
  destruct (Z.eq_dec n 0) as [->|Hne]; [done|].
  pose proof (Z.log2_spec n ltac:(lia)) as [_ Hlt].
  eapply Z.lt_le_trans; [exact Hlt|].
  apply Z.pow_le_mono_l. pose proof (Z.log2_nonneg n). lia.
Qed.

Lemma parse_str_nonneg (n : Z) :
  0 <= n -> parse_digits (str_nonneg n) 0 false = Some n.
Proof.
  intros Hn. unfold str_nonneg.
  rewrite parse_digits_fuel; [done|]. split; [done|by apply str_nonneg_bound].
Qed.

Lemma digits_fuel_chars (p : ascii -> bool) :
  (forall d, 0 <= d < 10 -> p (digit_char d) = true) ->
  forall f n acc, all_chars p acc = true -> all_chars p (digits_fuel f n acc) = true.
Proof.
  intros Hp. induction f as [|f IH]; intros n acc Hacc; [done|].
  cbn [digits_fuel].
  assert (Hacc' : all_chars p (String (digit_char (n mod 10)) acc) = true).
  { cbn [all_chars]. rewrite Hacc, Hp; [done|]. apply Z.mod_pos_bound. lia. }
  destruct (n <? 10); [done|by apply IH].
Qed.

Lemma str_nonneg_digits n : all_chars is_digit (str_nonneg n) = true.
Proof.
  apply digits_fuel_chars; [|done].
  intros d Hd. unfold is_digit. by rewrite digit_val_char.
Qed.

Lemma str_nonneg_no_space n : no_space (str_nonneg n).
Proof. apply digits_fuel_chars; [apply digit_char_no_space|done]. Qed.

Lemma str_nonneg_cons n : exists c r, str_nonneg n = String c r.
Proof.
  unfold str_nonneg. generalize (Z.to_nat (Z.log2 n)). intros f.
  revert n. generalize EmptyString.
  induction f as [|f IH]; intros acc n.
  - cbn [digits_fuel]. destruct (n <? 10); cbn [digits_fuel]; by eauto.
  - remember (S f) as k. cbn [digits_fuel]. destruct (n <? 10); [by eauto|].
    subst k. apply IH.
Qed.

Lemma str_int_no_space n : no_space (str_int n).
Proof.
  unfold str_int. destruct (n <? 0); [|apply str_nonneg_no_space].
  unfold no_space. cbn [all_chars]. apply str_nonneg_no_space.
Qed.

Lemma str_int_cons n : exists c r, str_int n = String c r.
Proof. unfold str_int. destruct (n <? 0); [by eauto|apply str_nonneg_cons]. Qed.

(** [int(str(n))] is [n]. *)
Lemma int_str_int (n : Z) : int_of_str (str_int n) = Some n.
Proof.
  unfold int_of_str. rewrite (strip_no_space _ (str_int_no_space n)).
  unfold str_int. destruct (n <? 0) eqn:Hneg.
  - apply Z.ltb_lt in Hneg. change (Ascii.eqb "-" "-") with true. cbv iota.
    rewrite parse_str_nonneg by lia. cbn. f_equal. lia.
  - apply Z.ltb_ge in Hneg.
    pose proof (parse_str_nonneg n Hneg) as Hparse.
    pose proof (str_nonneg_digits n) as Hdigits.
    destruct (str_nonneg n) as [|c r]; [done|].
    cbn [all_chars] in Hdigits. apply andb_true_iff in Hdigits as [Hc _].
    destruct (Ascii.eqb_spec c "-") as [->|_]; [done|].
    destruct (Ascii.eqb_spec c "+") as [->|_]; [done|]. exact Hparse.
Qed.

(** ** Sequences *)

Lemma index_after_update {X} (l l' : list X) (z : Z) (f : X -> X) :
  Py.index_update l z f = Some l' ->
  exists x, Py.index l z = Some x /\ Py.index l' z = Some (f x).
Proof.
  unfold Py.index_update, Py.index.
  assert (Hlook : forall i, (i < length l)%nat ->
            exists x, l !! i = Some x /\ alter f i l !! i = Some (f x)).
  { intros i Hi. destruct (lookup_lt_is_Some_2 l i Hi) as [x Hx].
    exists x. split; [done|]. by rewrite list_lookup_alter_eq, Hx. }
  destruct ((0 <=? z) && (z <? Z.of_nat (length l))) eqn:Hin.
  - intros [= <-]. rewrite length_alter, Hin.
    apply Hlook. apply andb_true_iff in Hin as [?%Z.leb_le ?%Z.ltb_lt]. lia.
  - destruct ((z <? 0) && (- Z.of_nat (length l) <=? z)) eqn:Hneg; [|done].
    intros [= <-]. rewrite length_alter, Hin, Hneg.
    apply Hlook. apply andb_true_iff in Hneg as [?%Z.ltb_lt ?%Z.leb_le]. lia.
Qed.

Lemma index_update_some {X} (l : list X) (z : Z) (x : X) (f : X -> X) :
  Py.index l z = Some x ->
  exists l', Py.index_update l z f = Some l' /\ Py.index l' z = Some (f x).
Proof.
  intros Hx.
  destruct (Py.index_update l z f) as [l'|] eqn:Hup.
  - destruct (index_after_update _ _ _ _ Hup) as (y & Hy & Hl').
    exists l'. split; [done|]. rewrite Hx in Hy. by injection Hy as ->.
  - exfalso. revert Hx Hup. unfold Py.index, Py.index_update.
    destruct ((0 <=? z) && (z <? Z.of_nat (length l))); [done|].
    by destruct ((z <? 0) && (- Z.of_nat (length l) <=? z)).
Qed.

Lemma index_some_iff {X} (l : list X) (z : Z) :
  is_Some (index l z) <-> - Z.of_nat (length l) <= z < Z.of_nat (length l).
Proof.
  unfold index.
  destruct ((0 <=? z) && (z <? Z.of_nat (length l))) eqn:Hin.
  - apply andb_true_iff in Hin as [?%Z.leb_le ?%Z.ltb_lt].
    split; [lia|]. intros _. apply lookup_lt_is_Some_2. lia.
  - destruct ((z <? 0) && (- Z.of_nat (length l) <=? z)) eqn:Hneg.
    + apply andb_true_iff in Hneg as [?%Z.ltb_lt ?%Z.leb_le].
      split; [lia|]. intros _. apply lookup_lt_is_Some_2. lia.
    + split; [by intros [x Hx]|]. intros Hz. exfalso.
      apply andb_false_iff in Hin. apply andb_false_iff in Hneg.
      rewrite !Z.leb_gt, !Z.ltb_ge in *. lia.
Qed.

Lemma index_update_some_iff {X} (l : list X) (z : Z) (f : X -> X) :
  is_Some (index_update l z f) <-> is_Some (index l z).
Proof.
  rewrite index_some_iff. unfold index_update.
  destruct ((0 <=? z) && (z <? Z.of_nat (length l))) eqn:Hin.
  - apply andb_true_iff in Hin as [?%Z.leb_le ?%Z.ltb_lt]. split; [lia|by eauto].
  - destruct ((z <? 0) && (- Z.of_nat (length l) <=? z)) eqn:Hneg.
    + apply andb_true_iff in Hneg as [?%Z.ltb_lt ?%Z.leb_le]. split; [lia|by eauto].
    + split; [by intros [x Hx]|]. intros Hz. exfalso.
      apply andb_false_iff in Hin. apply andb_false_iff in Hneg.
      rewrite !Z.leb_gt, !Z.ltb_ge in *. lia.
Qed.

Lemma index_of_nat {X} (l : list X) (i : nat) :
  index l (Z.of_nat i) = l !! i.
Proof.
  unfold index.
  destruct ((0 <=? Z.of_nat i) && (Z.of_nat i <? Z.of_nat (length l))) eqn:Hin.
  - by rewrite Nat2Z.id.
  - replace (Z.of_nat i <? 0) with false by (symmetry; apply Z.ltb_ge; lia).
    cbn [andb]. symmetry. apply lookup_ge_None_2.
    apply andb_false_iff in Hin as [Hin|Hin];
      [apply Z.leb_gt in Hin|apply Z.ltb_ge in Hin]; lia.
Qed.

(** ** Removing characters *)

Lemma remove_char_keep c s :
  remove_char c s = keep (fun d => negb (Ascii.eqb d c)) s.
Proof.
  induction s as [|d s IH]; [done|]. cbn [remove_char keep].
  destruct (Ascii.eqb d c); cbn [negb]; by rewrite IH.
Qed.

Lemma keep_keep p q s : keep p (keep q s) = keep (fun c => q c && p c) s.
Proof.
  induction s as [|d s IH]; [done|]. cbn [keep].
  destruct (q d); cbn [andb keep]; [|done]. destruct (p d); by rewrite IH.
Qed.

Lemma keep_ext p q s : (forall c, p c = q c) -> keep p s = keep q s.
Proof.
  intros Hpq. induction s as [|d s IH]; [done|]. cbn [keep].
  by rewrite Hpq, IH.
Qed.

Lemma keep_all s : keep (fun _ => true) s = s.
Proof. induction s as [|d s IH]; [done|]. cbn [keep]. by rewrite IH. Qed.

Lemma remove_chars_keep r : forall s,
  fold_left (fun v character => remove_char character v)
            (list_ascii_of_string r) s
  = keep (fun c => negb (contains c r)) s.
Proof.
  induction r as [|d r IH]; intros s.
  - cbn [list_ascii_of_string fold_left contains negb]. by rewrite keep_all.
  - cbn [list_ascii_of_string fold_left]. rewrite IH, remove_char_keep, keep_keep.
    apply keep_ext. intros c. cbn [contains].
    rewrite negb_orb. rewrite (Ascii.eqb_sym d c). done.
Qed.

End PyFacts.
(* ================================================================== *)
(** * The timer of ControlsFrame *)
(* ================================================================== *)

Module TimerFacts.
Import ControlsFrame.

Lemma created_eq i :
  created i = (drawn 0 (_handle_timer_format 0) None, i).
Proof. destruct i; reflexivity. Qed.

Lemma handle_timer_eq time text h i :
  _handle_timer (drawn time text h, i)
  = (Returned tt,
     (drawn (time + 1) (_handle_timer_format time) (Some (Tk.next_id i)),
      schedule i)).
Proof. reflexivity. Qed.

Lemma stop_timer_eq time text h i :
  stop_timer (drawn time text (Some h), i)
  = (Returned tt, (drawn time text (Some h), unschedule h i)).
Proof. reflexivity. Qed.

Lemma set_time_eq time0 time text h i :
  set_time time (drawn time0 text (Some h), i)
  = (Returned tt,
     (drawn (time + 1) (_handle_timer_format time)
            (Some (Tk.next_id i)),
      schedule (unschedule h i))).
Proof. reflexivity. Qed.

Lemma reset_timer_eq time0 text h i :
  reset_timer (drawn time0 text (Some h), i)
  = (Returned tt,
     (drawn 1 (_handle_timer_format 0) (Some (Tk.next_id i)),
      schedule (unschedule h i))).
Proof. reflexivity. Qed.

Lemma mainloop_step_idle f d k :
  mainloop_step (f, {| Tk.pending := []; Tk.next_id := k; Tk.dialogs := d |})
  = (Returned tt, (f, {| Tk.pending := []; Tk.next_id := k; Tk.dialogs := d |})).
Proof. reflexivity. Qed.

Lemma mainloop_step_fire time text h e rest k d :
  mainloop_step (drawn time text h,
                 {| Tk.pending := e :: rest; Tk.next_id := k; Tk.dialogs := d |})
  = _handle_timer (drawn time text h,
                   {| Tk.pending := rest; Tk.next_id := k; Tk.dialogs := d |}).
Proof. destruct e as [id ms []]; reflexivity. Qed.

(** After [S n] invocations from a fresh frame the time is [S n] and
    exactly one callback is scheduled, the one named by [_timer_update]. *)
Lemma ticks_created n k d :
  ticks (S n) (created (idle k d))
  = (Returned tt,
     (drawn (Z.of_nat (S n)) (_handle_timer_format (Z.of_nat n))
            (Some (k + n)%nat),
      one_pending (k + n) d)).
Proof.
  induction n as [|n IH].
  - rewrite created_eq. cbn [ticks]. unfold start_timer.
    rewrite handle_timer_eq. unfold schedule, one_pending, idle; cbn.
    by rewrite Nat.add_0_r.
  - change (ticks (S (S n))) with (bind (ticks (S n)) (fun _ => mainloop_step)).
    unfold bind at 1. rewrite IH. unfold one_pending.
    rewrite mainloop_step_fire, handle_timer_eq.
    unfold schedule; cbn [Tk.pending Tk.next_id Tk.dialogs app].
    replace (k + S n)%nat with (S (k + n)) by lia.
    do 3 f_equal. f_equal. lia.
Qed.

(** Once the timer has been started no timer operation raises: the
    frame keeps a label and a handle. *)
Lemma run_op_started o time text h i :
  exists time' text' h' i',
    run_op o (drawn time text (Some h), i)
    = (Returned tt, (drawn time' text' (Some h'), i')).
Proof.
  destruct o; cbn [run_op].
  - unfold start_timer. rewrite handle_timer_eq. eauto 6.
  - rewrite stop_timer_eq. eauto 6.
  - rewrite set_time_eq. eauto 6.
  - rewrite reset_timer_eq. eauto 6.
  - eexists _, _, _, _. reflexivity.
  - destruct i as [[|e rest] k d].
    + rewrite mainloop_step_idle. eauto 6.
    + rewrite mainloop_step_fire, handle_timer_eq. eauto 6.
Qed.

Lemma run_ops_started ops : forall time text h i,
  exists time' text' h' i',
    for_each ops run_op (drawn time text (Some h), i)
    = (Returned tt, (drawn time' text' (Some h'), i')).
Proof.
  induction ops as [|o ops IH]; intros time text h i.
  - eexists _, _, _, _. reflexivity.
  - cbn [for_each]. unfold bind.
    destruct (run_op_started o time text h i) as (t1 & x1 & h1 & i1 & ->).
    apply IH.
Qed.

(** C6. Every invocation of [_handle_timer] adds exactly one callback to
    the queue, due 1000 ms later, and adds 1 to the stored time; after
    [n] invocations from a fresh frame the stored time is [n] and, for
    [n > 0], one callback is pending; [stop_timer] takes only the
    callback named by [_timer_update] off the queue and leaves the
    stored time alone. *)
Theorem timer_periodic_self_rescheduling :
  (forall time text h i,
      _handle_timer (drawn time text h, i)
      = (Returned tt,
         (drawn (time + 1) (_handle_timer_format time) (Some (Tk.next_id i)),
          {| Tk.pending := Tk.pending i ++
               [{| Tk.ev_id := Tk.next_id i; Tk.ev_ms := 1000;
                   Tk.ev_callback := Tk.HandleTimer |}];
             Tk.next_id := S (Tk.next_id i);
             Tk.dialogs := Tk.dialogs i |})))
  /\ (forall n k d,
      fst (ticks n (created (idle k d))) = Returned tt
      /\ _time (fst (snd (ticks n (created (idle k d))))) = Z.of_nat n)
  /\ (forall n k d,
      Tk.pending (snd (snd (ticks (S n) (created (idle k d)))))
      = [{| Tk.ev_id := (k + n)%nat; Tk.ev_ms := 1000;
            Tk.ev_callback := Tk.HandleTimer |}]
      /\ _timer_update (fst (snd (ticks (S n) (created (idle k d)))))
         = Some (k + n)%nat)
  /\ (forall time text h i,
      stop_timer (drawn time text (Some h), i)
      = (Returned tt,
         (drawn time text (Some h),
          {| Tk.pending := filter (fun e => Tk.ev_id e <> h) (Tk.pending i);
             Tk.next_id := Tk.next_id i;
             Tk.dialogs := Tk.dialogs i |})))
  /\ (forall n k d,
      bind (ticks (S n)) (fun _ => stop_timer) (created (idle k d))
      = (Returned tt,
         (drawn (Z.of_nat (S n)) (_handle_timer_format (Z.of_nat n))
                (Some (k + n)%nat),
          idle (S (k + n)) d))).
Proof.
  split; [intros; apply handle_timer_eq|].
  split.
  { intros [|n] k d; [by rewrite created_eq|].
    by rewrite ticks_created. }
  split; [intros; by rewrite ticks_created|].
  split; [intros; apply stop_timer_eq|].
  intros n k d. unfold bind. rewrite ticks_created, stop_timer_eq.
  unfold one_pending, idle. cbn [Tk.pending Tk.next_id Tk.dialogs].
  do 2 f_equal. unfold unschedule. cbn [Tk.pending Tk.next_id Tk.dialogs].
  f_equal. cbn [filter list_filter Tk.ev_id].
  destruct (decide (not (k + n = k + n)%nat)) as [Hne|_]; [by destruct Hne|done].
Qed.

(** C10. Before the first [_handle_timer] the attribute [_timer_update]
    is not assigned: [stop_timer], [set_time] and [reset_timer] all raise
    [AttributeError] when they reach the cancellation, and leave the
    attribute unassigned; once [start_timer] has run, no sequence of
    timer operations raises. *)
Theorem timer_cancel_needs_start :
  (forall running time label i,
      let f := {| _timer_running := running; _time := time;
                  _timer_value := label; _timer_update := None |} in
      forall time',
      fst (stop_timer (f, i)) = Raised AttributeError
      /\ fst (set_time time' (f, i)) = Raised AttributeError
      /\ fst (reset_timer (f, i)) = Raised AttributeError
      /\ _timer_update (fst (snd (stop_timer (f, i)))) = None
      /\ _timer_update (fst (snd (set_time time' (f, i)))) = None
      /\ _timer_update (fst (snd (reset_timer (f, i)))) = None)
  /\ (forall i time,
      stop_timer (created i) = (Raised AttributeError, created i)
      /\ fst (set_time time (created i)) = Raised AttributeError
      /\ fst (reset_timer (created i)) = Raised AttributeError)
  /\ (forall i ops,
      fst (bind start_timer (fun _ => for_each ops run_op) (created i))
      = Returned tt).
Proof.
  split.
  { intros running time [text|] i f time'; repeat split; reflexivity. }
  split.
  { intros i time. rewrite created_eq. repeat split; reflexivity. }
  intros i ops. rewrite created_eq. unfold bind, start_timer.
  rewrite handle_timer_eq.
  destruct (run_ops_started ops (0 + 1) (_handle_timer_format 0) (Tk.next_id i)
              (schedule i)) as (t1 & x1 & h1 & i1 & ->).
  reflexivity.
Qed.

(** ** The queue of callbacks *)

Lemma filter_event_same h :
  filter (fun e => Tk.ev_id e <> h) [timer_event h] = [].
Proof.
  cbn [filter list_filter]. unfold timer_event at 1. cbn [Tk.ev_id].
  by destruct (decide (h <> h)).
Qed.

Lemma run_op_settled o s :
  is_start o = false -> settled s ->
  fst (run_op o s) = Returned tt /\ settled (snd (run_op o s)).
Proof.
  intros Ho (time & text & h & Hf & Hq). destruct s as [f [q k d]].
  cbn [fst snd Tk.pending] in *. subst f.
  destruct o; try discriminate; cbn [run_op].
  - rewrite stop_timer_eq. split; [done|].
    exists time, text, h. split; [done|]. left.
    unfold unschedule. cbn [snd Tk.pending].
    destruct Hq as [->| ->]; [done|apply filter_event_same].
  - rewrite set_time_eq. split; [done|].
    eexists _, _, _. split; [reflexivity|]. right.
    unfold schedule, unschedule. cbn [snd Tk.pending Tk.next_id].
    destruct Hq as [->| ->]; [done|by rewrite filter_event_same].
  - rewrite reset_timer_eq. split; [done|].
    eexists _, _, _. split; [reflexivity|]. right.
    unfold schedule, unschedule. cbn [snd Tk.pending Tk.next_id].
    destruct Hq as [->| ->]; [done|by rewrite filter_event_same].
  - split; [done|]. exists time, text, h. by split.
  - destruct Hq as [->| ->].
    + rewrite mainloop_step_idle. split; [done|]. exists time, text, h. split; [done|by left].
    + rewrite mainloop_step_fire, handle_timer_eq. split; [done|].
      eexists _, _, _. split; [reflexivity|]. by right.
Qed.

(** X1. From a settled timer, every run of timer operations other than
    [start_timer] returns and leaves the timer settled: at most one
    callback is pending, the one that [_timer_update] names. *)
Theorem timer_single_callback (ops : list op) (s : st) :
  forallb (fun o => negb (is_start o)) ops = true ->
  settled s ->
  fst (for_each ops run_op s) = Returned tt
  /\ settled (snd (for_each ops run_op s))
  /\ (length (Tk.pending (snd (snd (for_each ops run_op s)))) <= 1)%nat.
Proof.
  revert s. induction ops as [|o ops IH]; intros s Hops Hs.
  - split; [done|]. split; [done|].
    change (length (Tk.pending (snd s)) <= 1)%nat.
    destruct Hs as (? & ? & ? & _ & [-> | ->]); cbn; lia.
  - cbn [forallb] in Hops. apply andb_true_iff in Hops as [Ho Hops].
    apply negb_true_iff in Ho.
    destruct (run_op_settled o s Ho Hs) as [Hret Hset].
    cbn [for_each]. unfold bind.
    destruct (run_op o s) as [[[]|e] s1]; [|done]. by apply IH.
Qed.

Lemma started_settled i : Tk.pending i = [] -> settled (snd (start_timer (created i))).
Proof.
  intros Hi. rewrite created_eq. unfold start_timer. rewrite handle_timer_eq.
  eexists _, _, _. split; [reflexivity|]. right. unfold schedule. cbn. by rewrite Hi.
Qed.

(** X2. [set_time] and [reset_timer] end in [start_timer], whose first
    tick runs at once: right after [set_time time] the label shows
    [time] and [get_time] returns [time + 1]; right after [reset_timer]
    the label shows 0 and [get_time] returns 1. Both take the callback
    of the old handle off the queue and add one new callback. *)
Theorem set_time_counts_one_more (time0 time : Z) (text : string) (h : nat)
    (i : Tk.interp) :
  let s := (drawn time0 text (Some h), i) in
  fst (bind (set_time time) (fun _ => get_time) s) = Returned (time + 1)
  /\ _timer_value (fst (snd (set_time time s))) = Some (_handle_timer_format time)
  /\ fst (bind reset_timer (fun _ => get_time) s) = Returned 1
  /\ _timer_value (fst (snd (reset_timer s))) = Some (_handle_timer_format 0)
  /\ Tk.pending (snd (snd (set_time time s)))
     = filter (fun e => Tk.ev_id e <> h) (Tk.pending i) ++ [timer_event (Tk.next_id i)]
  /\ Tk.pending (snd (snd (reset_timer s)))
     = filter (fun e => Tk.ev_id e <> h) (Tk.pending i) ++ [timer_event (Tk.next_id i)].
Proof.
  intros s. unfold s, bind. rewrite set_time_eq, reset_timer_eq.
  repeat split; f_equal; lia.
Qed.

Lemma steps_idle n f k d :
  for_each (steps n) run_op (f, idle k d) = (Returned tt, (f, idle k d)).
Proof.
  induction n as [|n IH]; [done|].
  cbn [steps replicate for_each run_op]. unfold bind, idle.
  rewrite mainloop_step_idle. exact IH.
Qed.

(** X3. [stop_timer] on a settled timer empties the queue and leaves
    the frame as it is: no number of turns of the main loop changes
    anything afterwards, and stopping again changes nothing. *)
Theorem stop_timer_freezes (s : st) (n : nat) :
  settled s ->
  for_each (OpStop :: steps n) run_op s = (Returned tt, snd (stop_timer s))
  /\ Tk.pending (snd (snd (stop_timer s))) = []
  /\ fst (snd (stop_timer s)) = fst s
  /\ stop_timer (snd (stop_timer s)) = stop_timer s.
Proof.
  intros (time & text & h & Hf & Hq). destruct s as [f [q k d]].
  cbn [fst snd Tk.pending] in *. subst f.
  assert (Hstop : stop_timer (drawn time text (Some h),
                    {| Tk.pending := q; Tk.next_id := k; Tk.dialogs := d |})
                  = (Returned tt, (drawn time text (Some h), idle k d))).
  { rewrite stop_timer_eq. unfold unschedule, idle. cbn [Tk.pending Tk.next_id Tk.dialogs].
    destruct Hq as [->| ->]; [done|by rewrite filter_event_same]. }
  cbn [for_each run_op]. unfold bind. rewrite Hstop. cbn [snd fst].
  split; [apply steps_idle|]. repeat split. 
Qed.

Lemma steps_running n : forall t text h id m d,
  exists text' h' id',
    for_each (steps n) run_op
      (drawn t text h, {| Tk.pending := [timer_event id]; Tk.next_id := m; Tk.dialogs := d |})
    = (Returned tt,
       (drawn (t + Z.of_nat n) text' h',
        {| Tk.pending := [timer_event id']; Tk.next_id := (m + n)%nat; Tk.dialogs := d |})).
Proof.
  induction n as [|n IH]; intros t text h id m d.
  - exists text, h, id. cbn [steps replicate for_each]. unfold ret.
    by rewrite Z.add_0_r, Nat.add_0_r.
  - cbn [steps replicate for_each run_op]. unfold bind.
    rewrite mainloop_step_fire, handle_timer_eq. unfold schedule.
    cbn [Tk.pending Tk.next_id Tk.dialogs app].
    destruct (IH (t + 1) (_handle_timer_format t) (Some m) m (S m) d)
      as (text' & h' & id' & Heq).
    exists text', h', id'. fold (steps n). fold (timer_event m). rewrite Heq.
    replace (t + Z.of_nat (S n)) with (t + 1 + Z.of_nat n) by lia.
    by replace (m + S n)%nat with (S m + n)%nat by lia.
Qed.

(** X4. [start_timer] does not cancel: called twice on a new frame it
    leaves two callbacks pending, of which [stop_timer] cancels only the
    one that [_timer_update] names, the second. The first keeps the
    timer running: [n] turns of the main loop after the stop, the time
    has advanced by [n]. *)
Theorem start_twice_outruns_stop (k : nat) (d : list string) (n : nat) :
  let started := snd (bind start_timer (fun _ => start_timer) (created (idle k d))) in
  let stopped := snd (stop_timer started) in
  Tk.pending (snd started) = [timer_event k; timer_event (S k)]
  /\ fst (stop_timer started) = Returned tt
  /\ Tk.pending (snd stopped) = [timer_event k]
  /\ _time (fst stopped) = 2
  /\ fst (for_each (steps n) run_op stopped) = Returned tt
  /\ _time (fst (snd (for_each (steps n) run_op stopped))) = 2 + Z.of_nat n.
Proof.
  intros started stopped.
  assert (Hstarted : started
            = (drawn 2 (_handle_timer_format 1) (Some (S k)),
               {| Tk.pending := [timer_event k; timer_event (S k)];
                  Tk.next_id := S (S k); Tk.dialogs := d |})).
  { unfold started, bind, start_timer. rewrite created_eq, !handle_timer_eq.
    reflexivity. }
  assert (Hstopped : stop_timer started
            = (Returned tt,
               (drawn 2 (_handle_timer_format 1) (Some (S k)),
                {| Tk.pending := [timer_event k];
                   Tk.next_id := S (S k); Tk.dialogs := d |}))).
  { rewrite Hstarted, stop_timer_eq. unfold unschedule.
    cbn [Tk.pending Tk.next_id Tk.dialogs filter list_filter].
    unfold timer_event at 1 3. cbn [Tk.ev_id].
    change (Tk.ev_id (timer_event (S k))) with (S k).
    destruct (decide (k <> S k)) as [_|Hk]; [|exfalso; apply Hk; lia].
    destruct (decide (S k <> S k)) as [Hk|_]; [by destruct Hk|done]. }
  unfold stopped. rewrite Hstopped. cbn [fst snd].
  split; [by rewrite Hstarted|]. split; [done|]. split; [done|]. split; [done|].
  destruct (steps_running n 2 (_handle_timer_format 1) (Some (S k)) k (S (S k)) d)
    as (text' & h' & id' & ->).
  by split.
Qed.

(** A started timer, then a turn of the main loop, a new time, a stop
    and a reset. *)
Lemma timer_single_callback_witness :
  settled (snd (for_each [OpMainloopStep; OpSetTime 75; OpStop; OpReset] run_op
                  (snd (start_timer (created Tk.fresh))))).
Proof.
  apply (timer_single_callback [OpMainloopStep; OpSetTime 75; OpStop; OpReset]
           (snd (start_timer (created Tk.fresh)))); [reflexivity|].
  eexists _, _, _. split; [reflexivity|right; reflexivity].
Defined.

Lemma stop_timer_freezes_witness :
  for_each (OpStop :: steps 3) run_op (snd (start_timer (created Tk.fresh)))
  = (Returned tt, snd (stop_timer (snd (start_timer (created Tk.fresh))))).
Proof.
  apply (stop_timer_freezes (snd (start_timer (created Tk.fresh))) 3).
  eexists _, _, _. split; [reflexivity|right; reflexivity].
Defined.

End TimerFacts.
(* ================================================================== *)
(** * The save file *)
(* ================================================================== *)

Module FileFacts.
Import MazeRunnerFile.

(** ** The text of a tuple of integers *)

Lemma str_tuple_items_no_break l : Py.no_break (str_tuple_items l).
Proof.
  induction l as [|x l IH]; [done|]. destruct l as [|y l].
  - apply PyFacts.no_space_no_break, PyFacts.str_int_no_space.
  - change (str_tuple_items (x :: y :: l))
      with (Py.str_int x +:+ ", " +:+ str_tuple_items (y :: l)).
    apply PyFacts.no_break_app;
      [apply PyFacts.no_space_no_break, PyFacts.str_int_no_space|].
    by apply PyFacts.no_break_app.
Qed.

Lemma str_tuple_closed l :
  exists a, str_tuple l = String "(" (a +:+ ")") /\ Py.no_break a.
Proof.
  destruct l as [|x [|y l]].
  - by exists "".
  - exists (Py.str_int x +:+ ","). split.
    + unfold str_tuple.
      rewrite (PyFacts.append_assoc (Py.str_int x) "," ")"). reflexivity.
    + apply PyFacts.no_break_app;
        [apply PyFacts.no_space_no_break, PyFacts.str_int_no_space|done].
  - exists (str_tuple_items (x :: y :: l)).
    split; [reflexivity|apply str_tuple_items_no_break].
Qed.

Lemma str_tuple_plain l : Py.plain (str_tuple l).
Proof.
  destruct (str_tuple_closed l) as (a & -> & Ha). split; [|split]; [| |done].
  - unfold Py.no_break. cbn [Py.all_chars]. by apply (PyFacts.no_break_app a ")").
  - rewrite <- PyFacts.append_cons. by rewrite PyFacts.rstrip_app.
Qed.

Lemma str_int_plain n : Py.plain (Py.str_int n).
Proof.
  split; [apply PyFacts.no_space_no_break, PyFacts.str_int_no_space|].
  split; [apply PyFacts.rstrip_no_space, PyFacts.str_int_no_space|].
  by destruct (PyFacts.str_int_cons n) as (c & r & ->).
Qed.

Section facts.
Context `{A2} `{!PyText}.

Lemma save_formatting_default s :
  _save_formatting s "" = s +:+ String Py.LF "".
Proof. reflexivity. Qed.

Lemma record_formatting prefix payload :
  _save_formatting (prefix +:+ " " +:+ payload) "" = record prefix payload.
Proof.
  unfold record. rewrite save_formatting_default.
  rewrite (PyFacts.append_assoc prefix). by rewrite (PyFacts.append_assoc " ").
Qed.

(** C2. [save] writes, under the path of the file, the seven records
    Level, File, Entities, Inventory, Stats, Position and Time in this
    order, each made of its prefix, a blank, the text of the value and
    a line feed. *)
Theorem save_writes_records (fs : files) (path : string) (model : Model.t)
    (time : Z) (level : Level.t) :
  path <> "" ->
  Py.index (Model._levels model) (Model._level_num model) = Some level ->
  save {| _file_path := Some path; _model := Some model; _time := Some time |} fs
  = (Returned tt,
     <[path := Py.writelines
         [ record "Level" (Py.str_int (Model._level_num model));
           record "File" (Model._game_file model);
           record "Entities" (str_entities (Level._items level));
           record "Inventory"
             (str_items (Inventory._items (Player._inventory (Model._player model))));
           record "Stats"
             (str_tuple [Player._health (Model._player model);
                         Player._hunger (Model._player model);
                         Player._thirst (Model._player model)]);
           record "Position" (str_tuple (Player._position (Model._player model)));
           record "Time" (Py.str_int time) ]]> fs).
Proof.
  intros Hpath Hlevel.
  unfold save, attr, bind, ret; cbn [_model _time _file_path].
  unfold Model.get_current_items, Model.get_level, Py.getitem, bind, ret.
  rewrite Hlevel. cbn [app].
  unfold open_write. destruct (decide (path = "")) as [->|_]; [done|].
  reflexivity.
Qed.

Lemma int_eq {S} (s : string) (st : S) :
  Py.int s st = match Py.int_of_str s with
                | Some z => (Returned z, st)
                | None => (Raised ValueError, st)
                end.
Proof. unfold Py.int. by destruct (Py.int_of_str s). Qed.

(** ** The branches of the loop body *)

Lemma load_line_entities line rest v :
  Py.strip line = "Entities" +:+ rest ->
  load_line line v
  = match eval_entities (Py.slice_from 1 rest) with
    | Returned d => (Returned tt, set_level_entities d v)
    | Raised e => (Raised e, v)
    end.
Proof.
  unfold load_line. intros ->.
  change (Py.slice_from 9 ("Entities" +:+ rest)) with (Py.slice_from 1 rest).
  change (Py.startswith ("Entities" +:+ rest) "Level") with false.
  change (Py.startswith ("Entities" +:+ rest) "File") with false.
  change (Py.startswith ("Entities" +:+ rest) "Entities") with true.
  cbv iota. unfold bind, of_outcome.
  by destruct (eval_entities _).
Qed.

Lemma load_line_inventory line rest v :
  Py.strip line = "Inventory" +:+ rest ->
  load_line line v
  = match eval_items (Py.slice_from 1 rest) with
    | Returned d => (Returned tt, set_inventory_items d v)
    | Raised e => (Raised e, v)
    end.
Proof.
  unfold load_line. intros ->.
  change (Py.slice_from 10 ("Inventory" +:+ rest)) with (Py.slice_from 1 rest).
  change (Py.startswith ("Inventory" +:+ rest) "Level") with false.
  change (Py.startswith ("Inventory" +:+ rest) "File") with false.
  change (Py.startswith ("Inventory" +:+ rest) "Entities") with false.
  change (Py.startswith ("Inventory" +:+ rest) "Inventory") with true.
  cbv iota. unfold bind, of_outcome.
  by destruct (eval_items _).
Qed.

Lemma load_line_stats line rest v :
  Py.strip line = "Stats" +:+ rest ->
  load_line line v
  = match eval_tuple (Py.slice_from 1 rest) with
    | Returned t => (Returned tt, set_player_stats t v)
    | Raised e => (Raised e, v)
    end.
Proof.
  unfold load_line. intros ->.
  change (Py.slice_from 6 ("Stats" +:+ rest)) with (Py.slice_from 1 rest).
  change (Py.startswith ("Stats" +:+ rest) "Level") with false.
  change (Py.startswith ("Stats" +:+ rest) "File") with false.
  change (Py.startswith ("Stats" +:+ rest) "Entities") with false.
  change (Py.startswith ("Stats" +:+ rest) "Inventory") with false.
  change (Py.startswith ("Stats" +:+ rest) "Stats") with true.
  cbv iota. unfold bind, of_outcome.
  by destruct (eval_tuple _).
Qed.

Lemma load_line_position line rest v :
  Py.strip line = "Position" +:+ rest ->
  load_line line v
  = match eval_tuple (Py.slice_from 1 rest) with
    | Returned t => (Returned tt, set_player_position t v)
    | Raised e => (Raised e, v)
    end.
Proof.
  unfold load_line. intros ->.
  change (Py.slice_from 9 ("Position" +:+ rest)) with (Py.slice_from 1 rest).
  change (Py.startswith ("Position" +:+ rest) "Level") with false.
  change (Py.startswith ("Position" +:+ rest) "File") with false.
  change (Py.startswith ("Position" +:+ rest) "Entities") with false.
  change (Py.startswith ("Position" +:+ rest) "Inventory") with false.
  change (Py.startswith ("Position" +:+ rest) "Stats") with false.
  change (Py.startswith ("Position" +:+ rest) "Position") with true.
  cbv iota. unfold bind, of_outcome.
  by destruct (eval_tuple _).
Qed.

Lemma load_line_level line rest v :
  Py.strip line = "Level" +:+ rest ->
  load_line line v
  = match Py.int_of_str (Py.split_head Py.SPACE (Py.slice_from 1 rest)) with
    | Some z => (Returned tt, set_level_number z v)
    | None => (Raised ValueError, v)
    end.
Proof.
  unfold load_line. intros ->.
  change (Py.slice_from 6 ("Level" +:+ rest)) with (Py.slice_from 1 rest).
  change (Py.startswith ("Level" +:+ rest) "Level") with true.
  cbv iota. unfold bind. rewrite int_eq.
  by destruct (Py.int_of_str _).
Qed.

Lemma load_line_time line rest v :
  Py.strip line = "Time " +:+ rest ->
  load_line line v
  = match Py.int_of_str rest with
    | Some z => (Returned tt, set_game_time z v)
    | None => (Raised ValueError, v)
    end.
Proof.
  unfold load_line. intros ->.
  change (Py.slice_from 5 ("Time " +:+ rest)) with rest.
  change (Py.startswith ("Time " +:+ rest) "Level") with false.
  change (Py.startswith ("Time " +:+ rest) "File") with false.
  change (Py.startswith ("Time " +:+ rest) "Entities") with false.
  change (Py.startswith ("Time " +:+ rest) "Inventory") with false.
  change (Py.startswith ("Time " +:+ rest) "Stats") with false.
  change (Py.startswith ("Time " +:+ rest) "Position") with false.
  change (Py.startswith ("Time " +:+ rest) "Time ") with true.
  cbv iota. unfold bind. rewrite int_eq.
  by destruct (Py.int_of_str _).
Qed.

Lemma load_line_file line rest v :
  Py.strip line = "File" +:+ rest ->
  load_line line v
  = (Returned tt,
     set_game_file (Py.split_head Py.SPACE (Py.slice_from 1 rest)) v).
Proof.
  unfold load_line. intros ->.
  change (Py.slice_from 5 ("File" +:+ rest)) with (Py.slice_from 1 rest).
  change (Py.startswith ("File" +:+ rest) "Level") with false.
  change (Py.startswith ("File" +:+ rest) "File") with true.
  reflexivity.
Qed.


(** ** The loop over the lines *)

(** Whether a line is accepted does not depend on the variables. *)
Lemma load_line_outcome line v v' :
  fst (load_line line v) = fst (load_line line v').
Proof.
  unfold load_line.
  repeat match goal with
         | |- context [if ?b then _ else _] => destruct b
         end;
    unfold bind, of_outcome, modify, ret; repeat rewrite int_eq;
    try destruct (Py.int_of_str _); try destruct (eval_entities _);
    try destruct (eval_items _); try destruct (eval_tuple _);
    reflexivity.
Qed.

Lemma for_each_cons {S A} (x : A) (l : list A) (f : A -> M S unit) s :
  for_each (x :: l) f s
  = match f x s with
    | (Returned _, s') => for_each l f s'
    | (Raised e, s') => (Raised e, s')
    end.
Proof. reflexivity. Qed.

Lemma read_all_returned lines : forall v,
  fst (for_each lines load_line v) = Returned tt ->
  forall line v', In line lines -> fst (load_line line v') = Returned tt.
Proof.
  induction lines as [|l lines IH]; intros v Hret line v' Hin; [done|].
  rewrite for_each_cons in Hret.
  destruct (load_line l v) as [[[]|e] v1] eqn:Hl; [|done].
  destruct Hin as [->|Hin].
  - rewrite (load_line_outcome line v' v), Hl. reflexivity.
  - by apply (IH v1).
Qed.

(** A line that does not carry a prefix leaves the variable of this
    prefix as it was. *)
Ltac line_cases :=
  unfold load_line;
  repeat match goal with
         | |- context [if ?b then _ else _] => destruct b eqn:?
         end;
  try discriminate;
  unfold bind, of_outcome, modify, ret; repeat rewrite int_eq;
  try destruct (Py.int_of_str _); try destruct (eval_entities _);
  try destruct (eval_items _); try destruct (eval_tuple _);
  reflexivity.

Lemma load_line_keeps_level_number line v :
  Py.startswith (Py.strip line) "Level" = false ->
  level_number (snd (load_line line v)) = level_number v.
Proof. intros Hp; revert Hp. line_cases. Qed.

Lemma load_line_keeps_level_entities line v :
  Py.startswith (Py.strip line) "Entities" = false ->
  level_entities (snd (load_line line v)) = level_entities v.
Proof. intros Hp; revert Hp. line_cases. Qed.

Lemma load_line_keeps_inventory_items line v :
  Py.startswith (Py.strip line) "Inventory" = false ->
  inventory_items (snd (load_line line v)) = inventory_items v.
Proof. intros Hp; revert Hp. line_cases. Qed.

Lemma load_line_keeps_player_stats line v :
  Py.startswith (Py.strip line) "Stats" = false ->
  player_stats (snd (load_line line v)) = player_stats v.
Proof. intros Hp; revert Hp. line_cases. Qed.

Lemma load_line_keeps_player_position line v :
  Py.startswith (Py.strip line) "Position" = false ->
  player_position (snd (load_line line v)) = player_position v.
Proof. intros Hp; revert Hp. line_cases. Qed.

Lemma load_line_keeps_game_time line v :
  Py.startswith (Py.strip line) "Time " = false ->
  game_time (snd (load_line line v)) = game_time v.
Proof. intros Hp; revert Hp. line_cases. Qed.

Lemma read_all_keeps {A} (field : locals -> A) (prefix : string) :
  (forall line v, Py.startswith (Py.strip line) prefix = false ->
                  field (snd (load_line line v)) = field v) ->
  forall lines v,
    existsb (fun line => Py.startswith (Py.strip line) prefix) lines = false ->
    field (snd (for_each lines load_line v)) = field v.
Proof.
  intros Hkeep. induction lines as [|l lines IH]; intros v Hno; [done|].
  cbn [existsb] in Hno. apply orb_false_iff in Hno as [Hl Hrest].
  rewrite for_each_cons. specialize (Hkeep l v Hl).
  destruct (load_line l v) as [[[]|e] v1]; cbn [snd] in *.
  - rewrite (IH v1 Hrest). exact Hkeep.
  - exact Hkeep.
Qed.

(** What [load] returns when it returns. *)
Lemma load_returned self fs model time :
  fst (load self fs) = Returned (model, time) ->
  exists path content,
    _file_path self = Some path /\ fs !! path = Some content
    /\ fst (read_lines content) = Returned tt
    /\ rebuild fs (snd (read_lines content)) = Returned (model, time).
Proof.
  unfold load, open_read. destruct (_file_path self) as [path|]; [|by cbn].
  unfold attr, get, raise, of_outcome, bind, ret. cbv beta iota.
  destruct (fs !! path) as [content|] eqn:Hfs; [|by cbn].
  destruct (read_lines content) as [[[]|e] v] eqn:Hread; [|by cbn].
  cbn [fst snd]. intros Hre. exists path, content.
  rewrite Hread. by repeat split.
Qed.

Lemma rebuild_returned fs v model time :
  rebuild fs v = Returned (model, time) ->
  (3 <= length (player_stats v))%nat
  /\ (exists m0, Model_init fs (game_file v) = Returned m0)
  /\ time = game_time v
  /\ Model._level_num model = level_number v.
Proof.
  unfold rebuild.
  destruct (Model_init fs (game_file v)) as [m0|e]; [|done].
  destruct (Py.index (player_stats v) 0) as [z0|]; [|done].
  destruct (Py.index (player_stats v) 1) as [z1|]; [|done].
  destruct (Py.index (player_stats v) 2) as [z2|] eqn:Hz2; [|done].
  destruct (Py.index_update _ _ _) as [levels|]; [|done].
  intros [= <- <-]. split; [|by eauto].
  unfold Py.index in Hz2.
  destruct ((0 <=? 2) && (2 <? Z.of_nat (length (player_stats v)))) eqn:Hb.
  - apply andb_true_iff in Hb as [_ Hb]. apply Z.ltb_lt in Hb. lia.
  - cbn in Hz2. done.
Qed.

(** ** What [save] and [load] do to the file system *)

Lemma load_keeps_files self fs : snd (load self fs) = fs.
Proof.
  unfold load, open_read.
  destruct (_file_path self) as [path|]; [|reflexivity].
  unfold attr, get, raise, of_outcome, bind, ret. cbv beta iota.
  destruct (fs !! path) as [content|]; [|reflexivity].
  by destruct (read_lines content) as [[[]|e] v].
Qed.


(** X5. [_save_formatting] keeps, in their order, the characters of
    the value that are not among [remove_chars], and ends the text
    with one line feed: none of the characters to remove is left in
    the value, whatever the order in which they are listed. *)
Theorem save_formatting_removes (save_value remove_chars : string) :
  _save_formatting save_value remove_chars
  = Py.keep (fun c => negb (Py.contains c remove_chars)) save_value
    +:+ String Py.LF ""
  /\ Py.all_chars (fun c => negb (Py.contains c remove_chars))
       (Py.keep (fun c => negb (Py.contains c remove_chars)) save_value) = true.
Proof.
  split.
  - unfold _save_formatting. by rewrite PyFacts.remove_chars_keep.
  - induction save_value as [|d s IH]; [done|]. cbn [Py.keep].
    destruct (negb (Py.contains d remove_chars)) eqn:Hd; [|done].
    cbn [Py.all_chars]. by rewrite Hd, IH.
Qed.

(** ** When [load] returns *)

Lemma rebuild_returns_iff fs v :
  (exists model time, rebuild fs v = Returned (model, time))
  <-> exists m0, Model_init fs (game_file v) = Returned m0
       /\ (3 <= length (player_stats v))%nat
       /\ - Z.of_nat (length (Model._levels m0)) <= level_number v
          < Z.of_nat (length (Model._levels m0)).
Proof.
  unfold rebuild. split.
  - intros (model & time & Hre).
    destruct (Model_init fs (game_file v)) as [m0|e]; [|done].
    exists m0. split; [done|].
    destruct (Py.index (player_stats v) 0) as [z0|]; [|done].
    destruct (Py.index (player_stats v) 1) as [z1|]; [|done].
    destruct (Py.index (player_stats v) 2) as [z2|] eqn:Hz2; [|done].
    destruct (Py.index_update _ _ _) as [levels|] eqn:Hup; [|done].
    split.
    + pose proof (proj1 (PyFacts.index_some_iff (player_stats v) 2) ltac:(by eexists)). lia.
    + apply PyFacts.index_some_iff, (PyFacts.index_update_some_iff _ _
        (fun l => attempt_unlock_door (Level.set_items (level_entities v) l))).
      by eexists.
  - intros (m0 & -> & Hstats & Hlevel).
    destruct (proj2 (PyFacts.index_some_iff (player_stats v) 0) ltac:(lia)) as [z0 ->].
    destruct (proj2 (PyFacts.index_some_iff (player_stats v) 1) ltac:(lia)) as [z1 ->].
    destruct (proj2 (PyFacts.index_some_iff (player_stats v) 2) ltac:(lia)) as [z2 ->].
    destruct (proj2 (PyFacts.index_update_some_iff (Model._levels m0) (level_number v)
                (fun l => attempt_unlock_door (Level.set_items (level_entities v) l)))
                (proj2 (PyFacts.index_some_iff _ _) Hlevel)) as [levels ->].
    by eexists _, _.
Qed.


(** ** Saving, then loading *)

Lemma strip_record (c : ascii) (p payload : string) :
  Py.isspace c = false -> Py.plain payload ->
  Py.strip (record (String c p) payload) = String c p +:+ " " +:+ payload.
Proof.
  intros Hc (_ & Hr & Hne). unfold record.
  rewrite <- (PyFacts.append_assoc (String c p) " "), PyFacts.append_cons.
  rewrite (PyFacts.strip_line c (p +:+ " ") payload Hc Hr Hne).
  by rewrite <- PyFacts.append_cons, PyFacts.append_assoc.
Qed.

Lemma record_body prefix payload :
  record prefix payload = (prefix +:+ " " +:+ payload) +:+ String Py.LF "".
Proof. unfold record. by rewrite !PyFacts.append_assoc. Qed.

Lemma records_terminated n g items inv st pos time :
  records n g items inv st pos time
  = Py.terminated
      [ "Level" +:+ " " +:+ Py.str_int n; "File" +:+ " " +:+ g;
        "Entities" +:+ " " +:+ str_entities items;
        "Inventory" +:+ " " +:+ str_items inv;
        "Stats" +:+ " " +:+ str_tuple st;
        "Position" +:+ " " +:+ str_tuple pos;
        "Time" +:+ " " +:+ Py.str_int time ].
Proof. unfold records, Py.terminated. cbn [map]. by rewrite !record_body. Qed.

Lemma no_break_body (prefix payload : string) :
  Py.no_break prefix -> Py.no_break payload ->
  Py.no_break (prefix +:+ " " +:+ payload).
Proof. intros Hp Hq. apply PyFacts.no_break_app; [done|]. by apply PyFacts.no_break_app. Qed.

Lemma load_line_level_record n v :
  load_line (record "Level" (Py.str_int n)) v = (Returned tt, set_level_number n v).
Proof.
  rewrite (load_line_level _ (" " +:+ Py.str_int n)).
  - change (Py.slice_from 1 (" " +:+ Py.str_int n)) with (Py.str_int n).
    rewrite PyFacts.split_head_no_space by apply PyFacts.str_int_no_space.
    by rewrite PyFacts.int_str_int.
  - by rewrite strip_record by (done || apply str_int_plain).
Qed.

Lemma load_line_time_record n v :
  load_line (record "Time" (Py.str_int n)) v = (Returned tt, set_game_time n v).
Proof.
  rewrite (load_line_time _ (Py.str_int n)).
  - by rewrite PyFacts.int_str_int.
  - by rewrite strip_record by (done || apply str_int_plain).
Qed.

Lemma load_line_file_record g v :
  Py.no_space g ->
  load_line (record "File" g) v = (Returned tt, set_game_file g v).
Proof.
  intros Hg. destruct g as [|c g]; [reflexivity|].
  rewrite (load_line_file _ (" " +:+ String c g)).
  - change (Py.slice_from 1 (" " +:+ String c g)) with (String c g).
    by rewrite PyFacts.split_head_no_space.
  - rewrite strip_record; [done|done|].
    split; [by apply PyFacts.no_space_no_break|].
    split; [by apply PyFacts.rstrip_no_space|done].
Qed.

Lemma load_line_entities_record items v :
  Py.plain (str_entities items) ->
  eval_entities (str_entities items) = Returned items ->
  load_line (record "Entities" (str_entities items)) v
  = (Returned tt, set_level_entities items v).
Proof.
  intros Hplain Heval.
  rewrite (load_line_entities _ (" " +:+ str_entities items)).
  - change (Py.slice_from 1 (" " +:+ str_entities items)) with (str_entities items).
    by rewrite Heval.
  - by rewrite strip_record.
Qed.

Lemma load_line_inventory_record inv v :
  Py.plain (str_items inv) ->
  eval_items (str_items inv) = Returned inv ->
  load_line (record "Inventory" (str_items inv)) v
  = (Returned tt, set_inventory_items inv v).
Proof.
  intros Hplain Heval.
  rewrite (load_line_inventory _ (" " +:+ str_items inv)).
  - change (Py.slice_from 1 (" " +:+ str_items inv)) with (str_items inv).
    by rewrite Heval.
  - by rewrite strip_record.
Qed.

Lemma load_line_stats_record st v :
  eval_tuple (str_tuple st) = Returned st ->
  load_line (record "Stats" (str_tuple st)) v
  = (Returned tt, set_player_stats st v).
Proof.
  intros Heval.
  rewrite (load_line_stats _ (" " +:+ str_tuple st)).
  - change (Py.slice_from 1 (" " +:+ str_tuple st)) with (str_tuple st).
    by rewrite Heval.
  - by rewrite strip_record by (done || apply str_tuple_plain).
Qed.

Lemma load_line_position_record pos v :
  eval_tuple (str_tuple pos) = Returned pos ->
  load_line (record "Position" (str_tuple pos)) v
  = (Returned tt, set_player_position pos v).
Proof.
  intros Heval.
  rewrite (load_line_position _ (" " +:+ str_tuple pos)).
  - change (Py.slice_from 1 (" " +:+ str_tuple pos)) with (str_tuple pos).
    by rewrite Heval.
  - by rewrite strip_record by (done || apply str_tuple_plain).
Qed.

Lemma read_lines_records n g items inv st pos time :
  Py.no_space g ->
  Py.plain (str_entities items) -> Py.plain (str_items inv) ->
  eval_entities (str_entities items) = Returned items ->
  eval_items (str_items inv) = Returned inv ->
  eval_tuple (str_tuple st) = Returned st ->
  eval_tuple (str_tuple pos) = Returned pos ->
  read_lines (Py.writelines (records n g items inv st pos time))
  = (Returned tt,
     {| level_number := n; game_file := g; level_entities := items;
        inventory_items := inv; player_stats := st;
        player_position := pos; game_time := time |}).
Proof.
  intros Hg Hent Hinv Heval_ent Heval_inv Heval_st Heval_pos.
  unfold read_lines.
  rewrite records_terminated, PyFacts.file_lines_writelines.
  - rewrite <- records_terminated. unfold records.
    rewrite for_each_cons, load_line_level_record.
    rewrite for_each_cons, load_line_file_record by done.
    rewrite for_each_cons, load_line_entities_record by done.
    rewrite for_each_cons, load_line_inventory_record by done.
    rewrite for_each_cons, load_line_stats_record by done.
    rewrite for_each_cons, load_line_position_record by done.
    rewrite for_each_cons, load_line_time_record.
    reflexivity.
  - repeat apply Forall_cons_2; try apply Forall_nil_2; apply no_break_body;
      try done.
    + apply str_int_plain.
    + by apply PyFacts.no_space_no_break.
    + apply Hent.
    + apply Hinv.
    + apply str_tuple_plain.
    + apply str_tuple_plain.
    + apply str_int_plain.
Qed.

Lemma save_records (fs : files) (path : string) (model : Model.t)
    (time : Z) (level : Level.t) :
  path <> "" ->
  Py.index (Model._levels model) (Model._level_num model) = Some level ->
  save {| _file_path := Some path; _model := Some model; _time := Some time |} fs
  = (Returned tt,
     <[path := Py.writelines
         (records (Model._level_num model) (Model._game_file model)
            (Level._items level)
            (Inventory._items (Player._inventory (Model._player model)))
            (Model.get_player_stats model)
            (Player._position (Model._player model)) time)]> fs).
Proof.
  intros Hpath Hlevel.
  unfold save, attr, bind, ret; cbn [_model _time _file_path].
  unfold Model.get_current_items, Model.get_level, Py.getitem, bind, ret.
  rewrite Hlevel. cbn [app].
  unfold open_write. destruct (decide (path = "")) as [->|_]; [done|].
  reflexivity.
Qed.

(** X8. Saving, then loading. When the path of the game file holds no
    white space, the texts of the two dictionaries fit on a line, and
    [eval] gives back the values that were written, [load] on the file
    that [save] wrote returns the time that was saved and a model
    built by [Model] for the same game file, with the level number,
    the inventory and the stats of the saved model, the saved items in
    the current level and the player that [Player] builds for the
    saved position. *)
Theorem save_load_round_trip (fs : files) (path : string)
    (model m0 : Model.t) (time : Z) (level level0 : Level.t) :
  let items := Level._items level in
  let inv := Inventory._items (Player._inventory (Model._player model)) in
  let pos := Player._position (Model._player model) in
  let saved :=
    snd (save {| _file_path := Some path; _model := Some model;
                 _time := Some time |} fs) in
  path <> "" ->
  Py.index (Model._levels model) (Model._level_num model) = Some level ->
  Py.no_space (Model._game_file model) ->
  Py.plain (str_entities items) ->
  Py.plain (str_items inv) ->
  eval_entities (str_entities items) = Returned items ->
  eval_items (str_items inv) = Returned inv ->
  eval_tuple (str_tuple (Model.get_player_stats model))
  = Returned (Model.get_player_stats model) ->
  eval_tuple (str_tuple pos) = Returned pos ->
  Model_init saved (Model._game_file model) = Returned m0 ->
  Py.index (Model._levels m0) (Model._level_num model) = Some level0 ->
  exists loaded,
    load {| _file_path := Some path; _model := None; _time := None |} saved
    = (Returned (loaded, time), saved)
    /\ Model._level_num loaded = Model._level_num model
    /\ Model.get_player_inventory loaded = Model.get_player_inventory model
    /\ Model.get_player_stats loaded = Model.get_player_stats model
    /\ Model._game_file loaded = Model._game_file m0
    /\ Py.index (Model._levels loaded) (Model._level_num loaded)
       = Some (attempt_unlock_door (Level.set_items items level0))
    /\ Player.get_position (Model.get_player loaded)
       = Player._position (Player_init pos).
Proof.
  intros items inv pos saved Hpath Hlevel Hfile Hent Hinv Heval_ent Heval_inv
    Heval_st Heval_pos Hmodel Hlevel0.
  assert (Hsaved : saved = <[path := Py.writelines
            (records (Model._level_num model) (Model._game_file model)
               items inv (Model.get_player_stats model) pos time)]> fs).
  { unfold saved. by rewrite (save_records fs path model time level). }
  destruct (PyFacts.index_update_some _ _ _
              (fun l => attempt_unlock_door (Level.set_items items l)) Hlevel0)
    as (levels & Hup & Hlevels).
  eexists. split.
  - unfold load, open_read, attr, get, raise, of_outcome, bind, ret.
    cbn [_file_path]. cbv beta iota.
    replace (saved !! path) with (Some (Py.writelines
            (records (Model._level_num model) (Model._game_file model)
               items inv (Model.get_player_stats model) pos time)))
      by (by rewrite Hsaved, lookup_insert_eq).
    rewrite read_lines_records by done.
    unfold rebuild.
    cbn [game_file player_stats player_position level_number level_entities
         inventory_items game_time].
    rewrite Hmodel.
    change (Py.index (Model.get_player_stats model) 0)
      with (Some (Player._health (Model._player model))).
    change (Py.index (Model.get_player_stats model) 1)
      with (Some (Player._hunger (Model._player model))).
    change (Py.index (Model.get_player_stats model) 2)
      with (Some (Player._thirst (Model._player model))).
    cbv iota. rewrite Hup. reflexivity.
  - cbn [Model._level_num Model._levels Model._game_file Model._player].
    repeat split; try done.
    unfold Model.get_player_inventory. cbn [Model._player Player._inventory].
    by destruct (Player._inventory (Model._player model)).
Qed.


End facts.

(** [save] on the demo game. *)
Lemma save_writes_records_witness :
  save {| _file_path := Some "save.txt";
          _model := Some (Demo.new_model "demo.txt");
          _time := Some 75 |} ∅
  = (Returned tt,
     {[ "save.txt" :=
          "Level 0" +:+ String Py.LF
          ("File demo.txt" +:+ String Py.LF
          ("Entities {(0, 1): Coin((0, 1))}" +:+ String Py.LF
          ("Inventory {}" +:+ String Py.LF
          ("Stats (100, 0, 0)" +:+ String Py.LF
          ("Position (0, 0)" +:+ String Py.LF
          ("Time 75" +:+ String Py.LF ""))))))  ]}).
Proof.
  exact (save_writes_records ∅ "save.txt" (Demo.new_model "demo.txt") 75
           Demo.corridor ltac:(discriminate) eq_refl).
Defined.




(** C1 at a game file whose path holds a blank. [save] writes the whole
    path after File; [load] keeps the text up to the first blank and
    builds the model for the path "my": there is no such file, and where
    there is one, the model is the one of another game file. *)
Lemma save_load_path_with_blank :
  let model := Demo.new_model "my game.txt" in
  let fs : files := {[ "my game.txt" := "   D" ]} in
  let fs' := snd (save (Demo.writer "save.txt" model 7) fs) in
  fst (save (Demo.writer "save.txt" model 7) fs) = Returned tt
  /\ fs' !! "save.txt"
     = Some (Demo.text ["Level 0"; "File my game.txt";
                        "Entities {(0, 1): Coin((0, 1))}"; "Inventory {}";
                        "Stats (100, 0, 0)"; "Position (0, 0)"; "Time 7"])
  /\ fst (load (Demo.reader "save.txt") fs') = Raised FileNotFoundError
  /\ fst (load (Demo.reader "save.txt") (<["my" := "   D"]> fs'))
     = Returned (Demo.new_model "my", 7)
  /\ Model._game_file (Demo.new_model "my") <> Model._game_file model.
Proof. vm_compute. repeat split; discriminate. Qed.

(** The round trip on the demo game. *)
Lemma save_load_round_trip_witness :
  let saved := snd (save (Demo.writer "save.txt" (Demo.new_model "demo.txt") 7)
                         Demo.game_disk) in
  exists loaded,
    load (Demo.reader "save.txt") saved = (Returned (loaded, 7), saved)
    /\ loaded = Demo.new_model "demo.txt".
Proof.
  intros saved.
  destruct (save_load_round_trip Demo.game_disk "save.txt"
              (Demo.new_model "demo.txt") (Demo.new_model "demo.txt") 7
              Demo.corridor Demo.corridor)
    as (loaded & Hload & _); try (vm_compute; done).
  exists loaded. split; [exact Hload|].
  revert Hload. vm_compute. by intros [= <-].
Defined.



End FileFacts.
(* ================================================================== *)
(** * The view *)
(* ================================================================== *)

Module ViewFacts.
Import GUI.

Section facts.
Context `{A2} `{!Constants}.

(** ** Methods that do not write to the heap *)

Lemma keeps_ret {A} (a : A) : keeps_heap (ret a).
Proof. by intros w. Qed.

Lemma keeps_raise {A} (e : exn) : keeps_heap (@raise world A e).
Proof. by intros w. Qed.

Lemma keeps_get : keeps_heap get.
Proof. by intros w. Qed.

Lemma keeps_bind {A B} (m : M world A) (k : A -> M world B) :
  keeps_heap m -> (forall a, keeps_heap (k a)) -> keeps_heap (bind m k).
Proof.
  intros Hm Hk w. unfold bind. specialize (Hm w).
  destruct (m w) as [[a|e] w1]; cbn [snd] in *; [|done].
  by rewrite (Hk a w1).
Qed.

Lemma keeps_for_each {A} (l : list A) (f : A -> M world unit) :
  (forall x, keeps_heap (f x)) -> keeps_heap (for_each l f).
Proof.
  intros Hf. induction l as [|x l IH]; [apply keeps_ret|].
  cbn [for_each]. apply keeps_bind; [apply Hf | intros _; apply IH].
Qed.

Lemma keeps_modify (f : world -> world) :
  (forall w, heap (f w) = heap w) -> keeps_heap (modify f).
Proof. intros Hf w. apply Hf. Qed.

Lemma keeps_level_view {A} (m : M level_view A) :
  keeps_heap (LevelView.on_view m).
Proof.
  intros w. unfold LevelView.on_view, zoom.
  by destruct (m (_level_view w)).
Qed.

Lemma keeps_getitem {A} (l : list A) (i : Z) :
  keeps_heap (Py.getitem l i).
Proof. unfold Py.getitem. destruct (Py.index l i); by intros w. Qed.

Lemma keeps_dict_getitem {K V} `{EqDecision K} (k : K) (d : Dict.t K V) :
  keeps_heap (Dict.getitem k d).
Proof. unfold Dict.getitem. destruct (Dict.lookup k d); by intros w. Qed.

Lemma keeps_table (d : gmap string string) (k : string) :
  keeps_heap (table d k).
Proof. unfold table. destruct (d !! k); by intros w. Qed.

Lemma keeps_cell (p : position) : keeps_heap (cell p).
Proof.
  unfold cell. destruct p as [|r [|c [|x p]]]; by intros w.
Qed.

Lemma keeps_deref (r : nat) : keeps_heap (deref r).
Proof.
  unfold deref. apply keeps_bind; [apply keeps_get|]. intros w.
  destruct (heap w !! r); by intros w'.
Qed.

Lemma keeps_get_tiles (maze : nat) : keeps_heap (get_tiles maze).
Proof.
  unfold get_tiles. apply keeps_bind; [apply keeps_deref|].
  intros []; by intros w.
Qed.

Lemma keeps_the_items (items : nat) : keeps_heap (the_items items).
Proof.
  unfold the_items. apply keeps_bind; [apply keeps_deref|].
  intros []; by intros w.
Qed.

Lemma keeps_get_items (inventory : nat) : keeps_heap (get_items inventory).
Proof.
  unfold get_items. apply keeps_bind; [apply keeps_deref|].
  intros []; by intros w.
Qed.

Create HintDb keeps discriminated.
Hint Resolve keeps_ret keeps_raise keeps_get keeps_level_view
  keeps_getitem keeps_dict_getitem keeps_table keeps_cell keeps_deref
  keeps_get_tiles keeps_the_items keeps_get_items : keeps.

Ltac keeps :=
  repeat first
    [ apply keeps_bind; [|intros ?]
    | apply keeps_for_each; intros ?
    | solve [auto with keeps]
    | apply keeps_modify; intros []; reflexivity
    | match goal with
      | |- keeps_heap (if ?b then _ else _) => destruct b
      | |- keeps_heap (let '(_, _) := ?p in _) => destruct p
      | |- keeps_heap (match ?o with Some _ => _ | None => _ end) => destruct o
      | |- keeps_heap (match ?x with _ => _ end) => destruct x
      end ].

Lemma keeps_create c : keeps_heap (LevelView.create c).
Proof. apply keeps_level_view. Qed.

Lemma keeps_annotate p text : keeps_heap (LevelView.annotate_position p text).
Proof. unfold LevelView.annotate_position. pose proof keeps_create. keeps. Qed.

Lemma keeps_create_image filename pos tile_id :
  keeps_heap (LevelView._create_image filename pos tile_id).
Proof.
  unfold LevelView._create_image, LevelView._store_image, LevelView.create.
  keeps.
Qed.

Lemma keeps_draw_tiles tile pos : keeps_heap (LevelView._draw_tiles tile pos).
Proof.
  unfold LevelView._draw_tiles.
  pose proof keeps_create_image. pose proof keeps_create. keeps.
Qed.

Lemma keeps_draw_items item : keeps_heap (LevelView._draw_items item).
Proof.
  unfold LevelView._draw_items.
  pose proof keeps_create_image. pose proof keeps_create.
  pose proof keeps_annotate. keeps.
Qed.

Lemma keeps_draw_player pos : keeps_heap (LevelView._draw_player pos).
Proof.
  unfold LevelView._draw_player.
  pose proof keeps_create_image. pose proof keeps_create.
  pose proof keeps_annotate. keeps.
Qed.

Lemma keeps_level_draw tiles items pos :
  keeps_heap (LevelView.draw tiles items pos).
Proof.
  unfold LevelView.draw, LevelView.clear.
  pose proof keeps_draw_tiles. pose proof keeps_draw_items.
  pose proof keeps_draw_player. keeps.
Qed.

Lemma keeps_draw_level maze items pos :
  keeps_heap (GraphicalInterface._draw_level maze items pos).
Proof.
  unfold GraphicalInterface._draw_level. pose proof keeps_level_draw. keeps.
Qed.

Lemma keeps_stat_label i text value :
  keeps_heap (StatsView._draw_stat_label i text value).
Proof.
  unfold StatsView._draw_stat_label, StatsView.annotate_position. keeps.
Qed.

Lemma keeps_draw_stats player_stats :
  keeps_heap (GraphicalInterface._draw_player_stats player_stats).
Proof.
  unfold GraphicalInterface._draw_player_stats, StatsView.draw_stats.
  pose proof keeps_stat_label. keeps.
Qed.

Lemma keeps_draw_coins n : keeps_heap (StatsView.draw_coins n).
Proof. apply keeps_stat_label. Qed.

Lemma keeps_draw_inventory_view inventory :
  keeps_heap (InventoryView.draw_inventory inventory).
Proof.
  unfold InventoryView.draw_inventory, InventoryView._draw_inventory_header,
    InventoryView._draw_item, InventoryView.pack, Dict.items.
  keeps.
Qed.

(** ** The coins are taken out of a copy *)

Lemma bind_returned {S A B} (m : M S A) (k : A -> M S B) s a s1 :
  m s = (Returned a, s1) -> bind m k s = k a s1.
Proof. intros Hm. unfold bind. by rewrite Hm. Qed.

Lemma bind_raised {S A B} (m : M S A) (k : A -> M S B) s e s1 :
  m s = (Raised e, s1) -> bind m k s = (Raised e, s1).
Proof. intros Hm. unfold bind. by rewrite Hm. Qed.

Lemma set_heap_id w : set_heap (heap w) w = w.
Proof. by destruct w. Qed.

Lemma set_heap_set_heap h h' w : set_heap h (set_heap h' w) = set_heap h w.
Proof. reflexivity. Qed.

Lemma heap_set_heap h w : heap (set_heap h w) = h.
Proof. reflexivity. Qed.

Lemma alloc_eq o w :
  alloc o w
  = (Returned (fresh (dom (heap w))),
     set_heap (<[fresh (dom (heap w)) := o]> (heap w)) w).
Proof. reflexivity. Qed.

Lemma get_items_eq inventory inv w :
  heap w !! inventory = Some (ObjInventory inv) ->
  get_items inventory w = (Returned (Inventory.get_items inv), w).
Proof.
  intros Hinv. unfold get_items, deref, bind, get. cbv beta iota.
  by rewrite Hinv.
Qed.

Lemma the_list_eq r xs w :
  heap w !! r = Some (ObjList xs) -> the_list r w = (Returned xs, w).
Proof.
  intros Hr. unfold the_list, deref, bind, get. cbv beta iota.
  by rewrite Hr.
Qed.

Lemma append_eq r xs item w :
  heap w !! r = Some (ObjList xs) ->
  append r item w
  = (Returned tt, set_heap (<[r := ObjList (xs ++ [item])]> (heap w)) w).
Proof.
  intros Hr. unfold append, deref, bind, get. cbv beta iota.
  by rewrite Hr.
Qed.

Lemma keep_group r group : forall xs w,
  heap w !! r = Some (ObjList xs) ->
  for_each group (fun item =>
                    if bool_decide (Item_str item <> COIN)
                    then append r item else ret tt) w
  = (Returned tt,
     set_heap (<[r := ObjList (xs ++ filter (fun it => Item_str it <> COIN) group)]>
                 (heap w)) w).
Proof.
  induction group as [|item group IH]; intros xs w Hr.
  - cbn [for_each]. rewrite filter_nil, app_nil_r, insert_id by done.
    by rewrite set_heap_id.
  - cbn [for_each].
    destruct (bool_decide (Item_str item <> COIN)) eqn:Hcoin.
    + apply bool_decide_eq_true in Hcoin.
      rewrite (bind_returned _ _ _ _ _ (append_eq r xs item w Hr)).
      rewrite (IH (xs ++ [item])) by (rewrite heap_set_heap; apply lookup_insert_eq).
      rewrite set_heap_set_heap, heap_set_heap, insert_insert_eq.
      rewrite filter_cons_True by done. by rewrite <- app_assoc.
    + apply bool_decide_eq_false in Hcoin.
      rewrite (bind_returned _ _ w tt w) by reflexivity.
      rewrite (IH xs) by done.
      by rewrite filter_cons_False by done.
Qed.

Lemma keep_groups r groups : forall xs w,
  heap w !! r = Some (ObjList xs) ->
  for_each groups (fun group =>
    for_each group (fun item =>
                      if bool_decide (Item_str item <> COIN)
                      then append r item else ret tt)) w
  = (Returned tt,
     set_heap (<[r := ObjList (xs ++ filter (fun it => Item_str it <> COIN)
                                            (concat groups))]>
                 (heap w)) w).
Proof.
  induction groups as [|group groups IH]; intros xs w Hr.
  - cbn [for_each concat]. rewrite filter_nil, app_nil_r, insert_id by done.
    by rewrite set_heap_id.
  - cbn [for_each concat].
    rewrite (bind_returned _ _ _ _ _ (keep_group r group xs w Hr)).
    rewrite (IH (xs ++ filter (fun it => Item_str it <> COIN) group))
      by (rewrite heap_set_heap; apply lookup_insert_eq).
    rewrite set_heap_set_heap, heap_set_heap, insert_insert_eq.
    by rewrite filter_app, <- app_assoc.
Qed.

Lemma contains_lookup {V} (k : string) (d : Dict.t string V) :
  Dict.contains k d = true -> exists v, Dict.lookup k d = Some v.
Proof.
  induction d as [|[k' v] d IH]; cbn; [done|].
  destruct (decide (k' = k)) as [->|Hne]; [by eauto|].
  rewrite bool_decide_eq_false_2 by done. exact IH.
Qed.

Lemma contains_false_lookup {V} (k : string) (d : Dict.t string V) :
  Dict.contains k d = false -> Dict.lookup k d = None.
Proof.
  induction d as [|[k' v] d IH]; cbn; [done|].
  destruct (decide (k' = k)) as [->|Hne].
  - by rewrite bool_decide_eq_true_2.
  - rewrite bool_decide_eq_false_2 by done. exact IH.
Qed.

(** The inventory and the number of coins that [_draw_inventory] gives
    to the two views, when the inventory has a "Coin" key. *)
Lemma separate_coins_present inventory inv group w :
  heap w !! inventory = Some (ObjInventory inv) ->
  Dict.lookup "Coin" (Inventory._items inv) = Some group ->
  let l := filter (fun it => Item_str it <> COIN)
                  (all_items (Inventory._items inv)) in
  let r := fresh (dom (heap w)) in
  let h := <[r := ObjList l]> (heap w) in
  GraphicalInterface.separate_coins inventory w
  = (Returned (fresh (dom h), Z.of_nat (length group)),
     set_heap (<[fresh (dom h) := ObjInventory (Inventory_init l)]> h) w).
Proof.
  intros Hinv Hcoin l r h.
  assert (Hr : r <> inventory).
  { intros Heq. apply (is_fresh (dom (heap w))). fold r. rewrite Heq.
    apply elem_of_dom. by eauto. }
  unfold GraphicalInterface.separate_coins.
  rewrite (bind_returned _ _ _ _ _ (get_items_eq _ _ _ Hinv)).
  unfold Inventory.get_items.
  assert (Hc : Dict.contains "Coin" (Inventory._items inv) = true).
  { destruct (Dict.contains "Coin" (Inventory._items inv)) eqn:Hc; [done|].
    apply contains_false_lookup in Hc. congruence. }
  rewrite Hc.
  rewrite (bind_returned _ _ _ _ _ (alloc_eq _ _)). fold r.
  set (w1 := set_heap (<[r := ObjList []]> (heap w)) w).
  assert (Hinv1 : heap w1 !! inventory = Some (ObjInventory inv)).
  { unfold w1. rewrite heap_set_heap, lookup_insert_ne by done. exact Hinv. }
  rewrite (bind_returned _ _ _ _ _ (get_items_eq _ _ _ Hinv1)).
  unfold Dict.getitem, Inventory.get_items. rewrite Hcoin.
  rewrite (bind_returned _ _ w1 group w1) by reflexivity.
  rewrite (bind_returned _ _ _ _ _ (get_items_eq _ _ _ Hinv1)).
  unfold Inventory.get_items.
  assert (Hr1 : heap w1 !! r = Some (ObjList [])).
  { unfold w1. rewrite heap_set_heap. apply lookup_insert_eq. }
  rewrite (bind_returned _ _ _ _ _ (keep_groups r _ [] w1 Hr1)).
  unfold w1. rewrite set_heap_set_heap, heap_set_heap, insert_insert_eq.
  cbn [app]. fold (all_items (Inventory._items inv)). fold l. fold h.
  rewrite (bind_returned _ _ _ _ _
             (the_list_eq r l (set_heap h w) (lookup_insert_eq _ _ _))).
  rewrite (bind_returned _ _ _ _ _ (alloc_eq _ _)).
  reflexivity.
Qed.

(** Without a "Coin" key the inventory itself is given to the view. *)
Lemma separate_coins_absent inventory inv w :
  heap w !! inventory = Some (ObjInventory inv) ->
  Dict.lookup "Coin" (Inventory._items inv) = None ->
  GraphicalInterface.separate_coins inventory w = (Returned (inventory, 0), w).
Proof.
  intros Hinv Hcoin.
  unfold GraphicalInterface.separate_coins.
  rewrite (bind_returned _ _ _ _ _ (get_items_eq _ _ _ Hinv)).
  unfold Inventory.get_items.
  destruct (Dict.contains "Coin" (Inventory._items inv)) eqn:Hc; [|done].
  apply contains_lookup in Hc as [v Hv]. congruence.
Qed.

(** ** Nothing that the model owns is written to *)

Lemma keeps_extends {A} (m : M world A) : keeps_heap m -> extends_heap m.
Proof. intros Hm w l o Hl. by rewrite Hm. Qed.

Lemma extends_bind {A B} (m : M world A) (k : A -> M world B) :
  extends_heap m -> (forall a, extends_heap (k a)) -> extends_heap (bind m k).
Proof.
  intros Hm Hk w l o Hl. unfold bind. specialize (Hm w l o Hl).
  destruct (m w) as [[a|e] w1]; cbn [snd] in *; [|done].
  by apply Hk.
Qed.

Lemma lookup_fresh_ne (h : gmap nat pyobj) l o :
  h !! l = Some o -> fresh (dom h) <> l.
Proof.
  intros Hl Heq. apply (is_fresh (dom h)). rewrite Heq.
  apply elem_of_dom. by eauto.
Qed.

Lemma extends_separate_coins inventory :
  extends_heap (GraphicalInterface.separate_coins inventory).
Proof.
  intros w l o Hl.
  destruct (heap w !! inventory) as [obj|] eqn:Hinv.
  - assert (Hother : (forall inv, obj <> ObjInventory inv) ->
                     snd (GraphicalInterface.separate_coins inventory w) = w).
    { intros Hno. unfold GraphicalInterface.separate_coins, get_items, deref,
        bind, get. cbv beta iota. rewrite Hinv.
      destruct obj; try reflexivity. by destruct (Hno inv). }
    destruct obj as [maze|d|inv|xs];
      try (rewrite Hother by (intros ?; discriminate); exact Hl).
    destruct (Dict.lookup "Coin" (Inventory._items inv)) as [group|] eqn:Hc.
    + rewrite (separate_coins_present _ _ _ _ Hinv Hc). cbn [snd].
      rewrite heap_set_heap.
      rewrite lookup_insert_ne.
      { rewrite lookup_insert_ne; [done|]. by eapply lookup_fresh_ne. }
      eapply lookup_fresh_ne.
      rewrite lookup_insert_ne; [done|]. by eapply lookup_fresh_ne.
    + by rewrite (separate_coins_absent _ _ _ Hinv Hc).
  - unfold GraphicalInterface.separate_coins, get_items, deref, bind, get.
    cbv beta iota. by rewrite Hinv.
Qed.

Lemma extends_draw_inventory inventory :
  extends_heap (GraphicalInterface._draw_inventory inventory).
Proof.
  unfold GraphicalInterface._draw_inventory.
  apply extends_bind; [apply extends_separate_coins|].
  intros [r coins]. apply keeps_extends.
  apply keeps_bind; [apply keeps_draw_inventory_view|].
  intros _. apply keeps_draw_coins.
Qed.

Lemma extends_draw maze items player_position inventory player_stats :
  extends_heap (GraphicalInterface.draw maze items player_position
                  inventory player_stats).
Proof.
  unfold GraphicalInterface.draw.
  apply extends_bind; [apply keeps_extends, keeps_draw_level|]. intros _.
  apply extends_bind; [apply keeps_extends, keeps_draw_stats|]. intros _.
  apply extends_draw_inventory.
Qed.

(** C8. Whatever [draw] is given, and whether it returns or raises,
    every object that was in the heap before is the same after: the
    maze, the dictionary of the items, the inventory of the player
    (the stats and the position are tuples, which cannot change). The
    same holds of [_draw_level], [_draw_player_stats] and
    [_draw_inventory], of which the first two write nothing to the
    heap at all. When the inventory has a "Coin" key, the inventory
    that [_draw_inventory] gives to the inventory view is a new
    object, at a location that was not in use, and the inventory of
    the player still has all its items. *)
Theorem draw_reads_only (w : world) (maze items inventory : nat)
    (player_position : position) (player_stats : stats)
    (l : nat) (o : pyobj) :
  heap w !! l = Some o ->
  heap (snd (GraphicalInterface.draw maze items player_position inventory
               player_stats w)) !! l = Some o
  /\ heap (snd (GraphicalInterface._draw_level maze items player_position w))
     = heap w
  /\ heap (snd (GraphicalInterface._draw_player_stats player_stats w)) = heap w
  /\ heap (snd (GraphicalInterface._draw_inventory inventory w)) !! l = Some o
  /\ (forall inv group,
        heap w !! inventory = Some (ObjInventory inv) ->
        Dict.lookup "Coin" (Inventory._items inv) = Some group ->
        exists r coins w',
          GraphicalInterface.separate_coins inventory w
          = (Returned (r, coins), w')
          /\ heap w !! r = None
          /\ r <> inventory
          /\ heap w' !! inventory = Some (ObjInventory inv)).
Proof.
  intros Hl. split; [by apply extends_draw|].
  split; [apply keeps_draw_level|].
  split; [apply keeps_draw_stats|].
  split; [by apply extends_draw_inventory|].
  intros inv group Hinv Hc.
  pose proof (separate_coins_present _ _ _ _ Hinv Hc) as Heq.
  cbv zeta in Heq.
  eexists _, _, _. split; [exact Heq|].
  set (l0 := filter (fun it => Item_str it <> COIN)
                    (all_items (Inventory._items inv))).
  set (h := <[fresh (dom (heap w)) := ObjList l0]> (heap w)).
  assert (Hfresh : heap w !! fresh (dom h) = None).
  { destruct (heap w !! fresh (dom h)) as [o'|] eqn:Ho; [|done].
    exfalso. apply (lookup_fresh_ne h (fresh (dom h)) o'); [|done].
    unfold h. rewrite lookup_insert_ne; [done|]. by eapply lookup_fresh_ne. }
  split; [exact Hfresh|].
  split; [intros Heq'; rewrite Heq' in Hfresh; congruence|].
  rewrite heap_set_heap.
  rewrite lookup_insert_ne by (intros Heq'; rewrite Heq' in Hfresh; congruence).
  unfold h. rewrite lookup_insert_ne; [done|]. by eapply lookup_fresh_ne.
Qed.

Lemma lookup_in {V} (k : string) (v : V) (d : Dict.t string V) :
  In (k, v) d -> Dict.lookup k d <> None.
Proof.
  induction d as [|[k' v'] d IH]; cbn; [done|].
  intros [[= -> ->]|Hin].
  - by rewrite decide_True.
  - destruct (decide (k' = k)); [done|]. by apply IH.
Qed.

Lemma in_all_items (d : Dict.t string (list Item)) it :
  In it (all_items d) -> exists k group, In (k, group) d /\ In it group.
Proof.
  unfold all_items, Dict.values. intros Hin.
  apply in_concat in Hin as (group & Hg & Hit).
  apply in_map_iff in Hg as ([k g] & <- & Hkg). by eauto.
Qed.

(** C9, as amended. With a "Coin" key the inventory view is given a new
    inventory, built from the items whose text is not the coin
    identifier, in the order of the inventory, and the stats view the
    number of items under the key. Without the key the stats view is
    given 0 and the inventory view the inventory of the player itself;
    this one holds no coin when coins are only kept under the "Coin"
    key. *)
Theorem coins_separated (w : world) (inventory : nat) (inv : Inventory.t) :
  heap w !! inventory = Some (ObjInventory inv) ->
  GraphicalInterface._draw_inventory inventory w
  = (let '(res, w') := GraphicalInterface.separate_coins inventory w in
     match res with
     | Returned (modified_inventory, coins) =>
         bind (InventoryView.draw_inventory modified_inventory)
              (fun _ => StatsView.draw_coins coins) w'
     | Raised e => (Raised e, w')
     end)
  /\ match Dict.lookup "Coin" (Inventory._items inv) with
     | Some group =>
         exists r w',
           GraphicalInterface.separate_coins inventory w
           = (Returned (r, Z.of_nat (length group)), w')
           /\ heap w' !! r
              = Some (ObjInventory
                        (Inventory_init
                           (filter (fun it => Item_str it <> COIN)
                                   (all_items (Inventory._items inv)))))
           /\ (forall it,
                 In it (filter (fun it => Item_str it <> COIN)
                               (all_items (Inventory._items inv)))
                 <-> In it (all_items (Inventory._items inv))
                     /\ Item_str it <> COIN)
     | None =>
         GraphicalInterface.separate_coins inventory w
         = (Returned (inventory, 0), w)
         /\ ((forall k group it,
                 In (k, group) (Inventory._items inv) -> In it group ->
                 Item_str it = COIN -> k = "Coin") ->
             forall it, In it (all_items (Inventory._items inv)) ->
                        Item_str it <> COIN)
     end.
Proof.
  intros Hinv. split.
  { unfold GraphicalInterface._draw_inventory, bind at 1.
    destruct (GraphicalInterface.separate_coins inventory w) as [[[r c]|e] w'];
      reflexivity. }
  destruct (Dict.lookup "Coin" (Inventory._items inv)) as [group|] eqn:Hc.
  - pose proof (separate_coins_present _ _ _ _ Hinv Hc) as Heq.
    cbv zeta in Heq. eexists _, _. split; [exact Heq|].
    split; [rewrite heap_set_heap; apply lookup_insert_eq|].
    intros it. rewrite <- !list_elem_of_In, list_elem_of_filter. tauto.
  - split; [by apply (separate_coins_absent inventory inv)|].
    intros Hkey it Hin Hcoin.
    apply in_all_items in Hin as (k & group & Hkg & Hit).
    pose proof (Hkey k group it Hkg Hit Hcoin) as ->.
    by apply (lookup_in _ _ _ Hkg).
Qed.


(** ** The stats view *)

Lemma stat_label_eq i text value w :
  StatsView._draw_stat_label i text value w
  = (Returned tt, set_stats_view (_stats_view w ++ StatsView.stat_texts i text value) w).
Proof.
  unfold StatsView._draw_stat_label, StatsView.annotate_position, bind, get, modify.
  cbv beta iota. destruct w. cbn. by rewrite <- app_assoc.
Qed.

Lemma py_range_S (n : nat) :
  py_range (Z.of_nat n) = map Z.of_nat (seq 0 n).
Proof. unfold py_range. by rewrite Nat2Z.id. Qed.

Lemma draw_stat_eq player_stats i text v w :
  StatsView.STATS_TEXT !! i = Some text -> Py.index player_stats i = Some v ->
  StatsView.draw_stat player_stats i w
  = (Returned tt, set_stats_view (_stats_view w ++ StatsView.stat_texts i text v) w).
Proof.
  intros Ht Hv. unfold StatsView.draw_stat, Py.getitem, bind at 1. rewrite Ht.
  unfold ret at 1. cbv beta iota. unfold bind at 1. rewrite Hv.
  unfold ret at 1. cbv beta iota. apply stat_label_eq.
Qed.

Lemma draw_stats_eq player_stats :
  StatsView.draw_stats player_stats
  = for_each (map Z.of_nat (seq 0 (length player_stats))) (StatsView.draw_stat player_stats).
Proof. unfold StatsView.draw_stats. by rewrite py_range_S. Qed.

Ltac stat_step text v :=
  rewrite FileFacts.for_each_cons;
  rewrite (draw_stat_eq _ _ text v) by (reflexivity || (rewrite PyFacts.index_of_nat; reflexivity));
  cbn [_stats_view set_stats_view].

(** X9. [draw_stats] draws, for each of the first three stats, its
    header in row 0 and its value in row 1 of the column of its index,
    after what the view shows. It has no header for a fourth stat: on a
    longer tuple it raises [KeyError], with the first three stats
    drawn. *)
Theorem draw_stats_three (player_stats : stats) (w : world) :
  match player_stats with
  | [] => StatsView.draw_stats player_stats w = (Returned tt, w)
  | [a] =>
      StatsView.draw_stats player_stats w
      = (Returned tt, set_stats_view (_stats_view w ++ StatsView.stat_texts 0 "HP" a) w)
  | [a; b] =>
      StatsView.draw_stats player_stats w
      = (Returned tt,
         set_stats_view ((_stats_view w ++ StatsView.stat_texts 0 "HP" a)
                         ++ StatsView.stat_texts 1 "Hunger" b) w)
  | [a; b; c] =>
      StatsView.draw_stats player_stats w
      = (Returned tt,
         set_stats_view (((_stats_view w ++ StatsView.stat_texts 0 "HP" a)
                          ++ StatsView.stat_texts 1 "Hunger" b)
                         ++ StatsView.stat_texts 2 "Thirst" c) w)
  | a :: b :: c :: _ =>
      StatsView.draw_stats player_stats w
      = (Raised KeyError,
         set_stats_view (((_stats_view w ++ StatsView.stat_texts 0 "HP" a)
                          ++ StatsView.stat_texts 1 "Hunger" b)
                         ++ StatsView.stat_texts 2 "Thirst" c) w)
  end.
Proof.
  destruct player_stats as [|a [|b [|c [|d rest]]]];
    rewrite draw_stats_eq; cbn [length seq map].
  - reflexivity.
  - by stat_step "HP" a.
  - stat_step "HP" a. by stat_step "Hunger" b.
  - stat_step "HP" a. stat_step "Hunger" b. by stat_step "Thirst" c.
  - stat_step "HP" a. stat_step "Hunger" b. stat_step "Thirst" c.
    rewrite FileFacts.for_each_cons. reflexivity.
Qed.

(** ** The inventory view *)

Lemma draw_group_ok entry l w :
  InventoryView.item_label entry = Some l ->
  InventoryView.draw_group entry w = (Returned tt, set_inventory_view (_inventory_view w ++ [l]) w).
Proof.
  destruct entry as [name [|first value]]; [done|].
  unfold InventoryView.item_label, InventoryView.draw_group, table. cbn [fst snd].
  change (Py.getitem (first :: value) 0) with (@ret world _ first).
  unfold bind at 1, ret at 1. cbv beta iota.
  destruct (ENTITY_COLOURS !! Item_get_id first) as [colour|]; [|done].
  intros [= <-]. reflexivity.
Qed.

Lemma draw_group_fails entry w :
  InventoryView.item_label entry = None ->
  InventoryView.draw_group entry w
  = (Raised (if snd entry is [] then IndexError else KeyError), w).
Proof.
  destruct entry as [name [|first value]]; [done|].
  unfold InventoryView.item_label, InventoryView.draw_group, table. cbn [fst snd].
  change (Py.getitem (first :: value) 0) with (@ret world _ first).
  unfold bind at 1, ret at 1. cbv beta iota.
  by destruct (ENTITY_COLOURS !! Item_get_id first) as [colour|].
Qed.

Lemma draw_groups_ok entries : forall labels w,
  mapM InventoryView.item_label entries = Some labels ->
  for_each entries InventoryView.draw_group w
  = (Returned tt, set_inventory_view (_inventory_view w ++ labels) w).
Proof.
  induction entries as [|entry entries IH]; intros labels w Hl.
  - injection Hl as <-. rewrite app_nil_r. by destruct w.
  - cbn in Hl. destruct (InventoryView.item_label entry) as [l|] eqn:Hentry; [|done].
    destruct (mapM InventoryView.item_label entries) as [ls|] eqn:Hls; [|done].
    injection Hl as <-.
    rewrite FileFacts.for_each_cons, (draw_group_ok _ _ _ Hentry).
    rewrite (IH ls) by done. cbn [_inventory_view set_inventory_view].
    by rewrite <- app_assoc.
Qed.

Lemma draw_groups_fail pre entry post : forall labels w,
  mapM InventoryView.item_label pre = Some labels -> InventoryView.item_label entry = None ->
  for_each (pre ++ entry :: post) InventoryView.draw_group w
  = (Raised (if snd entry is [] then IndexError else KeyError),
     set_inventory_view (_inventory_view w ++ labels) w).
Proof.
  induction pre as [|e pre IH]; intros labels w Hl Hentry.
  - injection Hl as <-. cbn [app]. rewrite FileFacts.for_each_cons.
    rewrite (draw_group_fails _ _ Hentry), app_nil_r. by destruct w.
  - cbn in Hl. destruct (InventoryView.item_label e) as [l|] eqn:He; [|done].
    destruct (mapM InventoryView.item_label pre) as [ls|] eqn:Hls; [|done].
    injection Hl as <-. cbn [app].
    rewrite FileFacts.for_each_cons, (draw_group_ok _ _ _ He).
    rewrite (IH ls) by done. cbn [_inventory_view set_inventory_view].
    by rewrite <- app_assoc.
Qed.

Lemma draw_inventory_eq inventory inv w :
  heap w !! inventory = Some (ObjInventory inv) ->
  InventoryView.draw_inventory inventory w
  = for_each (Inventory._items inv) InventoryView.draw_group
      (set_inventory_view (_inventory_view w ++ [InventoryView.header]) w).
Proof.
  intros Hinv. unfold InventoryView.draw_inventory.
  unfold bind at 1, InventoryView._draw_inventory_header, InventoryView.pack.
  unfold bind at 1, get, modify. cbv beta iota.
  erewrite bind_returned; [|apply (get_items_eq inventory inv); exact Hinv].
  reflexivity.
Qed.

(** X10. [draw_inventory] packs the header and then, for each name of
    the inventory in its order, a label with the name, the number of
    items and the colour of the first item. It returns when every group
    has a label. At the first group that has none it raises, with the
    labels of the groups before it packed: [IndexError] when the group
    is empty, [KeyError] when the identifier of its first item has no
    colour. *)
Theorem draw_inventory_labels (inventory : nat) (inv : Inventory.t) (w : world) :
  heap w !! inventory = Some (ObjInventory inv) ->
  (forall labels,
      mapM InventoryView.item_label (Inventory._items inv) = Some labels ->
      InventoryView.draw_inventory inventory w
      = (Returned tt,
         set_inventory_view (_inventory_view w ++ InventoryView.header :: labels) w))
  /\ (forall pre entry post labels,
        Inventory._items inv = pre ++ entry :: post ->
        mapM InventoryView.item_label pre = Some labels ->
        InventoryView.item_label entry = None ->
        InventoryView.draw_inventory inventory w
        = (Raised (if snd entry is [] then IndexError else KeyError),
           set_inventory_view (_inventory_view w ++ InventoryView.header :: labels) w)).
Proof.
  intros Hinv. split.
  - intros labels Hl. rewrite (draw_inventory_eq _ _ _ Hinv).
    rewrite (draw_groups_ok _ _ _ Hl). cbn [_inventory_view set_inventory_view].
    by rewrite <- app_assoc.
  - intros pre entry post labels Hitems Hl Hentry.
    rewrite (draw_inventory_eq _ _ _ Hinv), Hitems.
    rewrite (draw_groups_fail _ _ _ _ _ Hl Hentry).
    cbn [_inventory_view set_inventory_view]. by rewrite <- app_assoc.
Qed.

(** ** The cache of images *)

Lemma evolves_refl w : evolves w w.
Proof. by repeat split. Qed.

Lemma evolves_trans w1 w2 w3 : evolves w1 w2 -> evolves w2 w3 -> evolves w1 w3.
Proof.
  intros (Hi & Hd & Hc & Ht & Hin & Hnd) (Hi' & Hd' & Hc' & Ht' & Hin' & Hnd').
  repeat split; try congruence; by auto.
Qed.

Lemma evolving_ret {A} (a : A) : evolving (ret a).
Proof. intros w. apply evolves_refl. Qed.

Lemma evolving_raise {A} (e : exn) : evolving (@raise world A e).
Proof. intros w. apply evolves_refl. Qed.

Lemma evolving_get : evolving get.
Proof. intros w. apply evolves_refl. Qed.

Lemma evolving_bind {A B} (m : M world A) (k : A -> M world B) :
  evolving m -> (forall a, evolving (k a)) -> evolving (bind m k).
Proof.
  intros Hm Hk w. unfold bind. specialize (Hm w).
  destruct (m w) as [[a|e] w1]; cbn [snd] in *; [|done].
  eapply evolves_trans; [exact Hm|apply Hk].
Qed.

Lemma evolving_for_each {A} (l : list A) (f : A -> M world unit) :
  (forall x, evolving (f x)) -> evolving (for_each l f).
Proof.
  intros Hf. induction l as [|x l IH]; [apply evolving_ret|].
  cbn [for_each]. apply evolving_bind; [apply Hf | intros _; apply IH].
Qed.

Lemma evolving_modify (f : world -> world) :
  (forall w, evolves w (f w)) -> evolving (modify f).
Proof. intros Hf w. apply Hf. Qed.

Lemma evolving_getitem {A} (l : list A) (i : Z) : evolving (Py.getitem l i).
Proof. unfold Py.getitem. destruct (Py.index l i); intros w; apply evolves_refl. Qed.

Lemma evolving_dict_getitem {K V} `{EqDecision K} (k : K) (d : Dict.t K V) :
  evolving (Dict.getitem k d).
Proof. unfold Dict.getitem. destruct (Dict.lookup k d); intros w; apply evolves_refl. Qed.

Lemma evolving_table (d : gmap string string) (k : string) : evolving (table d k).
Proof. unfold table. destruct (d !! k); intros w; apply evolves_refl. Qed.

Lemma evolving_cell (p : position) : evolving (cell p).
Proof. unfold cell. destruct p as [|r [|c [|x p]]]; intros w; apply evolves_refl. Qed.

Lemma evolving_set_heap h : evolving (modify (set_heap h)).
Proof. intros w. by repeat split. Qed.

Lemma evolving_set_stats c : evolving (modify (set_stats_view c)).
Proof. intros w. by repeat split. Qed.

Lemma evolving_set_inventory c : evolving (modify (set_inventory_view c)).
Proof. intros w. by repeat split. Qed.

Lemma evolving_create c : evolving (LevelView.create c).
Proof. intros w. destruct w as [h [i d cv raw] sv iv cf tk]. by repeat split. Qed.

Lemma evolving_clear : evolving LevelView.clear.
Proof. intros w. destruct w as [h [i d cv raw] sv iv cf tk]. by repeat split. Qed.

(** The cache of images takes a tile id that it does not hold yet, and
    only then. *)
Lemma evolving_store_image tile_id : evolving (LevelView._store_image tile_id).
Proof.
  intros w. destruct w as [h [i d cv raw] sv iv cf tk].
  unfold LevelView._store_image, LevelView.on_view, zoom, modify.
  cbn [snd _level_view set_level_view _images_raw].
  destruct (bool_decide (tile_id ∈ raw)) eqn:Hin; [by repeat split|].
  apply bool_decide_eq_false in Hin.
  repeat split; cbn.
  - intros x Hx. apply elem_of_app. by left.
  - intros Hnd. apply NoDup_app. split; [done|]. split.
    + intros x Hx ->%list_elem_of_singleton. done.
    + apply NoDup_singleton.
Qed.

Create HintDb evolving discriminated.
Hint Resolve evolving_ret evolving_raise evolving_get evolving_getitem
  evolving_dict_getitem evolving_table evolving_cell evolving_set_heap
  evolving_set_stats evolving_set_inventory evolving_create evolving_clear
  evolving_store_image : evolving.

Ltac evolving :=
  repeat first
    [ apply evolving_bind; [|intros ?]
    | apply evolving_for_each; intros ?
    | solve [auto with evolving]
    | match goal with
      | |- evolving (if ?b then _ else _) => destruct b
      | |- evolving (let '(_, _) := ?p in _) => destruct p
      | |- evolving (match ?o with Some _ => _ | None => _ end) => destruct o
      | |- evolving (match ?x with _ => _ end) => destruct x
      end ].

Lemma evolving_level_draw tiles items pos : evolving (LevelView.draw tiles items pos).
Proof.
  unfold LevelView.draw, LevelView._draw_tiles, LevelView._draw_items,
    LevelView._draw_player, LevelView._create_image,
    LevelView.annotate_position, the_items, deref.
  evolving.
Qed.

Lemma evolving_draw_level maze items pos :
  evolving (GraphicalInterface._draw_level maze items pos).
Proof.
  unfold GraphicalInterface._draw_level, get_tiles, deref.
  pose proof evolving_level_draw. evolving.
Qed.

Lemma evolving_draw_stats player_stats :
  evolving (GraphicalInterface._draw_player_stats player_stats).
Proof.
  unfold GraphicalInterface._draw_player_stats, StatsView.draw_stats,
    StatsView._draw_stat_label, StatsView.annotate_position.
  evolving.
Qed.

Lemma evolving_draw_inventory inventory :
  evolving (GraphicalInterface._draw_inventory inventory).
Proof.
  unfold GraphicalInterface._draw_inventory, GraphicalInterface.separate_coins,
    InventoryView.draw_inventory, InventoryView._draw_inventory_header,
    InventoryView._draw_item, InventoryView.pack, StatsView.draw_coins,
    StatsView._draw_stat_label, StatsView.annotate_position,
    get_items, the_list, append, alloc, deref, Dict.items.
  evolving.
Qed.

Lemma evolving_draw maze items pos inventory player_stats :
  evolving (GraphicalInterface.draw maze items pos inventory player_stats).
Proof.
  unfold GraphicalInterface.draw.
  pose proof evolving_draw_level. pose proof evolving_draw_stats.
  pose proof evolving_draw_inventory. evolving.
Qed.

Lemma evolving_clear_all : evolving GraphicalInterface.clear_all.
Proof.
  unfold GraphicalInterface.clear_all, InventoryView.clear, StatsView.clear.
  evolving.
Qed.

(** X11. The cache of images of the level view only grows, and never
    takes an image twice: after [clear_all] and after [draw], whether
    it returns or raises, every image that was in the cache is still
    there, and the cache has no image twice if it had none before. The
    kind and the dimensions of the level view, the controls frame and
    the interpreter are as they were. After [_create_image] has
    returned, the image of its tile is in the cache. *)
Theorem image_cache_grows (w : world) (maze items inventory : nat)
    (player_position : position) (player_stats : stats) :
  evolves w (snd (GraphicalInterface.draw maze items player_position
                    inventory player_stats w))
  /\ evolves w (snd (GraphicalInterface.clear_all w))
  /\ (forall filename tile_pos tile_id,
        fst (LevelView._create_image filename tile_pos tile_id w) = Returned tt ->
        tile_id ∈ _images_raw (_level_view
                    (snd (LevelView._create_image filename tile_pos tile_id w)))).
Proof.
  split; [apply evolving_draw|]. split; [apply evolving_clear_all|].
  intros filename tile_pos tile_id.
  destruct w as [h [i d cv raw] sv iv cf tk].
  destruct tile_pos as [|r [|c [|x p]]]; try discriminate. intros _.
  unfold LevelView._create_image, LevelView._store_image, LevelView.create,
    LevelView.on_view, cell, zoom, modify, bind, ret.
  cbn [fst snd _level_view set_level_view _images_raw].
  destruct (bool_decide (tile_id ∈ raw)) eqn:Hin; cbn [_images_raw].
  - by apply bool_decide_eq_true in Hin.
  - apply elem_of_app. right. by apply list_elem_of_singleton.
Qed.

(** ** Drawing anew *)

Lemma uniform_ret {A} (a : A) : uniform (ret a).
Proof. by intros w w' Hw. Qed.

Lemma uniform_raise {A} (e : exn) : uniform (@raise world A e).
Proof. by intros w w' Hw. Qed.

Lemma uniform_bind {A B} (m : M world A) (k : A -> M world B) :
  uniform m -> (forall a, uniform (k a)) -> uniform (bind m k).
Proof.
  intros Hm Hk w w' Hw. unfold alike_at, bind.
  destruct (Hm w w' Hw) as [Hr Hs].
  destruct (m w) as [[a|e] w1], (m w') as [[a'|e'] w1']; cbn [fst snd] in *;
    try discriminate.
  - injection Hr as <-. by apply Hk.
  - by injection Hr as <-.
Qed.

(** A method may read the state as long as what it does then is alike. *)
Lemma uniform_get {A} (k : world -> M world A) :
  (forall w w', alike w w' -> alike_at w w' (k w) (k w')) ->
  uniform (bind get k).
Proof. intros Hk w w' Hw. by apply Hk. Qed.

Lemma uniform_for_each {A} (l : list A) (f : A -> M world unit) :
  (forall x, uniform (f x)) -> uniform (for_each l f).
Proof.
  intros Hf. induction l as [|x l IH]; [apply uniform_ret|].
  cbn [for_each]. apply uniform_bind; [apply Hf | intros _; apply IH].
Qed.

Lemma uniform_modify (f : world -> world) :
  (forall w w', alike w w' -> alike (f w) (f w')) -> uniform (modify f).
Proof. intros Hf w w' Hw. split; [done|]. by apply Hf. Qed.

Lemma uniform_getitem {A} (l : list A) (i : Z) : uniform (Py.getitem l i).
Proof. unfold Py.getitem. by destruct (Py.index l i); intros w w' Hw. Qed.

Lemma uniform_dict_getitem {K V} `{EqDecision K} (k : K) (d : Dict.t K V) :
  uniform (Dict.getitem k d).
Proof. unfold Dict.getitem. by destruct (Dict.lookup k d); intros w w' Hw. Qed.

Lemma uniform_table (d : gmap string string) (k : string) : uniform (table d k).
Proof. unfold table. by destruct (d !! k); intros w w' Hw. Qed.

Lemma uniform_cell (p : position) : uniform (cell p).
Proof. unfold cell. by destruct p as [|r [|c [|x p]]]; intros w w' Hw. Qed.

Ltac alike_cases :=
  intros [h [i d cv raw] sv iv cf tk] [h' [i' d' cv' raw'] sv' iv' cf' tk']
    (Hh & Hi & Hd & Hcv & Hsv & Hiv);
  cbn in Hh, Hi, Hd, Hcv, Hsv, Hiv; subst.

Lemma uniform_set_heap (f : gmap nat pyobj -> gmap nat pyobj) :
  uniform (bind get (fun w => modify (set_heap (f (heap w))))).
Proof. apply uniform_get. alike_cases. by repeat split. Qed.

Lemma uniform_deref r : uniform (deref r).
Proof.
  unfold deref. apply uniform_get. alike_cases. cbn [heap].
  by destruct (h' !! r).
Qed.

Lemma uniform_alloc o : uniform (alloc o).
Proof. unfold alloc. apply uniform_get. alike_cases. by repeat split. Qed.

Lemma uniform_create c : uniform (LevelView.create c).
Proof. alike_cases. by repeat split. Qed.

Lemma uniform_clear : uniform LevelView.clear.
Proof. alike_cases. by repeat split. Qed.

Lemma uniform_store_image tile_id : uniform (LevelView._store_image tile_id).
Proof.
  alike_cases. unfold alike_at, LevelView._store_image, LevelView.on_view, zoom, modify.
  cbn [fst snd _level_view _images_raw].
  by destruct (bool_decide (tile_id ∈ raw)), (bool_decide (tile_id ∈ raw')).
Qed.

Lemma uniform_stats_clear : uniform StatsView.clear.
Proof. alike_cases. by repeat split. Qed.

Lemma uniform_inventory_clear : uniform InventoryView.clear.
Proof. alike_cases. by repeat split. Qed.

Lemma uniform_stats_annotate c text : uniform (StatsView.annotate_position c text).
Proof. unfold StatsView.annotate_position. apply uniform_get. alike_cases. by repeat split. Qed.

Lemma uniform_pack l : uniform (InventoryView.pack l).
Proof. unfold InventoryView.pack. apply uniform_get. alike_cases. by repeat split. Qed.

Lemma uniform_append l item : uniform (append l item).
Proof.
  unfold append. apply uniform_bind; [apply uniform_deref|]. intros [| | |xs];
    try apply uniform_raise.
  apply uniform_get. alike_cases. by repeat split.
Qed.

Create HintDb uniform discriminated.
Hint Resolve uniform_ret uniform_raise uniform_getitem uniform_dict_getitem
  uniform_table uniform_cell uniform_deref uniform_alloc uniform_create
  uniform_clear uniform_store_image uniform_stats_clear uniform_inventory_clear
  uniform_stats_annotate uniform_pack uniform_append : uniform.

Ltac uniform :=
  repeat first
    [ solve [auto with uniform]
    | apply uniform_bind; [|intros ?]
    | apply uniform_for_each; intros ?
    | match goal with
      | |- uniform (if ?b then _ else _) => destruct b
      | |- uniform (let '(_, _) := ?p in _) => destruct p
      | |- uniform (match ?o with Some _ => _ | None => _ end) => destruct o
      | |- uniform (match ?x with _ => _ end) => destruct x
      end ].

Lemma uniform_by_images {A} (m m' : M world A) :
  uniform m -> uniform m' ->
  uniform (bind get (fun w => if images (_level_view w) then m else m')).
Proof.
  intros Hm Hm'. apply uniform_get. intros w w' Hw.
  pose proof Hw as (_ & Hi & _). rewrite Hi.
  destruct (images (_level_view w')); [apply Hm|apply Hm']; exact Hw.
Qed.

Lemma uniform_create_image filename pos tile_id :
  uniform (LevelView._create_image filename pos tile_id).
Proof. unfold LevelView._create_image. uniform. Qed.

Lemma uniform_annotate pos text : uniform (LevelView.annotate_position pos text).
Proof. unfold LevelView.annotate_position. uniform. Qed.

Lemma uniform_draw_tiles tile pos : uniform (LevelView._draw_tiles tile pos).
Proof.
  pose proof uniform_create_image.
  unfold LevelView._draw_tiles. apply uniform_by_images; uniform.
Qed.

Lemma uniform_draw_items item : uniform (LevelView._draw_items item).
Proof.
  pose proof uniform_create_image. pose proof uniform_annotate.
  unfold LevelView._draw_items. apply uniform_by_images; uniform.
Qed.

Lemma uniform_draw_player pos : uniform (LevelView._draw_player pos).
Proof.
  pose proof uniform_create_image. pose proof uniform_annotate.
  unfold LevelView._draw_player. apply uniform_by_images; uniform.
Qed.

Lemma uniform_level_draw tiles items pos : uniform (LevelView.draw tiles items pos).
Proof.
  pose proof uniform_draw_tiles. pose proof uniform_draw_items.
  pose proof uniform_draw_player.
  unfold LevelView.draw. apply uniform_bind; [apply uniform_clear|]. intros _.
  apply uniform_get. intros w w' Hw.
  pose proof Hw as (_ & _ & Hd & _). rewrite Hd.
  destruct (_dimensions (_level_view w')) as [num_rows num_cols].
  assert (Hbody : uniform
    (for_each (py_range num_rows)
       (fun row =>
          for_each (py_range num_cols)
            (fun col =>
               (tile_row <- Py.getitem tiles row;;
                tile <- Py.getitem tile_row col;;
                LevelView._draw_tiles tile [row; col];;;
                d <- the_items items;;
                (if Dict.contains [row; col] d
                 then
                  d0 <- the_items items;;
                  item <- Dict.getitem [row; col] d0;; LevelView._draw_items item
                 else ret tt))%py));;; LevelView._draw_player pos)%py).
  { unfold the_items. uniform. }
  apply Hbody. exact Hw.
Qed.

Lemma uniform_draw maze items pos inventory player_stats :
  uniform (GraphicalInterface.draw maze items pos inventory player_stats).
Proof.
  pose proof uniform_level_draw.
  unfold GraphicalInterface.draw, GraphicalInterface._draw_level,
    GraphicalInterface._draw_player_stats, GraphicalInterface._draw_inventory,
    GraphicalInterface.separate_coins, StatsView.draw_stats, StatsView.draw_coins,
    StatsView._draw_stat_label, InventoryView.draw_inventory,
    InventoryView._draw_inventory_header, InventoryView._draw_item,
    get_tiles, get_items, the_list, Dict.items.
  uniform.
Qed.

Lemma uniform_clear_all : uniform GraphicalInterface.clear_all.
Proof. unfold GraphicalInterface.clear_all. uniform. Qed.



(** ** Levels that fit the view *)

Lemma dict_contains_lookup {K V} `{EqDecision K} (k : K) (d : Dict.t K V) :
  Dict.contains k d = true -> exists v, Dict.lookup k d = Some v.
Proof.
  induction d as [|[k' v] d IH]; cbn; [done|].
  destruct (decide (k' = k)) as [->|Hne]; [by eauto|].
  rewrite bool_decide_eq_false_2 by done. exact IH.
Qed.

Lemma elem_of_py_range (x n : Z) : x ∈ py_range n -> 0 <= x < n.
Proof.
  unfold py_range. intros (i & -> & Hi%elem_of_seq)%list_elem_of_fmap. lia.
Qed.

(** A loop returns when each turn does, on states that keep what the
    turns rely on. *)
Lemma for_each_returns {S A} (Inv : S -> Prop) (l : list A) (f : A -> M S unit) :
  (forall x s, x ∈ l -> Inv s -> fst (f x s) = Returned tt /\ Inv (snd (f x s))) ->
  forall s, Inv s ->
    fst (for_each l f s) = Returned tt /\ Inv (snd (for_each l f s)).
Proof.
  induction l as [|x l IH]; intros Hf s Hs; [done|].
  cbn [for_each]. unfold bind.
  destruct (Hf x s ltac:(left) Hs) as [Hr Hi].
  destruct (f x s) as [[[]|e] s1]; [|done]. cbn [fst snd] in *.
  apply IH; [|done]. intros y s' Hy. apply Hf. by right.
Qed.

Lemma same_level_after {A} (m : M world A) w w' :
  keeps_heap m -> evolving m -> LevelView.same_level w w' -> LevelView.same_level w (snd (m w')).
Proof.
  intros Hk He [Hh Hi]. split.
  - by rewrite Hk.
  - destruct (He w') as (Hi' & _). congruence.
Qed.

Lemma same_level_refl w : LevelView.same_level w w.
Proof. by split. Qed.

Lemma create_image_returns filename r c tile_id w :
  fst (LevelView._create_image filename [r; c] tile_id w) = Returned tt.
Proof. reflexivity. Qed.

Lemma draw_tiles_returns tile r c w :
  is_Some (LevelView.tile_table w !! Tile_get_id tile) ->
  fst (LevelView._draw_tiles tile [r; c] w) = Returned tt.
Proof.
  unfold LevelView.tile_table, LevelView._draw_tiles, bind at 1, get. cbv beta iota.
  destruct (images (_level_view w)); intros [x Hx]; unfold table; rewrite Hx;
    reflexivity.
Qed.

Lemma draw_entity_returns id r c w :
  is_Some (LevelView.entity_table w !! id) ->
  fst ((w <- get ;;
        if images (_level_view w) then
          filename <- table ENTITY_IMAGES id ;;
          LevelView._create_image filename [r; c] id
        else
          cell_bbox <- cell [r; c] ;;
          fill <- table ENTITY_COLOURS id ;;
          LevelView.create (Oval cell_bbox fill) ;;;
          LevelView.annotate_position [r; c] id)%py w) = Returned tt.
Proof.
  unfold LevelView.entity_table, bind at 1, get. cbv beta iota.
  destruct (images (_level_view w)); intros [x Hx]; unfold table; rewrite Hx;
    reflexivity.
Qed.

Lemma draw_items_returns item r c w :
  Item_get_position item = [r; c] ->
  is_Some (LevelView.entity_table w !! Item_get_id item) ->
  fst (LevelView._draw_items item w) = Returned tt.
Proof.
  intros Hpos Hid. unfold LevelView._draw_items. rewrite Hpos.
  by apply draw_entity_returns.
Qed.

Lemma draw_player_returns r c w :
  is_Some (LevelView.entity_table w !! PLAYER) ->
  fst (LevelView._draw_player [r; c] w) = Returned tt.
Proof. apply draw_entity_returns. Qed.

Lemma draw_eq tiles items pos :
  LevelView.draw tiles items pos
  = (LevelView.clear ;;;
     w <- get ;;
     let '(num_rows, num_cols) := _dimensions (_level_view w) in
     for_each (py_range num_rows) (fun row =>
       for_each (py_range num_cols) (LevelView.draw_cell tiles items row)) ;;;
     LevelView._draw_player pos)%py.
Proof. reflexivity. Qed.

Lemma keeps_draw_cell tiles items row col :
  keeps_heap (LevelView.draw_cell tiles items row col).
Proof.
  unfold LevelView.draw_cell.
  pose proof keeps_draw_tiles. pose proof keeps_draw_items. keeps.
Qed.

Lemma evolving_draw_tiles tile pos : evolving (LevelView._draw_tiles tile pos).
Proof.
  unfold LevelView._draw_tiles, LevelView._create_image. evolving.
Qed.

Lemma evolving_draw_cell tiles items row col :
  evolving (LevelView.draw_cell tiles items row col).
Proof.
  unfold LevelView.draw_cell, LevelView._draw_tiles, LevelView._draw_items,
    LevelView._create_image, LevelView.annotate_position, the_items, deref.
  evolving.
Qed.

Lemma draw_cell_returns w0 tiles items pos w row col :
  LevelView.drawable w0 tiles items pos ->
  LevelView.same_level w0 w ->
  0 <= row < fst (_dimensions (_level_view w0)) ->
  0 <= col < snd (_dimensions (_level_view w0)) ->
  fst (LevelView.draw_cell tiles items row col w) = Returned tt
  /\ LevelView.same_level w0 (snd (LevelView.draw_cell tiles items row col w)).
Proof.
  intros (Htiles & (d & Hd & Hitems) & _) Hsame Hrow Hcol.
  split; [|by apply same_level_after;
             [apply keeps_draw_cell|apply evolving_draw_cell|]].
  destruct (Htiles row col Hrow Hcol) as (tile_row & tile & Hr & Hc & Hid).
  destruct Hsame as [Hheap Himages].
  unfold LevelView.draw_cell, Py.getitem. rewrite Hr.
  unfold bind at 1, ret at 1. cbv beta iota. rewrite Hc.
  unfold bind at 1, ret at 1. cbv beta iota.
  assert (Htile : fst (LevelView._draw_tiles tile [row; col] w) = Returned tt).
  { apply draw_tiles_returns. unfold LevelView.tile_table in *.
    by rewrite Himages. }
  pose proof (keeps_draw_tiles tile [row; col] w) as Hk1.
  pose proof (evolving_draw_tiles tile [row; col] w) as (Hi1 & _).
  unfold bind at 1.
  destruct (LevelView._draw_tiles tile [row; col] w) as [[[]|e] w1]; [|done].
  cbn [fst snd] in *.
  assert (Hd1 : the_items items w1 = (Returned d, w1)).
  { unfold the_items, deref, bind, get. cbv beta iota.
    by rewrite Hk1, Hheap, Hd. }
  rewrite (bind_returned _ _ _ _ _ Hd1).
  destruct (Dict.contains [row; col] d) eqn:Hin; [|done].
  rewrite (bind_returned _ _ _ _ _ Hd1).
  destruct (dict_contains_lookup _ _ Hin) as [item Hitem].
  unfold Dict.getitem. rewrite Hitem. unfold bind at 1, ret at 1.
  cbv beta iota.
  destruct (Hitems row col item Hrow Hcol Hitem) as ((r & c & Hpos) & Hcolour).
  apply (draw_items_returns item r c); [done|].
  unfold LevelView.entity_table in *. by rewrite Hi1, Himages.
Qed.


End facts.

(** [draw] on the demo game with two coins and a potion in the
    inventory: the inventory of the player is as it was. *)
Lemma draw_reads_only_witness :
  heap (snd (GraphicalInterface.draw 0 1 [0; 0] 2 [100; 0; 0]
               (Demo.window_with Demo.purse))) !! 2%nat
  = Some (ObjInventory Demo.purse).
Proof.
  exact (proj1 (draw_reads_only (Demo.window_with Demo.purse) 0 1 2 [0; 0]
                  [100; 0; 0] 2 (ObjInventory Demo.purse) eq_refl)).
Defined.

(** A coin under the key "Gold": the inventory view is given the
    inventory with the coin in it, and draws it. *)
Lemma coin_under_other_key_is_drawn :
  GraphicalInterface.separate_coins 2 (Demo.window_with Demo.gold)
  = (Returned (2%nat, 0), Demo.window_with Demo.gold)
  /\ heap (Demo.window_with Demo.gold) !! 2%nat = Some (ObjInventory Demo.gold)
  /\ In (Demo.coin [0; 1]) (all_items (Inventory._items Demo.gold))
  /\ Item_str (Demo.coin [0; 1]) = COIN
  /\ _inventory_view
       (snd (GraphicalInterface._draw_inventory 2 (Demo.window_with Demo.gold)))
     = [ {| label_text := "Inventory"; label_bg := None; label_click := None |};
         {| label_text := "Gold: 1"; label_bg := Some "yellow";
            label_click := Some "Gold" |} ].
Proof. vm_compute. repeat split. by left. Qed.

(** The coins of the demo inventory are counted and left out. *)
Lemma coins_separated_witness :
  exists r w',
    GraphicalInterface.separate_coins 2 (Demo.window_with Demo.purse)
    = (Returned (r, 2), w')
    /\ heap w' !! r
       = Some (ObjInventory
                 {| Inventory._items := [("Potion", [Demo.potion [0; 0]])] |}).
Proof.
  destruct (proj2 (coins_separated (Demo.window_with Demo.purse) 2 Demo.purse
                     eq_refl)) as (r & w' & Heq & Hr & _).
  exists r, w'. split; [exact Heq|exact Hr].
Defined.

(** The inventory view on the demo inventory with two coins and a
    potion. *)
Lemma draw_inventory_labels_witness :
  InventoryView.draw_inventory 2 (Demo.window_with Demo.purse)
  = (Returned tt,
     set_inventory_view
       (_inventory_view (Demo.window_with Demo.purse)
        ++ InventoryView.header
           :: [ {| label_text := "Coin: 2"; label_bg := Some "yellow";
                   label_click := Some "Coin" |};
                {| label_text := "Potion: 1"; label_bg := Some "green";
                   label_click := Some "Potion" |} ])
       (Demo.window_with Demo.purse)).
Proof.
  apply (proj1 (draw_inventory_labels 2 Demo.purse (Demo.window_with Demo.purse)
                  eq_refl)).
  vm_compute. reflexivity.
Defined.



End ViewFacts.
(* ================================================================== *)
(** * The controller *)
(* ================================================================== *)

Module ControllerFacts.
Import GraphicalMazeRunner.

Section facts.
Context `{A2} `{!Constants} `{!PyText}.

(** ** What the parts of the controller leave alone *)

Lemma on_view_model {A} (m : M GUI.world A) c :
  _model (snd (on_view m c)) = _model c
  /\ _game_file (snd (on_view m c)) = _game_file c
  /\ disk (snd (on_view m c)) = disk c.
Proof. unfold on_view, zoom. by destruct (m (_view c)). Qed.

Lemma message_box_eq message c :
  _create_message_box message c
  = (Returned tt,
     set_view (GUI.set_tk (snd (Tk.showinfo message (GUI.tk (_view c))))
                          (_view c)) c).
Proof. reflexivity. Qed.

Lemma index_lookup {X} (l : list X) (z : Z) (x : X) (f : X -> X) :
  Py.index l z = Some x ->
  exists i, l !! i = Some x /\ Py.index_update l z f = Some (alter f i l).
Proof.
  unfold Py.index, Py.index_update.
  destruct ((0 <=? z) && (z <? Z.of_nat (length l))); [by eauto|].
  destruct ((z <? 0) && (- Z.of_nat (length l) <=? z)); [by eauto|done].
Qed.

Lemma alter_fixed {X} (f : X -> X) (l : list X) (i : nat) (x : X) :
  l !! i = Some x -> f x = x -> alter f i l = l.
Proof.
  intros Hi Hf. apply list_eq. intros j.
  destruct (decide (i = j)) as [<-|Hne].
  - rewrite list_lookup_alter_eq, Hi. cbn. by rewrite Hf.
  - by rewrite list_lookup_alter_ne.
Qed.

(** Reading back objects that have not changed gives the model back. *)
Lemma read_back_same (h : gmap nat pyobj) (m : Model.t) (lvl : Level.t) :
  Py.index (Model._levels m) (Model._level_num m) = Some lvl ->
  h !! MAZE = Some (ObjMaze (Level._maze lvl)) ->
  h !! ITEMS = Some (ObjItems (Level._items lvl)) ->
  h !! INVENTORY = Some (ObjInventory (Player._inventory (Model._player m))) ->
  read_back h m = m.
Proof.
  intros Hlvl Hmaze Hitems Hinv. unfold read_back.
  rewrite Hmaze, Hitems, Hinv.
  destruct (index_lookup _ _ _
              (fun _ => {| Level._maze := Level._maze lvl;
                           Level._items := Level._items lvl |}) Hlvl)
    as (i & Hi & ->).
  rewrite (alter_fixed _ _ i lvl Hi) by by destruct lvl.
  destruct m as [g ls n [p inv he hu th] st]. reflexivity.
Qed.

Lemma redraw_model c : _model (snd (MazeRunner_redraw c)) = _model c.
Proof.
  unfold MazeRunner_redraw, bind at 1, get. cbv beta iota.
  unfold Model.get_current_maze, Model.get_current_items, Model.get_level,
    Py.getitem.
  destruct (Py.index (Model._levels (_model c)) (Model._level_num (_model c)))
    as [lvl|] eqn:Hlvl; [|reflexivity].
  unfold bind, ret, on_view, zoom, modify. cbv beta iota.
  cbn [_view _model set_view set_model].
  set (h := objects _ _ _).
  set (w := GUI.set_heap h (_view c)).
  pose proof (ViewFacts.extends_draw MAZE ITEMS
                (Player.get_position (Model.get_player (_model c)))
                INVENTORY (Model.get_player_stats (_model c)) w) as Hext.
  destruct (GraphicalInterface.draw _ _ _ _ _ w) as [r w'] eqn:Hdraw.
  cbn [snd _model set_model]. cbn [snd] in Hext.
  apply (read_back_same _ _ lvl Hlvl); apply Hext; reflexivity.
Qed.

Lemma redraw_keeps c :
  _model (snd (_redraw c)) = _model c.
Proof.
  unfold _redraw, bind.
  pose proof (on_view_model GraphicalInterface.clear_all c) as (Hm & _ & _).
  destruct (on_view GraphicalInterface.clear_all c) as [[[]|e] c1];
    cbn [snd] in *; [|done].
  by rewrite redraw_model.
Qed.

(** After the move, [_handle_level_update] leaves the model alone. *)
Lemma level_update_model c :
  _model (snd (_handle_level_update c)) = _model c.
Proof.
  unfold _handle_level_update, bind at 1, get. cbv beta iota.
  unfold bind at 1.
  assert (Hdims : forall m : M t unit,
             (m = ret tt \/ exists k, m = bind (Model.get_current_maze (_model c))
                                              (fun maze => on_view (k maze))) ->
             _model (snd (m c)) = _model c).
  { intros m [->|[k ->]]; [done|].
    unfold bind, Model.get_current_maze, Model.get_level, Py.getitem.
    destruct (Py.index _ _); [|done]. unfold bind, ret. cbv beta iota.
    apply on_view_model. }
  set (dims := if did_level_up (_model c) then _ else _).
  assert (Hd : _model (snd (dims c)) = _model c).
  { apply Hdims. unfold dims. destruct (did_level_up (_model c)); [|by left].
    right. by exists (fun maze => GraphicalInterface.set_maze_dimensions
                                    (Maze_get_dimensions maze)). }
  destruct (dims c) as [[[]|e] c1]; cbn [snd] in *; [|done].
  unfold bind at 1.
  set (stop := if _ && _ then _ else _).
  assert (Hs : _model (snd (stop c1)) = _model c1).
  { unfold stop. destruct (_ && _); [apply on_view_model|done]. }
  destruct (stop c1) as [[[]|e] c2]; cbn [snd] in *; [|congruence].
  destruct (has_won (_model c)).
  { rewrite message_box_eq. cbn. congruence. }
  destruct (has_lost (_model c)).
  { rewrite message_box_eq. cbn. congruence. }
  rewrite redraw_keeps. congruence.
Qed.

(** ** Key presses *)

Lemma keypress_move char delta c :
  MOVE_DELTAS !! char = Some delta ->
  _get_finished_state c = false ->
  _handle_keypress char c
  = _handle_level_update (set_model (move_player delta (_model c)) c).
Proof.
  intros Hkey Hfin. unfold _handle_keypress, bind at 1, get. cbv beta iota.
  rewrite Hkey, Hfin. rewrite bool_decide_eq_true_2 by by eexists.
  cbn [andb negb]. unfold _handle_move. rewrite Hkey. reflexivity.
Qed.

Lemma keypress_ignored char c :
  MOVE_DELTAS !! char = None \/ _get_finished_state c = true ->
  _handle_keypress char c = (Returned tt, c).
Proof.
  intros Hcase. unfold _handle_keypress, bind at 1, get. cbv beta iota.
  destruct Hcase as [Hkey|Hfin].
  - rewrite Hkey. rewrite bool_decide_eq_false_2; [done|].
    by intros [x Hx].
  - rewrite Hfin. by rewrite andb_false_r.
Qed.

Lemma level_update_unfinished c :
  has_won (_model c) = false -> has_lost (_model c) = false ->
  _handle_level_update c = bind update_dimensions (fun _ => _redraw) c.
Proof.
  intros Hwon Hlost.
  unfold _handle_level_update, update_dimensions, _get_finished_state.
  unfold bind at 1, get. cbv beta iota.
  unfold bind at 4, get. cbv beta iota.
  rewrite Hwon, Hlost. reflexivity.
Qed.

Lemma level_update_finished c :
  _get_finished_state c = true ->
  _handle_level_update c
  = bind update_dimensions
         (fun _ => bind stop_timer_in_task_2
            (fun _ => _create_message_box
                        (if has_won (_model c) then WIN_MESSAGE
                         else LOSS_MESSAGE))) c.
Proof.
  intros Hfin.
  unfold _handle_level_update, update_dimensions, stop_timer_in_task_2.
  unfold bind at 1, get. cbv beta iota.
  unfold bind at 5, get. cbv beta iota.
  rewrite Hfin. unfold _get_finished_state in Hfin.
  destruct (has_won (_model c)); [reflexivity|].
  cbn [orb] in Hfin. rewrite Hfin. reflexivity.
Qed.

Lemma on_view_drawing_dimensions dimensions c :
  drawing (snd (on_view (GraphicalInterface.set_maze_dimensions dimensions) c))
  = drawing c
  /\ shown (snd (on_view (GraphicalInterface.set_maze_dimensions dimensions) c))
     = shown c
  /\ fst (on_view (GraphicalInterface.set_maze_dimensions dimensions) c)
     = Returned tt.
Proof. by destruct c as [m g [hp [i d cv raw] sv iv cf tk] fs]. Qed.

Lemma update_dimensions_drawing c :
  drawing (snd (update_dimensions c)) = drawing c
  /\ shown (snd (update_dimensions c)) = shown c
  /\ _model (snd (update_dimensions c)) = _model c.
Proof.
  change (update_dimensions c)
    with ((if did_level_up (_model c)
           then bind (Model.get_current_maze (_model c))
                  (fun maze => on_view (GraphicalInterface.set_maze_dimensions
                                          (Maze_get_dimensions maze)))
           else ret tt) c).
  destruct (did_level_up (_model c)); [|by repeat split].
  unfold bind, Model.get_current_maze, Model.get_level, Py.getitem.
  destruct (Py.index _ _); [|by repeat split]. unfold bind, ret.
  cbv beta iota.
  split; [apply on_view_drawing_dimensions|].
  split; [apply on_view_drawing_dimensions|]. apply on_view_model.
Qed.

Lemma stop_timer_drawing c :
  drawing (snd (stop_timer_in_task_2 c)) = drawing c
  /\ shown (snd (stop_timer_in_task_2 c)) = shown c
  /\ _model (snd (stop_timer_in_task_2 c)) = _model c.
Proof.
  unfold stop_timer_in_task_2. destruct (TASK =? 2); [|by repeat split].
  split; [|split; [|apply on_view_model]].
  - destruct c as [m g [hp lv sv iv [cf|] tk] fs]; [|done].
    unfold on_view, zoom, GraphicalInterface.stop_timer,
      GraphicalInterface.on_controls. cbn [_view GUI._controls_frame GUI.tk].
    by destruct (ControlsFrame.stop_timer (cf, tk)) as [r [cf' tk']].
  - destruct c as [m g [hp lv sv iv [cf|] tk] fs]; [|done].
    unfold on_view, zoom, GraphicalInterface.stop_timer,
      GraphicalInterface.on_controls, ControlsFrame.stop_timer,
      ControlsFrame.cancel_timer_update, ControlsFrame.on_frame,
      ControlsFrame.on_tk, zoom, bind, get, attr.
    cbn [_view GUI._controls_frame GUI.tk fst snd].
    destruct (ControlsFrame._timer_value cf); [|done].
    destruct (ControlsFrame._timer_update cf); done.
Qed.

(** C7, as amended. On a movement key, while the game is not finished,
    [_handle_keypress] moves the player: the model becomes the one
    that [move_player] gives, and stays it. If the game is still not
    finished after the move, the view takes the new dimensions when
    the level changed and a full redraw follows. If the move finished
    the game there is no redraw: the timer is stopped (in task 2),
    the message box of the win or of the loss is shown and the three
    views show what they showed before. Once the game is finished, no
    run of key presses changes the controller at all, its model
    included. *)
Theorem keypress_moves_then_redraws_or_ends (c : t) (char : string)
    (delta : Z * Z) :
  MOVE_DELTAS !! char = Some delta ->
  _get_finished_state c = false ->
  let moved := set_model (move_player delta (_model c)) c in
  _model (snd (_handle_keypress char c)) = move_player delta (_model c)
  /\ (_get_finished_state moved = false ->
      _handle_keypress char c = bind update_dimensions (fun _ => _redraw) moved)
  /\ (_get_finished_state moved = true ->
      _handle_keypress char c
      = bind update_dimensions
             (fun _ => bind stop_timer_in_task_2
                (fun _ => _create_message_box
                            (if has_won (_model moved) then WIN_MESSAGE
                             else LOSS_MESSAGE))) moved
      /\ drawing (snd (_handle_keypress char c)) = drawing c
      /\ (fst (_handle_keypress char c) = Returned tt ->
          shown (snd (_handle_keypress char c))
          = shown c ++ [if has_won (_model moved) then WIN_MESSAGE
                        else LOSS_MESSAGE]))
  /\ (forall (d : t) (chars : list string),
        _get_finished_state d = true -> after_keypresses chars d = d).
Proof.
  intros Hkey Hfin moved.
  rewrite (keypress_move _ _ _ Hkey Hfin). fold moved.
  split; [apply level_update_model|].
  split.
  { intros Hnot. unfold _get_finished_state in Hnot.
    apply orb_false_iff in Hnot as [Hwon Hlost].
    by apply level_update_unfinished. }
  split.
  { intros Hend. rewrite (level_update_finished _ Hend).
    split; [reflexivity|].
    pose proof (update_dimensions_drawing moved) as (Hd1 & Hs1 & Hm1).
    unfold bind at 1 3 5.
    destruct (update_dimensions moved) as [[[]|e] c1]; cbn [fst snd] in *;
      [|by split].
    pose proof (stop_timer_drawing c1) as (Hd2 & Hs2 & Hm2).
    unfold bind.
    destruct (stop_timer_in_task_2 c1) as [[[]|e] c2]; cbn [fst snd] in *.
    - rewrite message_box_eq. cbn [fst snd].
      split.
      + transitivity (drawing c2); [reflexivity|]. by rewrite Hd2, Hd1.
      + intros _.
        transitivity (shown c2 ++ [if has_won (_model moved) then WIN_MESSAGE
                                   else LOSS_MESSAGE]); [reflexivity|].
        by rewrite Hs2, Hs1.
    - split; [by rewrite Hd2, Hd1|done]. }
  intros d chars Hd. induction chars as [|ch chars IH]; [done|].
  cbn [after_keypresses fold_left].
  rewrite (keypress_ignored ch d) by by right. exact IH.
Qed.

(** ** Loading a game *)

Lemma on_disk_load self c :
  on_disk (MazeRunnerFile.load self) c
  = (fst (MazeRunnerFile.load self (disk c)), c).
Proof.
  unfold on_disk, zoom.
  pose proof (FileFacts.load_keeps_files self (disk c)) as Hfs.
  destruct (MazeRunnerFile.load self (disk c)) as [r fs]. cbn [fst snd] in *.
  rewrite Hfs. by destruct c.
Qed.

Lemma keeps_fd_bind {A} (m : M t A) (k : A -> M t unit) :
  (forall c, _game_file (snd (m c)) = _game_file c
             /\ disk (snd (m c)) = disk c) ->
  (forall a, keeps_file_and_disk (k a)) ->
  keeps_file_and_disk (bind m k).
Proof.
  intros Hm Hk c. unfold bind. specialize (Hm c).
  destruct (m c) as [[a|e] c1]; cbn [snd] in *; [|done].
  destruct (Hk a c1) as [-> ->]. exact Hm.
Qed.

Lemma keeps_fd_on_view (m : M GUI.world unit) : keeps_file_and_disk (on_view m).
Proof. intros c. by destruct (on_view_model m c) as (_ & ? & ?). Qed.

Lemma keeps_fd_level {A} (f : Level.t -> A) (m : Model.t) (c : t) :
  _game_file (snd ((l <- Model.get_level m ;; ret (f l))%py c)) = _game_file c
  /\ disk (snd ((l <- Model.get_level m ;; ret (f l))%py c)) = disk c.
Proof.
  unfold Model.get_level, Py.getitem, bind, ret, raise.
  by destruct (Py.index _ _).
Qed.

Lemma keeps_fd_redraw : keeps_file_and_disk _redraw.
Proof.
  unfold _redraw. apply keeps_fd_bind; [apply keeps_fd_on_view|]. intros _.
  unfold MazeRunner_redraw.
  apply keeps_fd_bind; [done|]. intros c0.
  apply keeps_fd_bind; [apply keeps_fd_level|]. intros maze.
  apply keeps_fd_bind; [apply keeps_fd_level|]. intros items.
  apply keeps_fd_bind; [apply keeps_fd_on_view|]. intros _ c.
  by destruct (GraphicalInterface.draw _ _ _ _ _ _) as [r w'].
Qed.

Lemma keeps_fd_new_game_model model :
  keeps_file_and_disk (_create_new_game_model model).
Proof.
  unfold _create_new_game_model.
  apply keeps_fd_bind; [done|]. intros _.
  apply keeps_fd_bind; [done|]. intros c0.
  apply keeps_fd_bind; [apply keeps_fd_level|]. intros maze.
  apply keeps_fd_bind; [apply keeps_fd_on_view|]. intros _.
  apply keeps_fd_bind; [apply keeps_fd_on_view|]. intros _.
  apply keeps_fd_redraw.
Qed.

Lemma keeps_fd_load_body path : keeps_file_and_disk (load_game_body path).
Proof.
  unfold load_game_body. apply keeps_fd_bind.
  { intros c. by rewrite on_disk_load. }
  intros [model time].
  apply keeps_fd_bind; [apply keeps_fd_new_game_model|]. intros _.
  apply keeps_fd_on_view.
Qed.


(** ** The timer through the events *)

Lemma same_timer_refl c : same_timer c c.
Proof. by split. Qed.

Lemma same_timer_trans c1 c2 c3 :
  same_timer c1 c2 -> same_timer c2 c3 -> same_timer c1 c3.
Proof. intros [? ?] [? ?]. split; congruence. Qed.

Lemma same_timer_settled c c' :
  same_timer c c' -> timer_settled c -> timer_settled c'.
Proof.
  intros [Hcf Hq] (cf & Hc & time & text & h & Hf & Hp).
  exists cf. split; [congruence|]. exists time, text, h.
  cbn [fst snd] in *. split; [done|]. by rewrite Hq.
Qed.

Lemma keeps_timer_bind {A B} (m : M t A) (k : A -> M t B) :
  keeps_timer m -> (forall a, keeps_timer (k a)) -> keeps_timer (bind m k).
Proof.
  intros Hm Hk c. unfold bind. specialize (Hm c).
  destruct (m c) as [[a|e] c1]; cbn [snd] in *; [|done].
  eapply same_timer_trans; [exact Hm|apply Hk].
Qed.

Lemma keeps_settled_bind {A B} (m : M t A) (k : A -> M t B) :
  keeps_settled m -> (forall a, keeps_settled (k a)) -> keeps_settled (bind m k).
Proof.
  intros Hm Hk c Hc. unfold bind. specialize (Hm c Hc).
  destruct (m c) as [[a|e] c1]; cbn [snd] in *; [|done].
  by apply Hk.
Qed.

Lemma keeps_settled_view {A} (m : M t A) :
  (forall c, _view (snd (m c)) = _view c) -> keeps_settled m.
Proof.
  intros Hm c (cf & Hc & Hs). exists cf. by rewrite (Hm c).
Qed.

Lemma keeps_timer_settled {A} (m : M t A) : keeps_timer m -> keeps_settled m.
Proof. intros Hm c. apply same_timer_settled, Hm. Qed.

Lemma keeps_timer_evolving {A} (m : M GUI.world A) :
  GUI.evolving m -> keeps_timer (on_view m).
Proof.
  intros Hm c. unfold on_view, zoom. specialize (Hm (_view c)).
  destruct (m (_view c)) as [r w]. cbn [snd] in *.
  destruct Hm as (_ & _ & Hc & Ht & _). split; cbn; congruence.
Qed.

Lemma keeps_timer_level {A} (f : Level.t -> A) (m : Model.t) :
  keeps_timer (l <- Model.get_level m ;; ret (f l))%py.
Proof.
  intros c. unfold Model.get_level, Py.getitem, bind, ret, raise.
  destruct (Py.index _ _); apply same_timer_refl.
Qed.

Lemma keeps_timer_dimensions dimensions :
  keeps_timer (on_view (GraphicalInterface.set_maze_dimensions dimensions)).
Proof. intros c. by destruct c as [m g [hp [i d cv raw] sv iv cf tk] fs]. Qed.

Lemma keeps_timer_message_box message : keeps_timer (_create_message_box message).
Proof. intros c. rewrite message_box_eq. by split. Qed.

Lemma keeps_timer_set_heap h : keeps_timer (on_view (modify (GUI.set_heap h))).
Proof. intros c. by split. Qed.

Lemma keeps_timer_MazeRunner_redraw : keeps_timer MazeRunner_redraw.
Proof.
  unfold MazeRunner_redraw.
  apply keeps_timer_bind; [intros c; apply same_timer_refl|]. intros c0.
  apply keeps_timer_bind; [apply keeps_timer_level|]. intros maze.
  apply keeps_timer_bind; [apply keeps_timer_level|]. intros items.
  apply keeps_timer_bind; [apply keeps_timer_set_heap|]. intros _ c.
  pose proof (ViewFacts.evolving_draw MAZE ITEMS
                (Player.get_position (Model.get_player (_model c0))) INVENTORY
                (Model.get_player_stats (_model c0)) (_view c)) as Hev.
  destruct (GraphicalInterface.draw _ _ _ _ _ _) as [r w']. cbn [snd] in *.
  destruct Hev as (_ & _ & Hc & Ht & _). split; cbn; congruence.
Qed.

Lemma keeps_timer_redraw : keeps_timer _redraw.
Proof.
  unfold _redraw. apply keeps_timer_bind.
  - apply keeps_timer_evolving, ViewFacts.evolving_clear_all.
  - intros _. apply keeps_timer_MazeRunner_redraw.
Qed.

Lemma keeps_settled_op (o : ControlsFrame.op) :
  ControlsFrame.is_start o = false ->
  keeps_settled (on_view (GraphicalInterface.on_controls (ControlsFrame.run_op o))).
Proof.
  intros Ho c (cf & Hc & Hs).
  destruct (TimerFacts.run_op_settled o _ Ho Hs) as [_ Hset].
  unfold on_view, zoom, GraphicalInterface.on_controls. rewrite Hc.
  destruct (ControlsFrame.run_op o (cf, GUI.tk (_view c))) as [r [cf' i']].
  cbn [snd] in *. exists cf'. by split.
Qed.

Lemma keeps_settled_get_time : keeps_settled (on_view GraphicalInterface.get_time).
Proof.
  intros c (cf & Hc & Hs).
  unfold on_view, zoom, GraphicalInterface.get_time, GraphicalInterface.on_controls.
  rewrite Hc. cbn. exists cf. by split.
Qed.

Lemma keeps_settled_level_update : keeps_settled _handle_level_update.
Proof.
  unfold _handle_level_update.
  apply keeps_settled_bind; [by apply keeps_settled_view|]. intros c0.
  apply keeps_settled_bind.
  { destruct (did_level_up _); [|by apply keeps_settled_view]. apply keeps_timer_settled.
    apply keeps_timer_bind; [apply keeps_timer_level|]. intros maze.
    apply keeps_timer_dimensions. }
  intros _. apply keeps_settled_bind.
  { destruct (_ && _); [|by apply keeps_settled_view].
    apply (keeps_settled_op ControlsFrame.OpStop). reflexivity. }
  intros _. destruct (has_won _).
  { apply keeps_timer_settled, keeps_timer_message_box. }
  destruct (has_lost _).
  { apply keeps_timer_settled, keeps_timer_message_box. }
  apply keeps_timer_settled, keeps_timer_redraw.
Qed.

Lemma keeps_settled_keypress char : keeps_settled (_handle_keypress char).
Proof.
  unfold _handle_keypress.
  apply keeps_settled_bind; [by apply keeps_settled_view|]. intros c0.
  destruct (_ && _); [|by apply keeps_settled_view]. unfold _handle_move.
  apply keeps_settled_bind; [|intros _; apply keeps_settled_level_update].
  by destruct (MOVE_DELTAS !! char); apply keeps_settled_view.
Qed.

Lemma keeps_settled_new_game_model model :
  keeps_settled (_create_new_game_model model).
Proof.
  unfold _create_new_game_model.
  apply keeps_settled_bind; [by apply keeps_settled_view|]. intros _.
  apply keeps_settled_bind; [by apply keeps_settled_view|]. intros c0.
  apply keeps_settled_bind.
  { apply keeps_timer_settled, keeps_timer_level. }
  intros maze.
  apply keeps_settled_bind.
  { apply keeps_timer_settled, keeps_timer_dimensions. }
  intros _. apply keeps_settled_bind.
  { apply (keeps_settled_op ControlsFrame.OpReset). reflexivity. }
  intros _. apply keeps_timer_settled, keeps_timer_redraw.
Qed.

Lemma keeps_settled_new_game_file game_file :
  keeps_settled (_create_new_game_file game_file).
Proof.
  unfold _create_new_game_file.
  apply keeps_settled_bind.
  { unfold _try_open_file. apply keeps_settled_bind; [by apply keeps_settled_view|]. intros c0.
    destruct (disk c0 !! game_file); [by apply keeps_settled_view|].
    apply keeps_settled_bind; [|by intros; apply keeps_settled_view].
    apply keeps_timer_settled, keeps_timer_message_box. }
  intros [|]; [|by apply keeps_settled_view].
  apply keeps_settled_bind; [by apply keeps_settled_view|]. intros c0.
  apply keeps_settled_bind; [by apply keeps_settled_view|]. intros model.
  apply keeps_settled_bind; [apply keeps_settled_new_game_model|].
  by intros; apply keeps_settled_view.
Qed.

Lemma keeps_settled_on_disk {A} (m : M files A) : keeps_settled (on_disk m).
Proof.
  apply keeps_settled_view. intros c. unfold on_disk, zoom.
  by destruct (m (disk c)).
Qed.

Lemma keeps_settled_save file_path : keeps_settled (_handle_save_game file_path).
Proof.
  unfold _handle_save_game.
  apply keeps_settled_bind; [by apply keeps_settled_view|]. intros c0.
  apply keeps_settled_bind; [apply keeps_settled_get_time|]. intros time.
  apply keeps_settled_on_disk.
Qed.

Lemma keeps_settled_load file_path : keeps_settled (_handle_load_game file_path).
Proof.
  assert (Hbody : keeps_settled (load_game_body file_path)).
  { unfold load_game_body.
    apply keeps_settled_bind; [apply keeps_settled_on_disk|]. intros [model time].
    apply keeps_settled_bind; [apply keeps_settled_new_game_model|]. intros _.
    apply (keeps_settled_op (ControlsFrame.OpSetTime time)). reflexivity. }
  intros c Hc. unfold _handle_load_game, try_except. specialize (Hbody c Hc).
  destruct (load_game_body file_path c) as [[[]|e] c1]; [done|].
  by apply keeps_timer_settled; [apply keeps_timer_message_box|].
Qed.

Lemma keeps_settled_turn : keeps_settled mainloop_turn.
Proof.
  intros c Hc. pose proof Hc as (cf & Hcf & _).
  pose proof (keeps_settled_op ControlsFrame.OpMainloopStep eq_refl c Hc) as Hk.
  unfold mainloop_turn, on_view, zoom in *. by rewrite Hcf.
Qed.

Lemma keeps_settled_handle e : keeps_settled (handle e).
Proof.
  destruct e; cbn [handle].
  - apply keeps_settled_keypress.
  - unfold _handle_restart_game. apply keeps_settled_bind; [by apply keeps_settled_view|]. intros c0.
    apply keeps_settled_new_game_file.
  - apply keeps_settled_new_game_file.
  - apply keeps_settled_save.
  - apply keeps_settled_load.
  - apply keeps_settled_turn.
Qed.

(** X15. Once the timer is settled, as [play] leaves it, it stays
    settled through every run of events: keys, restarts, new games,
    saves, loads and turns of the main loop, whether their handlers
    return or raise. At most one callback of the timer is ever
    pending. *)
Theorem timer_stays_settled (events : list event) (c : t) :
  timer_settled c ->
  timer_settled (after_events events c)
  /\ (length (Tk.pending (GUI.tk (_view (after_events events c)))) <= 1)%nat.
Proof.
  intros Hc.
  assert (Hs : timer_settled (after_events events c)).
  { revert c Hc. induction events as [|e events IH]; intros c Hc; [done|].
    cbn [after_events fold_left]. apply IH. by apply keeps_settled_handle. }
  split; [exact Hs|].
  destruct Hs as (cf & _ & time & text & h & _ & [Hq|Hq]); cbn [snd] in Hq;
    rewrite Hq; cbn; lia.
Qed.

(** ** Starting the game *)

Lemma on_view_eq {A} (m : M GUI.world A) c r w :
  m (_view c) = (r, w) -> on_view m c = (r, set_view w c).
Proof. intros Hm. unfold on_view, zoom. by rewrite Hm. Qed.

Lemma view_evolves_bind {A B} (m : M t A) (k : A -> M t B) :
  (forall c, GUI.evolves (_view c) (_view (snd (m c)))) ->
  (forall a c, GUI.evolves (_view c) (_view (snd (k a c)))) ->
  forall c, GUI.evolves (_view c) (_view (snd (bind m k c))).
Proof.
  intros Hm Hk c. unfold bind. specialize (Hm c).
  destruct (m c) as [[a|e] c1]; cbn [snd] in *; [|done].
  eapply ViewFacts.evolves_trans; [exact Hm|apply Hk].
Qed.

Lemma view_evolves_on_view {A} (m : M GUI.world A) :
  GUI.evolving m -> forall c, GUI.evolves (_view c) (_view (snd (on_view m c))).
Proof.
  intros Hm c. unfold on_view, zoom. specialize (Hm (_view c)).
  by destruct (m (_view c)) as [r w].
Qed.

Lemma view_evolves_level {A} (f : Level.t -> A) (m : Model.t) c :
  GUI.evolves (_view c) (_view (snd ((l <- Model.get_level m ;; ret (f l))%py c))).
Proof.
  unfold Model.get_level, Py.getitem, bind, ret, raise.
  destruct (Py.index _ _); apply ViewFacts.evolves_refl.
Qed.

Lemma view_evolves_redraw c : GUI.evolves (_view c) (_view (snd (_redraw c))).
Proof.
  revert c. unfold _redraw. apply view_evolves_bind.
  { apply view_evolves_on_view, ViewFacts.evolving_clear_all. }
  intros _. unfold MazeRunner_redraw.
  apply view_evolves_bind; [intros c; apply ViewFacts.evolves_refl|]. intros c0.
  apply view_evolves_bind; [apply view_evolves_level|]. intros maze.
  apply view_evolves_bind; [apply view_evolves_level|]. intros items.
  apply view_evolves_bind.
  { apply view_evolves_on_view, ViewFacts.evolving_set_heap. }
  intros _ c.
  pose proof (ViewFacts.evolving_draw MAZE ITEMS
                (Player.get_position (Model.get_player (_model c0))) INVENTORY
                (Model.get_player_stats (_model c0)) (_view c)) as Hev.
  by destruct (GraphicalInterface.draw _ _ _ _ _ _) as [r w'].
Qed.

Lemma create_interface_eq dimensions w :
  TASK = 2 ->
  GraphicalInterface.create_interface dimensions w
  = (Returned tt,
     GUI.set_controls (ControlsFrame.drawn 0 (ControlsFrame._handle_timer_format 0) None)
       (GUI.tk w)
       (GUI.set_inventory_view []
          (GUI.set_stats_view []
             (GUI.set_level_view
                {| GUI.images := true; GUI._dimensions := dimensions;
                   GUI.level_canvas := []; GUI._images_raw := [] |} w)))).
Proof.
  intros Htask.
  unfold GraphicalInterface.create_interface,
    GraphicalInterface._create_level_view,
    GraphicalInterface._create_stats_view,
    GraphicalInterface._create_inventory_view,
    GraphicalInterface._create_controls_frame.
  rewrite Htask. change (2 =? 2) with true.
  unfold bind, modify. cbv beta iota.
  cbn [GUI.tk GUI.set_inventory_view GUI.set_stats_view GUI.set_level_view].
  by rewrite TimerFacts.created_eq.
Qed.

Lemma start_timer_eq time text h i w :
  GraphicalInterface.start_timer (GUI.set_controls (ControlsFrame.drawn time text h) i w)
  = (Returned tt,
     GUI.set_controls
       (ControlsFrame.drawn (time + 1) (ControlsFrame._handle_timer_format time)
          (Some (Tk.next_id i)))
       (ControlsFrame.schedule i) w).
Proof. reflexivity. Qed.

(** X14. In task 2, on a model that has a current level and with no
    callback pending, [play] builds a level view of images with the
    dimensions of the current maze, and starts the timer once: the
    timer is settled, its first tick has run, so that the time is 1,
    and the one callback pending is the next tick. The model is as it
    was. *)
Theorem play_starts_timer (c : t) (lvl : Level.t) :
  TASK = 2 ->
  Py.index (Model._levels (_model c)) (Model._level_num (_model c)) = Some lvl ->
  Tk.pending (GUI.tk (_view c)) = [] ->
  timer_settled (snd (play c))
  /\ time_of (snd (play c)) = Some 1
  /\ Tk.pending (GUI.tk (_view (snd (play c))))
     = [ControlsFrame.timer_event (Tk.next_id (GUI.tk (_view c)))]
  /\ GUI.images (GUI._level_view (_view (snd (play c)))) = true
  /\ GUI._dimensions (GUI._level_view (_view (snd (play c))))
     = Maze_get_dimensions (Level._maze lvl)
  /\ _model (snd (play c)) = _model c.
Proof.
  intros Htask Hlvl Hq.
  set (w1 := GUI.set_controls
               (ControlsFrame.drawn (0 + 1) (ControlsFrame._handle_timer_format 0)
                  (Some (Tk.next_id (GUI.tk (_view c)))))
               (ControlsFrame.schedule (GUI.tk (_view c)))
               (GUI.set_inventory_view []
                  (GUI.set_stats_view []
                     (GUI.set_level_view
                        {| GUI.images := true;
                           GUI._dimensions := Maze_get_dimensions (Level._maze lvl);
                           GUI.level_canvas := []; GUI._images_raw := [] |}
                        (_view c))))).
  assert (Hplay : play c = _redraw (set_view w1 c)).
  { unfold play, bind at 1, get. cbv beta iota.
    unfold bind at 1, Model.get_current_maze, Model.get_level, Py.getitem.
    rewrite Hlvl. unfold bind at 1, ret at 1. cbv beta iota.
    change (ret (Level._maze lvl) c) with (Returned (Level._maze lvl), c).
    cbv beta iota.
    erewrite ViewFacts.bind_returned;
      [|apply on_view_eq, create_interface_eq, Htask].
    rewrite Htask. change (2 =? 2) with true. cbv iota.
    erewrite ViewFacts.bind_returned; [|apply on_view_eq, start_timer_eq].
    reflexivity. }
  rewrite Hplay.
  pose proof (view_evolves_redraw (set_view w1 c)) as (Hi & Hd & Hcf & Htk & _).
  cbn [_view set_view] in Hi, Hd, Hcf, Htk.
  split.
  { eexists. split; [by rewrite Hcf|]. eexists _, _, _. split; [reflexivity|].
    right. cbn [snd]. rewrite Htk. unfold w1. cbn. by rewrite Hq. }
  split; [unfold time_of; by rewrite Hcf|].
  split; [rewrite Htk; unfold w1; cbn; by rewrite Hq|].
  split; [by rewrite Hi|]. split; [by rewrite Hd|].
  by rewrite redraw_keeps.
Qed.

(** ** The end of the game *)

Lemma turn_idle c :
  Tk.pending (GUI.tk (_view c)) = [] -> mainloop_turn c = (Returned tt, c).
Proof.
  destruct c as [m g [hp lv sv iv [cf|] [q k d]] fs]; cbn [_view GUI.tk Tk.pending];
    intros ->; reflexivity.
Qed.

Lemma update_dimensions_timer c :
  (did_level_up (_model c) = true ->
   is_Some (Py.index (Model._levels (_model c)) (Model._level_num (_model c)))) ->
  fst (update_dimensions c) = Returned tt
  /\ GUI._controls_frame (_view (snd (update_dimensions c)))
     = GUI._controls_frame (_view c)
  /\ GUI.tk (_view (snd (update_dimensions c))) = GUI.tk (_view c)
  /\ _model (snd (update_dimensions c)) = _model c.
Proof.
  intros Hlvl.
  change (update_dimensions c)
    with ((if did_level_up (_model c)
           then bind (Model.get_current_maze (_model c))
                  (fun maze => on_view (GraphicalInterface.set_maze_dimensions
                                          (Maze_get_dimensions maze)))
           else ret tt) c).
  destruct (did_level_up (_model c)); [|by repeat split].
  destruct (Hlvl eq_refl) as [lvl Hl].
  unfold bind, Model.get_current_maze, Model.get_level, Py.getitem.
  rewrite Hl. unfold bind, ret. cbv beta iota.
  by destruct c as [m g [hp [i d cv raw] sv iv cf tk] fs].
Qed.

(** X16. In task 2, with the timer settled, the move that ends the
    game stops the clock: the handler returns, no callback is pending
    any more, and the controls frame, with its time and its label, is
    as it was. From then on neither a key nor a turn of the main loop
    changes anything. *)
Theorem finishing_move_freezes (c : t) (char : string) (delta : Z * Z)
    (events : list event) :
  let moved := set_model (move_player delta (_model c)) c in
  MOVE_DELTAS !! char = Some delta ->
  _get_finished_state c = false ->
  _get_finished_state moved = true ->
  TASK = 2 ->
  (did_level_up (_model moved) = true ->
   is_Some (Py.index (Model._levels (_model moved))
                     (Model._level_num (_model moved)))) ->
  timer_settled c ->
  fst (_handle_keypress char c) = Returned tt
  /\ Tk.pending (GUI.tk (_view (snd (_handle_keypress char c)))) = []
  /\ GUI._controls_frame (_view (snd (_handle_keypress char c)))
     = GUI._controls_frame (_view c)
  /\ (forallb key_or_turn events = true ->
      after_events events (snd (_handle_keypress char c))
      = snd (_handle_keypress char c)).
Proof.
  intros moved Hkey Hfin Hend Htask Hlvl (cf & Hcf & time & text & h & Hf & Hq).
  cbn [fst snd] in Hf, Hq.
  assert (exists c', _handle_keypress char c = (Returned tt, c')
                     /\ Tk.pending (GUI.tk (_view c')) = []
                     /\ GUI._controls_frame (_view c') = Some cf
                     /\ _get_finished_state c' = true)
    as (c' & Heq & Hq' & Hcf' & Hfin').
  { rewrite (keypress_move _ _ _ Hkey Hfin). fold moved.
    rewrite (level_update_finished _ Hend).
    destruct (update_dimensions_timer moved Hlvl) as (Hr1 & Hc1 & Ht1 & Hm1).
    change (_view moved) with (_view c) in Hc1, Ht1.
    unfold bind at 1.
    destruct (update_dimensions moved) as [[[]|e] c1]; cbn [fst snd] in *;
      [|discriminate].
    unfold stop_timer_in_task_2. rewrite Htask. change (2 =? 2) with true.
    cbv iota.
    assert (Hstop : on_view GraphicalInterface.stop_timer c1
                    = (Returned tt,
                       set_view (GUI.set_controls cf
                                   (ControlsFrame.unschedule h (GUI.tk (_view c1)))
                                   (_view c1)) c1)).
    { apply on_view_eq. unfold GraphicalInterface.stop_timer,
        GraphicalInterface.on_controls. rewrite Hc1, Hcf. subst cf.
      unfold ControlsFrame.stop_timer. fold ControlsFrame.stop_timer.
      by rewrite TimerFacts.stop_timer_eq. }
    unfold bind. rewrite Hstop, message_box_eq.
    eexists. split; [reflexivity|]. split; [|split; [reflexivity|]].
    - cbn [_view set_view GUI.tk GUI.set_tk GUI.set_controls snd Tk.showinfo modify
             Tk.pending].
      unfold ControlsFrame.unschedule. cbn [Tk.pending]. rewrite Ht1.
      destruct Hq as [->| ->]; [done|apply TimerFacts.filter_event_same].
    - unfold _get_finished_state in *. cbn [_model set_view]. by rewrite Hm1. }
  rewrite Heq. cbn [fst snd].
  split; [done|]. split; [exact Hq'|]. split; [by rewrite Hcf|].
  intros Hev. induction events as [|e events IH]; [done|].
  cbn [forallb] in Hev. apply andb_true_iff in Hev as [He Hev].
  cbn [after_events fold_left]. fold (after_events events).
  destruct e; try discriminate; cbn [handle].
  - rewrite (keypress_ignored _ c') by by right. by apply IH.
  - rewrite (turn_idle c' Hq'). by apply IH.
Qed.

(** ** Loading, restarting and saving *)

Lemma keeps_shown_bind {A B} (m : M t A) (k : A -> M t B) :
  keeps_shown m -> (forall a, keeps_shown (k a)) -> keeps_shown (bind m k).
Proof.
  intros Hm Hk c. unfold bind. specialize (Hm c).
  destruct (m c) as [[a|e] c1]; cbn [snd] in *; [|done].
  by rewrite Hk.
Qed.

Lemma keeps_shown_view {A} (m : M t A) :
  (forall c, GUI.tk (_view (snd (m c))) = GUI.tk (_view c)) -> keeps_shown m.
Proof. intros Hm c. unfold shown. by rewrite Hm. Qed.

Lemma timer_op_dialogs (o : ControlsFrame.op) (s : ControlsFrame.st) :
  Tk.dialogs (snd (snd (ControlsFrame.run_op o s))) = Tk.dialogs (snd s).
Proof.
  destruct s as [[r time [v|] [u|]] [[|[id ms []] q] k d]]; by destruct o.
Qed.

Lemma keeps_shown_op (o : ControlsFrame.op) :
  keeps_shown (on_view (GraphicalInterface.on_controls (ControlsFrame.run_op o))).
Proof.
  intros c. unfold shown, on_view, zoom, GraphicalInterface.on_controls.
  destruct (GUI._controls_frame (_view c)) as [cf|]; [|done].
  pose proof (timer_op_dialogs o (cf, GUI.tk (_view c))) as Hd.
  by destruct (ControlsFrame.run_op o (cf, GUI.tk (_view c))) as [r [cf' i']].
Qed.

Lemma keeps_shown_redraw : keeps_shown _redraw.
Proof.
  apply keeps_shown_view. intros c.
  by destruct (view_evolves_redraw c) as (_ & _ & _ & Htk & _).
Qed.

Lemma keeps_shown_new_game_model model : keeps_shown (_create_new_game_model model).
Proof.
  unfold _create_new_game_model.
  apply keeps_shown_bind; [done|]. intros _.
  apply keeps_shown_bind; [done|]. intros c0.
  apply keeps_shown_bind.
  { apply keeps_shown_view. intros c.
    by destruct (view_evolves_level Level._maze (_model c0) c) as (_ & _ & _ & Htk & _). }
  intros maze. apply keeps_shown_bind.
  { apply keeps_shown_view. intros c.
    by destruct c as [m g [hp [i d cv raw] sv iv cf tk] fs]. }
  intros _. apply keeps_shown_bind.
  { apply (keeps_shown_op ControlsFrame.OpReset). }
  intros _. apply keeps_shown_redraw.
Qed.

Lemma new_game_model_model model c :
  _model (snd (_create_new_game_model model c)) = model.
Proof.
  unfold _create_new_game_model, bind at 1, modify. cbv beta iota.
  unfold bind at 1, get. cbv beta iota.
  unfold bind at 1, Model.get_current_maze, Model.get_level, Py.getitem.
  cbn [_model set_model].
  destruct (Py.index _ _) as [lvl|]; [|reflexivity].
  unfold bind at 1, ret at 1. cbv beta iota.
  change (ret (Level._maze lvl) (set_model model c))
    with (Returned (Level._maze lvl), set_model model c). cbv beta iota.
  unfold bind at 1.
  pose proof (on_view_model (GraphicalInterface.set_maze_dimensions
                               (Maze_get_dimensions (Level._maze lvl)))
                (set_model model c)) as (Hm1 & _).
  cbn [_model set_model] in Hm1.
  destruct (on_view _ (set_model model c)) as [[[]|e] c1]; cbn [snd] in *; [|done].
  unfold bind at 1.
  pose proof (on_view_model GraphicalInterface.reset_time c1) as (Hm2 & _).
  destruct (on_view GraphicalInterface.reset_time c1) as [[[]|e] c2];
    cbn [snd] in *; [|congruence].
  rewrite redraw_keeps. congruence.
Qed.

Lemma set_time_returned time w :
  fst (GraphicalInterface.set_time time w) = Returned tt ->
  ControlsFrame._time <$> GUI._controls_frame (snd (GraphicalInterface.set_time time w))
  = Some (time + 1).
Proof.
  unfold GraphicalInterface.set_time, GraphicalInterface.on_controls.
  destruct (GUI._controls_frame w) as [[r t0 [v|] [u|]]|]; try discriminate.
  reflexivity.
Qed.

(** X17. When nothing raises in [_handle_load_game], the model is the
    one that [MazeRunnerFile.load] returned, no message box is shown,
    and the time of the timer is one more than the time read from the
    file: [set_time] ends with a tick. *)
Theorem load_game_installs (c : t) (path : string) :
  fst (load_game_body path c) = Returned tt ->
  exists model time,
    fst (MazeRunnerFile.load (reader path) (disk c)) = Returned (model, time)
    /\ _handle_load_game path c = load_game_body path c
    /\ _model (snd (_handle_load_game path c)) = model
    /\ time_of (snd (_handle_load_game path c)) = Some (time + 1)
    /\ shown (snd (_handle_load_game path c)) = shown c.
Proof.
  intros Hbody.
  assert (Heq : _handle_load_game path c = load_game_body path c).
  { unfold _handle_load_game, try_except.
    by destruct (load_game_body path c) as [[[]|e] c1]. }
  assert (Hrun : exists model time c1,
             fst (MazeRunnerFile.load (reader path) (disk c)) = Returned (model, time)
             /\ _create_new_game_model model c = (Returned tt, c1)
             /\ load_game_body path c = on_view (GraphicalInterface.set_time time) c1).
  { revert Hbody. unfold load_game_body, bind. rewrite on_disk_load.
    fold (reader path).
    destruct (fst (MazeRunnerFile.load (reader path) (disk c)))
      as [[model time]|e]; [|discriminate].
    cbn [fst snd].
    destruct (_create_new_game_model model c) as [[[]|e] c1] eqn:Hnew;
      [|discriminate].
    intros _. exists model, time, c1. by repeat split. }
  destruct Hrun as (model & time & c1 & Hload & Hnew & Hrun).
  rewrite Heq, Hrun. rewrite Hrun in Hbody.
  exists model, time. split; [done|]. split; [done|].
  pose proof (new_game_model_model model c) as Hm.
  pose proof (keeps_shown_new_game_model model c) as Hs.
  rewrite Hnew in Hm, Hs. cbn [snd] in Hm, Hs.
  pose proof (on_view_model (GraphicalInterface.set_time time) c1) as (Hm2 & _).
  pose proof (keeps_shown_op (ControlsFrame.OpSetTime time) c1) as Hs2.
  change (on_view (GraphicalInterface.on_controls
                     (ControlsFrame.run_op (ControlsFrame.OpSetTime time))) c1)
    with (on_view (GraphicalInterface.set_time time) c1) in Hs2.
  split; [congruence|]. split; [|congruence].
  unfold time_of, on_view, zoom in *.
  pose proof (set_time_returned time (_view c1)) as Ht.
  destruct (GraphicalInterface.set_time time (_view c1)) as [r w].
  cbn [fst snd _view set_view] in *. by apply Ht.
Qed.

(** X18. [_create_new_game_file] never writes. When there is no file
    at the path, it shows "Path Not Found!" and returns, with the game
    as it was. When [Model] raises on the file, the exception leaves
    the handler with nothing changed. When [Model] returns, the model
    of the controller is replaced by the new one, with no message box,
    but the game file of the controller takes the new path only when
    the handler returns: when the drawing of the new game raises, the
    controller keeps the old path with the new model.
    [_handle_restart_game] never changes the game file. *)
Theorem new_game_file_cases (c : t) (game_file : string) :
  (disk c !! game_file = None ->
   _create_new_game_file game_file c = _create_message_box "Path Not Found!" c)
  /\ (forall e, is_Some (disk c !! game_file) ->
        Model_init (disk c) game_file = Raised e ->
        _create_new_game_file game_file c = (Raised e, c))
  /\ (forall model, is_Some (disk c !! game_file) ->
        Model_init (disk c) game_file = Returned model ->
        _model (snd (_create_new_game_file game_file c)) = model
        /\ shown (snd (_create_new_game_file game_file c)) = shown c
        /\ _game_file (snd (_create_new_game_file game_file c))
           = match fst (_create_new_game_file game_file c) with
             | Returned _ => game_file
             | Raised _ => _game_file c
             end)
  /\ disk (snd (_create_new_game_file game_file c)) = disk c
  /\ _game_file (snd (_handle_restart_game c)) = _game_file c.
Proof.
  assert (Hfile : forall g content,
             disk c !! g = Some content ->
             _create_new_game_file g c
             = bind (MazeRunnerFile.of_outcome (Model_init (disk c) g))
                    (fun model => bind (_create_new_game_model model)
                       (fun _ => modify (set_game_file g))) c).
  { intros g content Hg. unfold _create_new_game_file, _try_open_file.
    unfold bind at 1 2, get at 1. cbv beta iota. rewrite Hg.
    unfold ret at 1. cbv beta iota. reflexivity. }
  assert (Hmissing : forall g, disk c !! g = None ->
             _create_new_game_file g c = _create_message_box "Path Not Found!" c).
  { intros g Hg. unfold _create_new_game_file, _try_open_file.
    unfold bind at 1 2, get at 1. cbv beta iota. rewrite Hg.
    unfold bind. rewrite message_box_eq. reflexivity. }
  assert (Hmodel : forall g model,
             _game_file (snd (bind (_create_new_game_model model)
                                (fun _ => modify (set_game_file g)) c))
             = match fst (bind (_create_new_game_model model)
                            (fun _ => modify (set_game_file g)) c) with
               | Returned _ => g
               | Raised _ => _game_file c
               end
             /\ disk (snd (bind (_create_new_game_model model)
                             (fun _ => modify (set_game_file g)) c)) = disk c
             /\ _model (snd (bind (_create_new_game_model model)
                               (fun _ => modify (set_game_file g)) c)) = model
             /\ shown (snd (bind (_create_new_game_model model)
                              (fun _ => modify (set_game_file g)) c)) = shown c).
  { intros g model. unfold bind.
    pose proof (keeps_fd_new_game_model model c) as [Hg Hd].
    pose proof (new_game_model_model model c) as Hm.
    pose proof (keeps_shown_new_game_model model c) as Hs.
    by destruct (_create_new_game_model model c) as [[[]|e] c1]. }
  assert (Hdisk : forall g, disk (snd (_create_new_game_file g c)) = disk c
                            /\ (g = _game_file c ->
                                _game_file (snd (_create_new_game_file g c))
                                = _game_file c)).
  { intros g. destruct (disk c !! g) as [content|] eqn:Hg.
    - rewrite (Hfile g content Hg). unfold bind at 1 3, MazeRunnerFile.of_outcome.
      destruct (Model_init (disk c) g) as [model|e]; [|done].
      destruct (Hmodel g model) as (Hgf & Hd & _). split; [exact Hd|].
      intros ->. rewrite Hgf. by destruct (fst _).
    - rewrite (Hmissing g Hg), message_box_eq. done. }
  split; [apply Hmissing|].
  split.
  { intros e [content Hg] He. rewrite (Hfile _ content Hg).
    unfold bind, MazeRunnerFile.of_outcome. by rewrite He. }
  split.
  { intros model [content Hg] Hinit. rewrite (Hfile _ content Hg).
    unfold bind at 1 3 5 7, MazeRunnerFile.of_outcome. rewrite Hinit.
    destruct (Hmodel game_file model) as (Hgf & Hd & Hm & Hs). by repeat split. }
  split; [apply Hdisk|].
  unfold _handle_restart_game, bind, get. cbv beta iota. by apply Hdisk.
Qed.

(** X19. [_handle_save_game] leaves the model, the game file of the
    controller and the view as they are, and no file other than the
    one at the path chosen. Without controls frame it raises
    [AttributeError]. With one, and a model that has a current level,
    it writes at the path the seven records of the model with the
    stored time of the timer; for the empty path, which the dialog
    gives when it is cancelled, it raises [FileNotFoundError] and
    nothing is written. *)
Theorem save_game_writes (c : t) (file_path : string) :
  _model (snd (_handle_save_game file_path c)) = _model c
  /\ _game_file (snd (_handle_save_game file_path c)) = _game_file c
  /\ _view (snd (_handle_save_game file_path c)) = _view c
  /\ (forall p, p <> file_path ->
        disk (snd (_handle_save_game file_path c)) !! p = disk c !! p)
  /\ (GUI._controls_frame (_view c) = None ->
      _handle_save_game file_path c = (Raised AttributeError, c))
  /\ (forall cf lvl,
        GUI._controls_frame (_view c) = Some cf ->
        Py.index (Model._levels (_model c)) (Model._level_num (_model c)) = Some lvl ->
        (file_path <> "" ->
         _handle_save_game file_path c
         = (Returned tt,
            set_disk
              (<[file_path :=
                   Py.writelines
                     (MazeRunnerFile.records (Model._level_num (_model c))
                        (Model._game_file (_model c)) (Level._items lvl)
                        (Inventory._items (Player._inventory (Model._player (_model c))))
                        (Model.get_player_stats (_model c))
                        (Player._position (Model._player (_model c)))
                        (ControlsFrame._time cf))]> (disk c)) c))
        /\ (file_path = "" ->
            _handle_save_game file_path c = (Raised FileNotFoundError, c))).
Proof.
  assert (Hnone : GUI._controls_frame (_view c) = None ->
                  _handle_save_game file_path c = (Raised AttributeError, c)).
  { intros Hcf. unfold _handle_save_game, bind, get. cbv beta iota.
    unfold on_view, zoom, GraphicalInterface.get_time, GraphicalInterface.on_controls.
    rewrite Hcf. by destruct c. }
  assert (Hsome : forall cf, GUI._controls_frame (_view c) = Some cf ->
                  _handle_save_game file_path c
                  = on_disk (MazeRunnerFile.save
                               {| MazeRunnerFile._file_path := Some file_path;
                                  MazeRunnerFile._model := Some (_model c);
                                  MazeRunnerFile._time := Some (ControlsFrame._time cf) |}) c).
  { intros cf Hcf. unfold _handle_save_game, bind at 1, get. cbv beta iota.
    unfold bind, on_view at 1, zoom at 1, GraphicalInterface.get_time,
      GraphicalInterface.on_controls.
    rewrite Hcf. cbn.
    replace (set_view _ c) with c; [done|].
    destruct c as [m g [hp lv sv iv cf0 tk] fs]. cbn in *. by subst. }
  assert (Hsave : forall self,
             snd (MazeRunnerFile.save self (disk c)) = disk c
             \/ exists path content,
                  MazeRunnerFile._file_path self = Some path
                  /\ snd (MazeRunnerFile.save self (disk c))
                     = <[path := content]> (disk c)).
  { intros self. unfold MazeRunnerFile.save, attr, bind, ret, raise.
    destruct (MazeRunnerFile._model self) as [model|]; [|by left].
    unfold Model.get_current_items, Model.get_level, Py.getitem, bind, ret, raise.
    destruct (Py.index _ _) as [level|]; [|by left]. cbv beta iota.
    destruct (MazeRunnerFile._time self) as [time|]; [|by left].
    destruct (MazeRunnerFile._file_path self) as [path|]; [|by left].
    unfold MazeRunnerFile.open_write.
    destruct (decide (path = "")) as [->|Hne]; [by left|].
    right. by eexists _, _. }
  destruct (GUI._controls_frame (_view c)) as [cf|] eqn:Hcf.
  - rewrite (Hsome cf eq_refl). unfold on_disk, zoom.
    set (self := {| MazeRunnerFile._file_path := Some file_path;
                    MazeRunnerFile._model := Some (_model c);
                    MazeRunnerFile._time := Some (ControlsFrame._time cf) |}).
    pose proof (Hsave self) as Hfs.
    pose proof (fun lvl Hne Hlvl =>
                  FileFacts.save_records (disk c) file_path (_model c)
                    (ControlsFrame._time cf) lvl Hne Hlvl) as Hrec.
    fold self in Hrec.
    assert (Hempty : file_path = "" ->
                     forall lvl, Py.index (Model._levels (_model c))
                                   (Model._level_num (_model c)) = Some lvl ->
                     MazeRunnerFile.save self (disk c)
                     = (Raised FileNotFoundError, disk c)).
    { intros -> lvl Hlvl.
      unfold MazeRunnerFile.save, attr, bind, ret, raise. cbn [self MazeRunnerFile._model].
      unfold Model.get_current_items, Model.get_level, Py.getitem, bind, ret, raise.
      rewrite Hlvl. reflexivity. }
    destruct (MazeRunnerFile.save self (disk c)) as [r fs].
    cbn [fst snd] in *.
    split; [done|]. split; [done|]. split; [done|].
    split.
    { intros p Hp. cbn. destruct Hfs as [->|(path & content & [= <-] & ->)]; [done|].
      by rewrite lookup_insert_ne. }
    split; [done|].
    intros cf' lvl [= <-] Hlvl. split.
    + intros Hne. by injection (Hrec lvl Hne Hlvl) as -> ->.
    + intros He. injection (Hempty He lvl Hlvl) as -> ->. by destruct c.
  - rewrite (Hnone eq_refl). by repeat split.
Qed.

End facts.



(** A step to the right on the demo game, which does not end it. *)
Lemma keypress_moves_then_redraws_or_ends_witness :
  Model._player (_model (snd (_handle_keypress "d" Demo.started)))
  = {| Player._position := [0; 1];
       Player._inventory := {| Inventory._items := [] |};
       Player._health := 100; Player._hunger := 0; Player._thirst := 0 |}.
Proof.
  assert (Hkey : MOVE_DELTAS !! "d" = Some (0, 1)) by (vm_compute; reflexivity).
  assert (Hfin : _get_finished_state Demo.started = false)
    by (vm_compute; reflexivity).
  rewrite (proj1 (keypress_moves_then_redraws_or_ends Demo.started "d" (0, 1)
                    Hkey Hfin)).
  vm_compute. reflexivity.
Defined.

(** The step that reaches the exit: the key is a movement key, the game
    was not finished, the player is moved, and nothing is redrawn: the
    level view still shows the player on the cell left, where a redraw
    shows the player on the exit. *)
Lemma keypress_that_wins_is_not_redrawn :
  MOVE_DELTAS !! "d" = Some (0, 1)
  /\ _get_finished_state Demo.near_exit = false
  /\ fst (_handle_keypress "d" Demo.near_exit) = Returned tt
  /\ Player._position
       (Model._player (_model (snd (_handle_keypress "d" Demo.near_exit))))
     = [0; 2]
  /\ drawing (snd (_handle_keypress "d" Demo.near_exit)) = drawing Demo.near_exit
  /\ GUI.level_canvas (GUI._level_view (_view Demo.near_exit))
     = [Image (0, 0) " "; Image (0, 1) " "; Image (0, 1) "C"; Image (0, 2) "D";
        Image (0, 1) "P"]
  /\ GUI.level_canvas
       (GUI._level_view
          (_view (snd (_redraw (snd (_handle_keypress "d" Demo.near_exit))))))
     = [Image (0, 0) " "; Image (0, 1) " "; Image (0, 1) "C"; Image (0, 2) "D";
        Image (0, 2) "P"]
  /\ shown (snd (_handle_keypress "d" Demo.near_exit)) = ["You won!"].
Proof. vm_compute. repeat split. Qed.

(** The demo game, from the controller as it is constructed. *)
Lemma play_starts_timer_witness :
  time_of (snd (play Demo.constructed)) = Some 1
  /\ Tk.pending (GUI.tk (_view (snd (play Demo.constructed))))
     = [ControlsFrame.timer_event 0].
Proof.
  assert (Htask : TASK = 2) by reflexivity.
  assert (Hlvl : Py.index (Model._levels (_model Demo.constructed))
                   (Model._level_num (_model Demo.constructed)) = Some Demo.corridor)
    by (vm_compute; reflexivity).
  assert (Hq : Tk.pending (GUI.tk (_view Demo.constructed)) = []) by reflexivity.
  destruct (play_starts_timer Demo.constructed Demo.corridor Htask Hlvl Hq)
    as (_ & Htime & Hpending & _).
  split; [exact Htime|exact Hpending].
Defined.

(** A run of events on the demo game. *)
Lemma timer_stays_settled_witness :
  (length (Tk.pending (GUI.tk (_view
     (after_events [KeyPress "d"; MainloopTurn; SaveGame "save.txt"; LoadGame "save.txt";
                    Restart; MainloopTurn] Demo.started)))) <= 1)%nat.
Proof.
  assert (Hs : timer_settled Demo.started).
  { exists (ControlsFrame.drawn 42 "0m 41s" (Some 41%nat)).
    split; [vm_compute; reflexivity|].
    exists 42, "0m 41s", 41%nat. split; [reflexivity|]. right. vm_compute. reflexivity. }
  exact (proj2 (timer_stays_settled _ Demo.started Hs)).
Defined.

(** The step onto the exit of the corridor. *)
Lemma finishing_move_freezes_witness :
  fst (_handle_keypress "d" Demo.near_exit) = Returned tt
  /\ Tk.pending (GUI.tk (_view (snd (_handle_keypress "d" Demo.near_exit)))) = []
  /\ after_events [KeyPress "a"; MainloopTurn; MainloopTurn]
       (snd (_handle_keypress "d" Demo.near_exit))
     = snd (_handle_keypress "d" Demo.near_exit).
Proof.
  assert (Hkey : MOVE_DELTAS !! "d" = Some (0, 1)) by (vm_compute; reflexivity).
  assert (Hfin : _get_finished_state Demo.near_exit = false)
    by (vm_compute; reflexivity).
  assert (Hend : _get_finished_state
                   (set_model (move_player (0, 1) (_model Demo.near_exit))
                      Demo.near_exit) = true)
    by (vm_compute; reflexivity).
  assert (Htask : TASK = 2) by reflexivity.
  assert (Hlvl : did_level_up
                   (_model (set_model (move_player (0, 1) (_model Demo.near_exit))
                              Demo.near_exit)) = true ->
                 is_Some (Py.index
                   (Model._levels (_model (set_model
                       (move_player (0, 1) (_model Demo.near_exit)) Demo.near_exit)))
                   (Model._level_num (_model (set_model
                       (move_player (0, 1) (_model Demo.near_exit)) Demo.near_exit)))))
    by (intros _; vm_compute; by eexists).
  assert (Hs : timer_settled Demo.near_exit).
  { exists (ControlsFrame.drawn 42 "0m 41s" (Some 41%nat)).
    split; [vm_compute; reflexivity|].
    exists 42, "0m 41s", 41%nat. split; [reflexivity|]. right. vm_compute. reflexivity. }
  destruct (finishing_move_freezes Demo.near_exit "d" (0, 1)
              [KeyPress "a"; MainloopTurn; MainloopTurn] Hkey Hfin Hend Htask Hlvl Hs)
    as (Hret & Hq & _ & Hfrozen).
  split; [exact Hret|]. split; [exact Hq|]. apply Hfrozen. reflexivity.
Defined.

(** A save file with the seven records, saved at time 75. *)
Lemma load_game_installs_witness :
  exists model,
    fst (MazeRunnerFile.load (reader "save.txt")
           (<["save.txt" := Demo.seven_records]> Demo.game_disk))
    = Returned (model, 75)
    /\ time_of (snd (_handle_load_game "save.txt"
                       (set_disk (<["save.txt" := Demo.seven_records]> Demo.game_disk)
                          Demo.near_exit))) = Some 76.
Proof.
  assert (Hbody : fst (load_game_body "save.txt"
                         (set_disk (<["save.txt" := Demo.seven_records]> Demo.game_disk)
                            Demo.near_exit)) = Returned tt)
    by (vm_compute; reflexivity).
  destruct (load_game_installs _ "save.txt" Hbody)
    as (model & time & Hload & _ & _ & Htime & _).
  assert (Hl : fst (MazeRunnerFile.load (reader "save.txt")
                      (<["save.txt" := Demo.seven_records]> Demo.game_disk))
               = Returned (Demo.seven_records_loaded, 75)) by (vm_compute; reflexivity).
  change (disk (set_disk (<["save.txt" := Demo.seven_records]> Demo.game_disk)
                  Demo.near_exit))
    with (<["save.txt" := Demo.seven_records]> Demo.game_disk) in Hload.
  rewrite Hl in Hload. injection Hload as <- <-.
  exists Demo.seven_records_loaded. split; [exact Hl|exact Htime].
Defined.

(** A path without a file, and the game file of the demo. *)
Lemma new_game_file_cases_witness :
  _create_new_game_file "nosuch.txt" Demo.started
  = _create_message_box "Path Not Found!" Demo.started
  /\ _model (snd (_create_new_game_file "demo.txt" Demo.near_exit))
     = Demo.new_model "demo.txt".
Proof.
  assert (Hnone : disk Demo.started !! "nosuch.txt" = None) by (vm_compute; reflexivity).
  assert (Hsome : is_Some (disk Demo.near_exit !! "demo.txt"))
    by (vm_compute; by eexists).
  assert (Hinit : Model_init (disk Demo.near_exit) "demo.txt"
                  = Returned (Demo.new_model "demo.txt")) by (vm_compute; reflexivity).
  split.
  - exact (proj1 (new_game_file_cases Demo.started "nosuch.txt") Hnone).
  - exact (proj1 (proj1 (proj2 (proj2 (new_game_file_cases Demo.near_exit "demo.txt")))
                    (Demo.new_model "demo.txt") Hsome Hinit)).
Defined.

(** The demo game, saved next to the exit at time 42. *)
Lemma save_game_writes_witness :
  disk (snd (_handle_save_game "save.txt" Demo.near_exit)) !! "save.txt"
  = Some (Demo.text ["Level 0"; "File demo.txt"; "Entities {(0, 1): Coin((0, 1))}";
                     "Inventory {}"; "Stats (100, 0, 0)"; "Position (0, 1)"; "Time 42"])
  /\ _handle_save_game "" Demo.near_exit = (Raised FileNotFoundError, Demo.near_exit).
Proof.
  assert (Hcf : GUI._controls_frame (_view Demo.near_exit)
                = Some (ControlsFrame.drawn 42 "0m 41s" (Some 41%nat)))
    by (vm_compute; reflexivity).
  assert (Hlvl : Py.index (Model._levels (_model Demo.near_exit))
                   (Model._level_num (_model Demo.near_exit)) = Some Demo.corridor)
    by (vm_compute; reflexivity).
  split.
  - assert (Hne : "save.txt" <> "") by discriminate.
    rewrite (proj1 (proj2 (proj2 (proj2 (proj2 (proj2
               (save_game_writes Demo.near_exit "save.txt")))))
               _ _ Hcf Hlvl) Hne).
    vm_compute. reflexivity.
  - exact (proj2 (proj2 (proj2 (proj2 (proj2 (proj2
             (save_game_writes Demo.near_exit "")))))
             _ _ Hcf Hlvl) eq_refl).
Defined.

End ControllerFacts.
